(** * areeb-model-web: tool-call orchestration and sandboxed handlers

    A shallow embedding of the Python sources

      - [tools/file_operations.py]      (class FileOperations)
      - [tools/edit_operations.py]      (class EditOperations)
      - [tools/terminal_operations.py]  (class TerminalOperations)
      - [tools/search_operations.py]    (class SearchOperations)
      - [proxy_server.py]               (class AreebModelProxy)

    Python [str] values are modelled as [string]; the characters are the code
    points of the text, and the case and white-space tables below are the
    ASCII rows of Python's tables.  Python dictionaries that are serialised
    with [json.dumps] are modelled as JSON objects whose members keep their
    insertion order.  The file system is a finite map from absolute,
    normalised paths to nodes. *)

From Stdlib Require Import ZArith Ascii String List Bool Lia Sorted Permutation.
From stdpp Require Import base option list strings gmap.

Local Open Scope Z_scope.
Set Warnings "-register-all,-clear-no-such-hyp".

(* ===================================================================== *)
(** * Python string primitives *)
(* ===================================================================== *)

Module PyStr.

Definition chr (n : nat) : ascii := ascii_of_nat n.
Definition ord (c : ascii) : nat := nat_of_ascii c.

Definition nl : ascii := chr 10.
Definition NL : string := String nl EmptyString.

(** [c.lower()] on one character *)
Definition lower_char (c : ascii) : ascii :=
  let n := ord c in
  if ((65 <=? n) && (n <=? 90))%nat then chr (n + 32) else c.

(** [s.lower()] *)
Fixpoint lower (s : string) : string :=
  match s with
  | EmptyString => EmptyString
  | String c s' => String (lower_char c) (lower s')
  end.

(** [c.isspace()]: TAB, LF, VT, FF, CR, FS, GS, RS, US and SPACE *)
Definition isspace (c : ascii) : bool :=
  let n := ord c in
  (((9 <=? n) && (n <=? 13)) || ((28 <=? n) && (n <=? 32)))%nat.

(** [s.lstrip()] *)
Fixpoint lstrip (s : string) : string :=
  match s with
  | EmptyString => EmptyString
  | String c s' => if isspace c then lstrip s' else s
  end.

(** [s.rstrip()] *)
Fixpoint rstrip (s : string) : string :=
  match s with
  | EmptyString => EmptyString
  | String c s' =>
      match rstrip s' with
      | EmptyString => if isspace c then EmptyString else String c EmptyString
      | r => String c r
      end
  end.

(** [s.strip()] *)
Definition strip (s : string) : string := rstrip (lstrip s).

(** [s.startswith(p)] *)
Fixpoint startswith (s p : string) : bool :=
  match p, s with
  | EmptyString, _ => true
  | String _ _, EmptyString => false
  | String a p', String b s' => Ascii.eqb a b && startswith s' p'
  end.

(** [sub in s] *)
Fixpoint contains (s sub : string) : bool :=
  startswith s sub ||
  match s with
  | EmptyString => false
  | String _ s' => contains s' sub
  end.

(** [s.endswith(c)] for a one-character suffix *)
Fixpoint endswith_char (s : string) (c : ascii) : bool :=
  match s with
  | EmptyString => false
  | String a EmptyString => Ascii.eqb a c
  | String _ s' => endswith_char s' c
  end.

(** [s.split(sep)] for a one-character separator: never the empty list *)
Fixpoint split (sep : ascii) (s : string) : list string :=
  match s with
  | EmptyString => [EmptyString]
  | String c s' =>
      if Ascii.eqb c sep then EmptyString :: split sep s'
      else match split sep s' with
           | [] => [String c EmptyString]
           | w :: ws => String c w :: ws
           end
  end.

(** [sep.join(l)] *)
Fixpoint join (sep : string) (l : list string) : string :=
  match l with
  | [] => EmptyString
  | [x] => x
  | x :: rest => x +:+ sep +:+ join sep rest
  end.

Definition cr : ascii := chr 13.

(** text-mode reading with [newline=None]: CR LF and a lone CR become LF *)
Fixpoint universal_newlines (s : string) : string :=
  match s with
  | EmptyString => EmptyString
  | String c s' =>
      if Ascii.eqb c cr then
        String nl match s' with
                  | String c2 s'' =>
                      if Ascii.eqb c2 nl then universal_newlines s''
                      else universal_newlines s'
                  | EmptyString => EmptyString
                  end
      else String c (universal_newlines s')
  end.

(** [f.readlines()] on decoded text: every line keeps its terminator *)
Fixpoint readlines (s : string) : list string :=
  match s with
  | EmptyString => []
  | String c s' =>
      if Ascii.eqb c nl then String nl EmptyString :: readlines s'
      else match readlines s' with
           | [] => [String c EmptyString]
           | l :: ls => String c l :: ls
           end
  end.

(** [''.join(l)] *)
Definition concat (l : list string) : string := fold_right String.append EmptyString l.

(** Decimal rendering of a natural number and of an integer, [str(n)] *)
Fixpoint digits_fuel (fuel n : nat) (acc : string) : string :=
  match fuel with
  | O => acc
  | S fuel' =>
      let acc' := String (chr (48 + n mod 10)) acc in
      match (n / 10)%nat with
      | O => acc'
      | q => digits_fuel fuel' q acc'
      end
  end.

Definition str_nat (n : nat) : string := digits_fuel (S n) n EmptyString.

Definition str_Z (z : Z) : string :=
  if z <? 0 then String "-" (str_nat (Z.to_nat (- z))) else str_nat (Z.to_nat z).

End PyStr.

(* ===================================================================== *)
(** * posixpath: [os.path] on a POSIX host *)
(* ===================================================================== *)

Module PosixPath.
Import PyStr.

Definition sep : ascii := "/"%char.

Definition isabs (p : string) : bool := startswith p "/".

(** [os.path.join(a, b)] *)
Definition join (a b : string) : string :=
  if startswith b "/" then b
  else if String.eqb a EmptyString || endswith_char a sep then a +:+ b
  else a +:+ "/" +:+ b.

(** the component loop of [normpath] *)
Fixpoint norm_comps (initial_slashes : bool) (comps : list string)
         (new_comps : list string) : list string :=
  match comps with
  | [] => new_comps
  | comp :: rest =>
      if String.eqb comp EmptyString || String.eqb comp "." then
        norm_comps initial_slashes rest new_comps
      else if negb (String.eqb comp "..")
              || (negb initial_slashes && match new_comps with [] => true | _ => false end)
              || match last new_comps with Some l => String.eqb l ".." | None => false end
      then norm_comps initial_slashes rest (new_comps ++ [comp])
      else norm_comps initial_slashes rest (removelast new_comps)
  end.

(** [os.path.normpath(path)] *)
Definition normpath (path : string) : string :=
  if String.eqb path EmptyString then "."
  else
    let initial_slashes :=
      if startswith path "/" then
        if startswith path "//" && negb (startswith path "///") then 2%nat else 1%nat
      else 0%nat in
    let comps := norm_comps (negb (Nat.eqb initial_slashes 0)) (split sep path) [] in
    let body := PyStr.join "/" comps in
    let res := PyStr.concat (repeat "/" initial_slashes) +:+ body in
    if String.eqb res EmptyString then "." else res.

(** [os.path.abspath(path)] with [cwd = os.getcwd()] *)
Definition abspath (cwd path : string) : string :=
  if isabs path then normpath path else normpath (join cwd path).

(** [p.rfind('/') + 1]: length of the part up to and including the last slash *)
Fixpoint head_len (p : string) : nat :=
  match p with
  | EmptyString => 0%nat
  | String c p' =>
      match head_len p' with
      | O => if Ascii.eqb c sep then 1%nat else 0%nat
      | n => S n
      end
  end.

Fixpoint take (n : nat) (s : string) : string :=
  match n, s with
  | S n', String c s' => String c (take n' s')
  | _, _ => EmptyString
  end.

Fixpoint drop (n : nat) (s : string) : string :=
  match n, s with
  | S n', String _ s' => drop n' s'
  | _, _ => s
  end.

Fixpoint all_slashes (s : string) : bool :=
  match s with
  | EmptyString => true
  | String c s' => Ascii.eqb c sep && all_slashes s'
  end.

Fixpoint rstrip_slash (s : string) : string :=
  match s with
  | EmptyString => EmptyString
  | String c s' =>
      match rstrip_slash s' with
      | EmptyString => if Ascii.eqb c sep then EmptyString else String c EmptyString
      | r => String c r
      end
  end.

(** [os.path.dirname(p)] *)
Definition dirname (p : string) : string :=
  let head := take (head_len p) p in
  if negb (String.eqb head EmptyString) && negb (all_slashes head) then rstrip_slash head else head.

(** [os.path.basename(p)] *)
Definition basename (p : string) : string := drop (head_len p) p.

(** Directory containment by path components: [p] names [d] itself or an
    entry below it.  Both arguments are absolute normalised paths. *)
Definition inside_dir (d p : string) : bool :=
  String.eqb p d
  || startswith p (if endswith_char d sep then d else d +:+ "/").

End PosixPath.

(* ===================================================================== *)
(** * Security settings read from the configuration *)
(* ===================================================================== *)

Record Security := {
  allowed_dirs      : list string;   (* security.allowed_directories *)
  blocked_dirs      : list string;   (* security.blocked_directories *)
  allowed_commands  : list string;   (* security.allowed_commands *)
  blocked_commands  : list string;   (* security.blocked_commands *)
  max_file_size     : Z;             (* security.max_file_size_mb * 1024 * 1024 *)
  max_output_lines  : nat            (* security.max_output_lines *)
}.

(* ===================================================================== *)
(** * FileOperations._is_path_allowed *)
(* ===================================================================== *)

Module PathPolicy.
Import PyStr PosixPath.

Section Check.
Variable cwd : string.
Variable sec : Security.

(** the test of both loops: [abs_path.startswith(os.path.abspath(d))] *)
Definition under (abs_path d : string) : bool :=
  startswith abs_path (abspath cwd d).

Definition _is_path_allowed (file_path : string) : bool * string :=
  let abs_path := abspath cwd file_path in
  match find (under abs_path) (blocked_dirs sec) with
  | Some blocked_dir => (false, "Access denied: " +:+ blocked_dir +:+ " is blocked")
  | None =>
      match allowed_dirs sec with
      | [] => (true, "OK")
      | _ :: _ =>
          if existsb (under abs_path) (allowed_dirs sec) then (true, "OK")
          else (false, "Access denied: Path not in allowed directories")
      end
  end.
End Check.

End PathPolicy.


(* ===================================================================== *)
(** * JSON values: the Python values that cross the tool boundary *)
(* ===================================================================== *)

Module Json.
Import PyStr.

(** [None], [bool], [int], [float] (carried by its [repr] text), [str],
    [list] and [dict] (members in insertion order, keys unique). *)
Inductive json : Type :=
| JNull
| JBool (b : bool)
| JInt (z : Z)
| JFloat (repr : string)
| JStr (s : string)
| JArr (items : list json)
| JObj (members : list (string * json)).

(** [type(v).__name__] *)
Definition type_name (v : json) : string :=
  match v with
  | JNull => "NoneType"
  | JBool _ => "bool"
  | JInt _ => "int"
  | JFloat _ => "float"
  | JStr _ => "str"
  | JArr _ => "list"
  | JObj _ => "dict"
  end.

(** [d[k] = v] on the member list of a dict *)
Fixpoint dict_set (k : string) (v : json) (m : list (string * json)) : list (string * json) :=
  match m with
  | [] => [(k, v)]
  | (k', v') :: rest =>
      if String.eqb k k' then (k, v) :: rest else (k', v') :: dict_set k v rest
  end.

Fixpoint dict_lookup (k : string) (m : list (string * json)) : option json :=
  match m with
  | [] => None
  | (k', v) :: rest => if String.eqb k k' then Some v else dict_lookup k rest
  end.

Definition dq : ascii := chr 34.
Definition bs : ascii := chr 92.

Definition hex_digit (n : nat) : ascii :=
  if (n <? 10)%nat then chr (48 + n) else chr (87 + n).

(** one character of a string under [ensure_ascii=True] *)
Definition esc_char (c : ascii) : string :=
  let n := ord c in
  if Nat.eqb n 34 then String bs (String dq EmptyString)
  else if Nat.eqb n 92 then String bs (String bs EmptyString)
  else if Nat.eqb n 10 then String bs "n"
  else if Nat.eqb n 13 then String bs "r"
  else if Nat.eqb n 9 then String bs "t"
  else if Nat.eqb n 8 then String bs "b"
  else if Nat.eqb n 12 then String bs "f"
  else if ((32 <=? n) && (n <=? 126))%nat then String c EmptyString
  else String bs ("u00" +:+ String (hex_digit (n / 16)) (String (hex_digit (n mod 16)) EmptyString)).

Fixpoint esc_body (s : string) : string :=
  match s with
  | EmptyString => EmptyString
  | String c s' => esc_char c +:+ esc_body s'
  end.

Definition quote (s : string) : string :=
  String dq (esc_body s +:+ String dq EmptyString).

(** [json.dumps(v)] with the default separators *)
Fixpoint dumps (v : json) : string :=
  match v with
  | JNull => "null"
  | JBool true => "true"
  | JBool false => "false"
  | JInt z => str_Z z
  | JFloat r => r
  | JStr s => quote s
  | JArr items =>
      "[" +:+
      (fix go (l : list json) : string :=
         match l with
         | [] => EmptyString
         | x :: [] => dumps x
         | x :: r => dumps x +:+ ", " +:+ go r
         end) items +:+ "]"
  | JObj members =>
      "{" +:+
      (fix go (l : list (string * json)) : string :=
         match l with
         | [] => EmptyString
         | (k, x) :: [] => quote k +:+ ": " +:+ dumps x
         | (k, x) :: r => quote k +:+ ": " +:+ dumps x +:+ ", " +:+ go r
         end) members +:+ "}"
  end.

(** The two shapes every handler returns *)
Definition failure (msg : string) : json :=
  JObj [("success", JBool false); ("error", JStr msg)].

Definition success (fields : list (string * json)) : json :=
  JObj (("success", JBool true) :: fields).

(** [result["success"]] *)
Definition succeeded (r : json) : bool :=
  match r with
  | JObj m => match dict_lookup "success" m with Some (JBool b) => b | _ => false end
  | _ => false
  end.

(** [result.get(k)] on a handler result *)
Definition field (k : string) (r : json) : option json :=
  match r with
  | JObj m => dict_lookup k m
  | _ => None
  end.

End Json.

(* ===================================================================== *)
(** * The host: file system, working directory, clock *)
(* ===================================================================== *)

Module Host.
Import PyStr PosixPath.

Inductive node : Type :=
| File (content : string)
| Dir.

(** Keys of [fs] are absolute normalised paths. *)
Record World := {
  fs  : gmap string node;
  cwd : string;                (* os.getcwd() *)
  now : string                 (* datetime.now().strftime("%Y%m%d_%H%M%S") *)
}.

Definition with_fs (w : World) (m : gmap string node) : World :=
  {| fs := m; cwd := cwd w; now := now w |}.

Definition resolve (w : World) (p : string) : string := abspath (cwd w) p.

Definition exists_ (w : World) (p : string) : bool :=
  match fs w !! resolve w p with Some _ => true | None => false end.

Definition isfile (w : World) (p : string) : bool :=
  match fs w !! resolve w p with Some (File _) => true | _ => false end.

Definition isdir (w : World) (p : string) : bool :=
  match fs w !! resolve w p with Some Dir => true | _ => false end.

(** OS errors, with the text of [str(e)] *)
Definition os_error (kind p : string) : string :=
  kind +:+ ": '" +:+ p +:+ "'".

Definition ENOENT  := os_error "[Errno 2] No such file or directory".
Definition EEXIST  := os_error "[Errno 17] File exists".
Definition ENOTDIR := os_error "[Errno 20] Not a directory".
Definition EISDIR  := os_error "[Errno 21] Is a directory".

(** the stored characters of a file *)
Definition read_raw (w : World) (p : string) : string + string :=
  match fs w !! resolve w p with
  | Some (File c) => inl c
  | Some Dir => inr (EISDIR p)
  | None => inr (ENOENT p)
  end.

(** [open(p, 'r').read()] *)
Definition read_text (w : World) (p : string) : string + string :=
  match read_raw w p with
  | inl c => inl (universal_newlines c)
  | inr e => inr e
  end.

(** [open(p, 'w')]: the parent must be a directory, the target not one;
    the file is created or truncated. *)
Definition open_w (w : World) (p : string) : World + string :=
  let a := resolve w p in
  match fs w !! a with
  | Some Dir => inr (EISDIR p)
  | _ =>
      match fs w !! dirname a with
      | Some Dir => inl (with_fs w (<[a := File EmptyString]> (fs w)))
      | Some (File _) => inr (ENOTDIR p)
      | None => inr (ENOENT p)
      end
  end.

(** [f.write(c)] on a file opened by [open_w] and closed afterwards *)
Definition put (w : World) (p c : string) : World :=
  with_fs w (<[resolve w p := File c]> (fs w)).

(** [open(p, 'w').write(c)] *)
Definition write_text (w : World) (p c : string) : World + string :=
  match open_w w p with
  | inl w' => inl (put w' p c)
  | inr e => inr e
  end.

(** [os.makedirs(d, exist_ok=True)] on the absolute path [a]; [fuel]
    bounds the number of missing ancestors. *)
Fixpoint mkdirs (fuel : nat) (m : gmap string node) (a : string)
  : gmap string node + string :=
  match m !! a with
  | Some Dir => inl m
  | Some (File _) => inr (EEXIST a)
  | None =>
      let parent := dirname a in
      match m !! parent with
      | Some Dir => inl (<[a := Dir]> m)
      | Some (File _) => inr (ENOTDIR a)
      | None =>
          match fuel with
          | O => inr (ENOENT a)
          | S fuel' =>
              match mkdirs fuel' m parent with
              | inl m' => inl (<[a := Dir]> m')
              | inr e => inr e
              end
          end
      end
  end.

Definition makedirs (w : World) (d : string) : World + string :=
  let a := resolve w d in
  match mkdirs (String.length a) (fs w) a with
  | inl m => inl (with_fs w m)
  | inr e => inr e
  end.

(** [shutil.copy2(src, dst)]: into [dst] when it is a directory *)
Definition copy2 (w : World) (src dst : string) : World + string :=
  match read_raw w src with
  | inl c =>
      let target := if isdir w dst then join dst (basename src) else dst in
      write_text w target c
  | inr e => inr e
  end.

(** [os.remove(p)] *)
Definition remove (w : World) (p : string) : World + string :=
  match fs w !! resolve w p with
  | Some (File _) => inl (with_fs w (delete (resolve w p) (fs w)))
  | Some Dir => inr (EISDIR p)
  | None => inr (ENOENT p)
  end.

(** [os.path.getsize(p)] of a text file *)
Definition getsize (w : World) (p : string) : Z :=
  match fs w !! resolve w p with
  | Some (File c) => Z.of_nat (String.length c)
  | _ => 0
  end.

End Host.

(* ===================================================================== *)
(** * Handler bodies: state passing with Python exceptions *)
(* ===================================================================== *)

(** A computation runs on the host, may change it, and either returns a
    value or raises an exception, of which only [str(e)] is ever used.
    Changes made before a [raise] stay. *)
Module Py.

Definition M (S A : Type) : Type := S -> S * (A + string).

Section Ops.
Context {S : Type}.

Definition ret {A} (a : A) : M S A := fun w => (w, inl a).

Definition raise {A} (e : string) : M S A := fun w => (w, inr e).

Definition bind {A B} (m : M S A) (f : A -> M S B) : M S B :=
  fun w => match m w with
           | (w', inl a) => f a w'
           | (w', inr e) => (w', inr e)
           end.

(** read the state *)
Definition ask {A} (f : S -> A) : M S A := fun w => (w, inl (f w)).

(** a host call that changes the state or raises [OSError] *)
Definition sys (f : S -> S + string) : M S unit :=
  fun w => match f w with
           | inl w' => (w', inl tt)
           | inr e => (w, inr e)
           end.

(** a host call that reads or raises *)
Definition sys_read {A} (f : S -> A + string) : M S A :=
  fun w => (w, f w).

(** a pure step that may raise *)
Definition lift {A} (r : A + string) : M S A := fun w => (w, r).

(** [try: body  except Exception as e: handler(str(e))] *)
Definition try_except {A} (body : M S A) (handler : string -> M S A) : M S A :=
  fun w => match body w with
           | (w', inr e) => handler e w'
           | r => r
           end.
End Ops.

End Py.

Declare Scope py_scope.
Delimit Scope py_scope with py.
Notation "x <- m ;; k" := (Py.bind m (fun x => k))
  (at level 200, m at level 99, right associativity) : py_scope.
Notation "m ;;; k" := (Py.bind m (fun _ => k))
  (at level 200, right associativity) : py_scope.

(* ===================================================================== *)
(** * tools/file_operations.py *)
(* ===================================================================== *)

Module FileOperations.
Import PyStr PosixPath Json Host Py PathPolicy.
Local Open Scope py_scope.

(** handler computations run on the host *)
Abbreviation H := (M World).

(** [os.fspath(v)], the first thing [os.path.abspath] does *)
Definition as_path (v : json) : H string :=
  match v with
  | JStr s => ret s
  | _ => raise ("expected str, bytes or os.PathLike object, not " +:+ type_name v)
  end.

(** [f.write(v)] accepts [str] only *)
Definition as_text (v : json) : H string :=
  match v with
  | JStr s => ret s
  | _ => raise ("write() argument must be str, not " +:+ type_name v)
  end.

Definition JNat (n : nat) : json := JInt (Z.of_nat n).

Section Handlers.
Variable sec : Security.
(** [mimetypes.guess_type(path)[0]] *)
Variable guess_type : string -> option string.

(** [self._is_path_allowed(file_path)] *)
Definition is_path_allowed (file_path : json) : H (bool * string) :=
  p <- as_path file_path ;;
  ask (fun w => _is_path_allowed (cwd w) sec p).

Definition truncation_marker (max_lines : nat) : string :=
  NL +:+ "... (truncated, showing first " +:+ str_nat max_lines +:+ " lines)".

(** the "Limit output lines" block shared by [read_file] and
    [execute_command]: the text returned and [len(lines)] *)
Definition limit_lines (max_lines : nat) (content : string) : string * nat :=
  let lines := split nl content in
  if (max_lines <? length lines)%nat
  then (PyStr.join NL (firstn max_lines lines) +:+ truncation_marker max_lines,
        length lines)
  else (content, length lines).

(** [mime_type and not mime_type.startswith('text/')] *)
Definition is_binary (mime_type : option string) : bool :=
  match mime_type with
  | Some m => negb (String.eqb m EmptyString) && negb (startswith m "text/")
  | None => false
  end.

Definition read_file_body (file_path : json) : H json :=
  chk <- is_path_allowed file_path ;;
  p <- as_path file_path ;;
  if negb (fst chk) then ret (failure (snd chk)) else
  ex <- ask (fun w => exists_ w p) ;;
  if negb ex then ret (failure ("File not found: " +:+ p)) else
  isf <- ask (fun w => isfile w p) ;;
  if negb isf then ret (failure ("Path is not a file: " +:+ p)) else
  file_size <- ask (fun w => getsize w p) ;;
  if max_file_size sec <? file_size then
    ret (failure ("File too large: " +:+ str_Z file_size +:+ " bytes (max: "
                  +:+ str_Z (max_file_size sec) +:+ ")"))
  else
  let mime_type := guess_type p in
  if is_binary mime_type then
    ret (failure ("Cannot read binary file: " +:+ p +:+ " (type: "
                  +:+ default EmptyString mime_type +:+ ")"))
  else
  content <- sys_read (fun w => read_text w p) ;;
  let '(shown, n) := limit_lines (max_output_lines sec) content in
  ret (success [("content", JStr shown); ("file_path", JStr p);
                ("size", JInt file_size); ("lines", JNat n)]).

Definition read_file (file_path : json) : H json :=
  try_except (read_file_body file_path) (fun e => ret (failure e)).

Definition delete_file_body (file_path : json) : H json :=
  chk <- is_path_allowed file_path ;;
  p <- as_path file_path ;;
  if negb (fst chk) then ret (failure (snd chk)) else
  ex <- ask (fun w => exists_ w p) ;;
  if negb ex then ret (failure ("File not found: " +:+ p)) else
  isf <- ask (fun w => isfile w p) ;;
  if negb isf then ret (failure ("Path is not a file: " +:+ p)) else
  sys (fun w => remove w p) ;;;
  ret (success [("message", JStr ("File deleted successfully: " +:+ p))]).

Definition delete_file (file_path : json) : H json :=
  try_except (delete_file_body file_path) (fun e => ret (failure e)).

(** the "Create directory if it doesn't exist" block *)
Definition ensure_parent (p : string) : H unit :=
  let directory := dirname p in
  if String.eqb directory EmptyString then ret tt else
  ex <- ask (fun w => exists_ w directory) ;;
  if ex then ret tt else sys (fun w => makedirs w directory).

Definition create_file_body (file_path content : json) : H json :=
  chk <- is_path_allowed file_path ;;
  p <- as_path file_path ;;
  if negb (fst chk) then ret (failure (snd chk)) else
  ensure_parent p ;;;
  ex <- ask (fun w => exists_ w p) ;;
  if ex then ret (failure ("File already exists: " +:+ p)) else
  sys (fun w => open_w w p) ;;;
  c <- as_text content ;;
  sys (fun w => inl (put w p c)) ;;;
  ret (success [("message", JStr ("File created successfully: " +:+ p));
                ("size", JNat (String.length c))]).

Definition create_file (file_path content : json) : H json :=
  try_except (create_file_body file_path content) (fun e => ret (failure e)).

End Handlers.
End FileOperations.

(* ===================================================================== *)
(** * tools/edit_operations.py *)
(* ===================================================================== *)

Module EditOperations.
Import PyStr PosixPath Json Host Py PathPolicy FileOperations.
Local Open Scope py_scope.

Definition backup_dir : string := "backups".

(** [content.split('\n')] needs a [str] *)
Definition as_str_for (method : string) (v : json) : H string :=
  match v with
  | JStr s => ret s
  | _ => raise ("'" +:+ type_name v +:+ "' object has no attribute '" +:+ method +:+ "'")
  end.

(** A line number as the comparisons and the slice of [edit_file] use it.
    [bool] is an [int] in Python.  For any other type the handler ends in a
    failure result without writing the target; the text of that failure
    depends on which comparison is reached first and is not reproduced. *)
Definition as_line (v : json) : H Z :=
  match v with
  | JInt z => ret z
  | JBool b => ret (if b then 1 else 0)
  | JFloat _ => raise "slice indices must be integers or None or have an __index__ method"
  | _ => raise ("'<' not supported between instances of '" +:+ type_name v +:+ "' and 'int'")
  end.

Definition is_none (v : json) : bool :=
  match v with JNull => true | _ => false end.

(** the replacement block: every piece of [content.split('\n')] gets its
    newline back, except the last one when [content] does not end in one *)
Definition new_content_lines (content : string) : list string :=
  let pieces := split nl content in
  if endswith_char content nl
  then map (fun line => line +:+ NL) pieces
  else map (fun line => line +:+ NL) (removelast pieces) ++ [List.last pieces EmptyString].

(** [lines[start_line-1:end_line] = block] for [1 <= start_line <= end_line] *)
Definition splice (lines : list string) (start_line end_line : Z) (block : list string)
  : list string :=
  firstn (Z.to_nat (start_line - 1)) lines ++ block ++ skipn (Z.to_nat end_line) lines.

Section Handlers.
Variable sec : Security.

Definition _create_backup (file_path : string) : H (bool * option string) :=
  try_except
    (ex <- ask (fun w => exists_ w file_path) ;;
     if negb ex then ret (true, None) else
     sys (fun w => makedirs w backup_dir) ;;;
     timestamp <- ask now ;;
     let backup_name := basename file_path +:+ "." +:+ timestamp +:+ ".backup" in
     let backup_path := join backup_dir backup_name in
     sys (fun w => copy2 w file_path backup_path) ;;;
     ret (true, Some backup_path))
    (fun e => ret (false, Some e)).

Definition opt_str (o : option string) : json :=
  match o with Some s => JStr s | None => JNull end.

Definition edit_file_body (file_path content start_line end_line : json) : H json :=
  chk <- is_path_allowed sec file_path ;;
  p <- as_path file_path ;;
  if negb (fst chk) then ret (failure (snd chk)) else
  bk <- _create_backup p ;;
  let '(backup_success, backup_path) := bk in
  if negb backup_success then
    ret (failure ("Failed to create backup: " +:+ default "None" backup_path))
  else
  if negb (is_none start_line) && negb (is_none end_line) then
(* partial edit *)
ex <- ask (fun w => exists_ w p) ;;
if negb ex then ret (failure ("File not found: " +:+ p)) else
text <- sys_read (fun w => read_text w p) ;;
let lines := readlines text in
s <- as_line start_line ;;
e <- as_line end_line ;;
if (s <? 1) || (e <? s) || (Z.of_nat (length lines) <? s) then
  ret (failure ("Invalid line range: " +:+ str_Z s +:+ "-" +:+ str_Z e
                +:+ " (file has " +:+ str_nat (length lines) +:+ " lines)"))
else
c <- as_str_for "split" content ;;
let block := new_content_lines c in
let lines' := splice lines s e block in
sys (fun w => write_text w p (PyStr.concat lines')) ;;;
ret (success [("message", JStr ("File edited successfully (lines " +:+ str_Z s
                                 +:+ "-" +:+ str_Z e +:+ "): " +:+ p));
              ("backup_path", opt_str backup_path);
              ("lines_modified", JInt (e - s + 1));
              ("new_lines", JNat (length block))])
else
(* full file replacement *)
ensure_parent p ;;;
sys (fun w => open_w w p) ;;;
c <- as_text content ;;
sys (fun w => inl (put w p c)) ;;;
ret (success [("message", JStr ("File edited successfully: " +:+ p));
              ("backup_path", opt_str backup_path);
              ("size", JNat (String.length c));
              ("lines", JNat (length (split nl c)))]).

Definition edit_file (file_path content start_line end_line : json) : H json :=
  try_except (edit_file_body file_path content start_line end_line)
             (fun e => ret (failure e)).

End Handlers.
End EditOperations.

(* ===================================================================== *)
(** * shlex.split in POSIX mode *)
(* ===================================================================== *)

Module Shlex.
Import PyStr.

Inductive state : Type :=
| Blank                          (* between tokens *)
| Word                           (* inside an unquoted run *)
| InQuote (q : ascii)            (* inside '...' or "..." *)
| Escaped (back : option ascii). (* after a backslash; [back] is the quote to return to *)

Definition is_white (c : ascii) : bool :=
  let n := ord c in
  Nat.eqb n 32 || Nat.eqb n 9 || Nat.eqb n 13 || Nat.eqb n 10.

Definition is_quote (c : ascii) : bool :=
  let n := ord c in Nat.eqb n 39 || Nat.eqb n 34.

Definition is_escape (c : ascii) : bool := Nat.eqb (ord c) 92.

Definition snoc (t : string) (c : ascii) : string := t +:+ String c EmptyString.

(** the token reader run to the end of the input; [token] and [quoted]
    are those of the token being read, [done] the tokens already returned *)
Fixpoint lex (cs : string) (st : state) (token : string) (quoted : bool)
         (done : list string) : list string + string :=
  match cs with
  | EmptyString =>
      match st with
      | Blank => inl done
      | Word =>
          if negb (String.eqb token EmptyString) || quoted
          then inl (done ++ [token]) else inl done
      | InQuote _ => inr "No closing quotation"
      | Escaped _ => inr "No escaped character"
      end
  | String c rest =>
      match st with
      | Blank =>
          if is_white c then lex rest Blank EmptyString false done
          else if is_escape c then lex rest (Escaped None) EmptyString false done
          else if is_quote c then lex rest (InQuote c) EmptyString true done
          else lex rest Word (String c EmptyString) false done
      | InQuote q =>
          if Ascii.eqb c q then lex rest Word token true done
          else if is_escape c && Nat.eqb (ord q) 34 then lex rest (Escaped (Some q)) token true done
          else lex rest (InQuote q) (snoc token c) true done
      | Escaped back =>
          match back with
          | Some q =>
              let token' :=
                if negb (is_escape c) && negb (Ascii.eqb c q)
                then snoc token (chr 92) else token in
              lex rest (InQuote q) (snoc token' c) quoted done
          | None => lex rest Word (snoc token c) quoted done
          end
      | Word =>
          if is_white c then
            if negb (String.eqb token EmptyString) || quoted
            then lex rest Blank EmptyString false (done ++ [token])
            else lex rest Blank EmptyString false done
          else if is_quote c then lex rest (InQuote c) token true done
          else if is_escape c then lex rest (Escaped None) token quoted done
          else lex rest Word (snoc token c) quoted done
      end
  end.

(** [shlex.split(s)]; [inr] carries the text of the [ValueError] *)
Definition split (s : string) : list string + string :=
  lex s Blank EmptyString false [].

End Shlex.

(* ===================================================================== *)
(** * tools/terminal_operations.py *)
(* ===================================================================== *)

Module TerminalOperations.
Import PyStr PosixPath Json Host Py FileOperations EditOperations.
Local Open Scope py_scope.

(** What a spawned shell does, as far as [execute_command] can observe. *)
Record Process := {
  exit_after  : option nat;  (* seconds until it exits by itself; [None]: never *)
  out         : string;      (* stdout and stderr written by then *)
  err         : string;
  returncode  : Z;
  out_at_kill : string;      (* stdout and stderr written when the timer fires *)
  err_at_kill : string;
  decodes     : bool         (* the captured bytes decode as text *)
}.

Definition SIGKILL : Z := 9.

(** [timer = Timer(timeout, process.kill); timer.start();
     process.communicate()]: [communicate] has no timeout of its own and
    waits for the end of the child, which is its own exit or the kill
    delivered by the timer.  It raises when the bytes do not decode.
    The result is [(stdout, stderr)] and [process.returncode]. *)
Definition communicate (timeout : nat) (p : Process) : option (string * string * Z) :=
  if negb (decodes p) then None else
  match exit_after p with
  | Some t =>
      if (t <=? timeout)%nat then Some (out p, err p, returncode p)
      else Some (out_at_kill p, err_at_kill p, - SIGKILL)
  | None => Some (out_at_kill p, err_at_kill p, - SIGKILL)
  end.

(** the child is still running when the timer fires *)
Definition outlives (timeout : nat) (p : Process) : Prop :=
  match exit_after p with
  | Some t => (timeout < t)%nat
  | None => True
  end.

Definition timeout : nat := 30.

Section Handlers.
Variable sec : Security.
(** [subprocess.Popen(command, shell=True, cwd=working_directory, ...)]:
    the behaviour of the child and the host it leaves behind *)
Variable popen : string -> string -> World -> Process * World.

Definition _is_command_allowed (command : string) : (bool * string) + string :=
  let command_lower := strip (lower command) in
  match find (fun blocked => contains command_lower (lower blocked)) (blocked_commands sec) with
  | Some blocked => inl (false, "Command blocked: contains '" +:+ blocked +:+ "'")
  | None =>
      match allowed_commands sec with
      | [] => inl (true, "OK")
      | _ :: _ =>
          match Shlex.split command_lower with
          | inr e => inr e
          | inl [] => inl (true, "OK")
          | inl (base_command :: _) =>
              if existsb (String.eqb base_command) (map lower (allowed_commands sec))
              then inl (true, "OK")
              else inl (false, "Command not allowed: '" +:+ base_command +:+ "'")
          end
      end
  end.

(** [os.stat] takes a path; an integer would be a file descriptor, and
    descriptors are not part of the host, so it is reported as absent. *)
Definition as_stat_path (v : json) : H (option string) :=
  match v with
  | JStr s => ret (Some s)
  | JInt _ | JBool _ => ret None
  | _ => raise ("stat: path should be string, bytes, os.PathLike or integer, not "
                +:+ type_name v)
  end.

Definition py_str_scalar (v : json) : string :=
  match v with
  | JStr s => s
  | JInt z => str_Z z
  | JBool true => "True"
  | JBool false => "False"
  | _ => type_name v
  end.

Definition execute_command_body (command working_directory : json) : H json :=
  c <- as_str_for "lower" command ;;
  chk <- lift (_is_command_allowed c) ;;
  if negb (fst chk) then ret (failure (snd chk)) else
  wd <- as_stat_path working_directory ;;
  ex <- ask (fun w => match wd with Some d => exists_ w d | None => false end) ;;
  if negb ex then
    ret (failure ("Working directory not found: " +:+ py_str_scalar working_directory))
  else
  isd <- ask (fun w => match wd with Some d => isdir w d | None => false end) ;;
  if negb isd then
    ret (failure ("Working directory is not a directory: "
                  +:+ py_str_scalar working_directory))
  else
  process <- (fun w => let '(p, w') := popen c (default "." wd) w in (w', inl p)) ;;
  match communicate timeout process with
  | None =>
(* the bare [except:] around [communicate] *)
ret (failure ("Command timed out after " +:+ str_nat timeout +:+ " seconds"))
| Some (stdout, stderr, rc) =>
let '(stdout', n_out) := limit_lines (max_output_lines sec) stdout in
let '(stderr', n_err) := limit_lines (max_output_lines sec) stderr in
ret (success [("command", JStr c);
              ("working_directory", working_directory);
              ("stdout", JStr stdout');
              ("stderr", JStr stderr');
              ("return_code", JInt rc);
              ("stdout_lines", JNat n_out);
              ("stderr_lines", JNat n_err)])
end.

Definition execute_command (command working_directory : json) : H json :=
  try_except (execute_command_body command working_directory)
             (fun e => ret (failure e)).

End Handlers.
End TerminalOperations.

(* ===================================================================== *)
(** * tools/search_operations.py *)
(* ===================================================================== *)

Module SearchOperations.
Import PyStr Json Host Py.
Local Open Scope py_scope.

Abbreviation H := (M World).

(** one entry of [grep_search(...)["matches"]] *)
Record Match := {
  file            : string;
  line_number     : Z;
  line_content    : string;
  match_positions : list (Z * Z)
}.

Definition match_json (m : Match) : json :=
  JObj [("file", JStr (file m));
        ("line_number", JInt (line_number m));
        ("line_content", JStr (line_content m));
        ("match_positions",
         JArr (map (fun se => JArr [JInt (fst se); JInt (snd se)]) (match_positions m)))].

(** the key of the duplicate filter and of the sort *)
Definition key (m : Match) : string * Z := (file m, line_number m).

(** tuple comparison [k1 <= k2]: strings by code point, then the integers *)
Definition key_leb (k1 k2 : string * Z) : bool :=
  match String.compare (fst k1) (fst k2) with
  | Lt => true
  | Eq => snd k1 <=? snd k2
  | Gt => false
  end.

(** the "Remove duplicates" loop *)
Fixpoint unique_from (seen : gset (string * Z)) (all_matches : list Match) : list Match :=
  match all_matches with
  | [] => []
  | m :: rest =>
      if decide (key m ∈ seen) then unique_from seen rest
      else m :: unique_from ({[key m]} ∪ seen) rest
  end.

Definition unique (all_matches : list Match) : list Match := unique_from ∅ all_matches.

(** [list.sort(key=...)] is stable: equal keys keep their order *)
Fixpoint insert_by_key (m : Match) (sorted : list Match) : list Match :=
  match sorted with
  | [] => [m]
  | x :: rest =>
      if key_leb (key x) (key m) then x :: insert_by_key m rest
      else m :: sorted
  end.

Definition sort_by_key (l : list Match) : list Match :=
  fold_left (fun acc m => insert_by_key m acc) l [].

Definition default_file_types : list string :=
  ["*.py"; "*.js"; "*.ts"; "*.java"; "*.cpp"; "*.c"; "*.h"].

(** [for x in v] *)
Definition py_iter (v : json) : list json + string :=
  match v with
  | JArr items => inl items
  | JObj members => inl (map (fun kv => JStr (fst kv)) members)
  | JStr s => inl (map (fun c => JStr (String c EmptyString)) (list_ascii_of_string s))
  | _ => inr ("'" +:+ type_name v +:+ "' object is not iterable")
  end.

Section Handlers.
Variable max_output_lines : nat.
(** [self.grep_search(pattern, directory, file_pattern)]: the capped
    ["matches"] of a successful search, or the ["error"] of a failed
    one.  It only reads the host. *)
Variable grep_search : json -> json -> json -> World -> list Match + string.

(** the dictionary [grep_search] returns *)
Definition grep_search_result (pattern directory file_pattern : json) : H json :=
  r <- ask (grep_search pattern directory file_pattern) ;;
  match r with
  | inl matches =>
      ret (success [("pattern", pattern);
                    ("directory", directory);
                    ("file_pattern", file_pattern);
                    ("matches", JArr (map match_json matches));
                    ("total_found", JInt (Z.of_nat (length matches)));
                    ("truncated", JBool (max_output_lines <=? length matches)%nat)])
  | inr e => ret (failure e)
  end.

(** the "Search in each file type" loop *)
Definition gather (query : json) (file_types : list json) (w : World) : list Match :=
  flat_map (fun file_type =>
              match grep_search query (JStr ".") file_type w with
              | inl ms => ms
              | inr _ => []
              end) file_types.

Definition codebase_search_body (query file_types : json) : H json :=
  let file_types :=
    match file_types with
    | JNull => JArr (map JStr default_file_types)
    | _ => file_types
    end in
  globs <- lift (py_iter file_types) ;;
  all_matches <- ask (gather query globs) ;;
  let unique_matches := sort_by_key (unique all_matches) in
  ret (success [("query", query);
                ("file_types", file_types);
                ("matches", JArr (map match_json (firstn max_output_lines unique_matches)));
                ("total_found", JInt (Z.of_nat (length unique_matches)));
                ("truncated", JBool (max_output_lines <=? length unique_matches)%nat)]).

Definition codebase_search (query file_types : json) : H json :=
  try_except (codebase_search_body query file_types) (fun e => ret (failure e)).

End Handlers.
End SearchOperations.

(* ===================================================================== *)
(** * A JSON loader *)
(* ===================================================================== *)

(** [json.loads] on documents whose characters and [\u] escapes stay below
    code point 256 and whose numbers are written in the form [repr] prints
    them.  [None] stands for [json.JSONDecodeError]. *)
Module JsonLoads.
Import PyStr Json.

Definition is_ws (c : ascii) : bool :=
  let n := ord c in Nat.eqb n 32 || Nat.eqb n 9 || Nat.eqb n 10 || Nat.eqb n 13.

Fixpoint skip_ws (cs : string) : string :=
  match cs with
  | String c rest => if is_ws c then skip_ws rest else cs
  | EmptyString => EmptyString
  end.

Definition is_digit (c : ascii) : bool :=
  let n := ord c in ((48 <=? n) && (n <=? 57))%nat.

Definition hex_val (c : ascii) : option nat :=
  let n := ord c in
  if ((48 <=? n) && (n <=? 57))%nat then Some (n - 48)%nat
  else if ((97 <=? n) && (n <=? 102))%nat then Some (n - 87)%nat
  else if ((65 <=? n) && (n <=? 70))%nat then Some (n - 55)%nat
  else None.

(** the character a backslash escape stands for *)
Definition escape_code (e : ascii) : option nat :=
  let n := ord e in
  if Nat.eqb n 34 || Nat.eqb n 92 || Nat.eqb n 47 then Some n
  else if Ascii.eqb e "b" then Some 8%nat
  else if Ascii.eqb e "f" then Some 12%nat
  else if Ascii.eqb e "n" then Some 10%nat
  else if Ascii.eqb e "r" then Some 13%nat
  else if Ascii.eqb e "t" then Some 9%nat
  else None.

(** the characters of a string literal after its opening quote *)
Fixpoint string_body (cs : string) : option (string * string) :=
  match cs with
  | EmptyString => None
  | String c rest =>
      if Nat.eqb (ord c) 34 then Some (EmptyString, rest)
      else if Nat.eqb (ord c) 92 then
        match rest with
        | String e rest' =>
            if Ascii.eqb e "u" then
              match rest' with
              | String h1 (String h2 (String h3 (String h4 rest''))) =>
                  match hex_val h1, hex_val h2, hex_val h3, hex_val h4 with
                  | Some 0%nat, Some 0%nat, Some a, Some b =>
                      match string_body rest'' with
                      | Some (s, r) => Some (String (chr (16 * a + b)) s, r)
                      | None => None
                      end
                  | _, _, _, _ => None
                  end
              | _ => None
              end
            else
              match escape_code e with
              | Some x =>
                  match string_body rest' with
                  | Some (s, r) => Some (String (chr x) s, r)
                  | None => None
                  end
              | None => None
              end
        | EmptyString => None
        end
      else if (ord c <? 32)%nat then None
      else match string_body rest with
           | Some (s, r) => Some (String c s, r)
           | None => None
           end
  end.

(** a maximal run of digits: its value, its text and the rest *)
Fixpoint digits (cs : string) (acc : Z) : Z * string * string :=
  match cs with
  | String c rest =>
      if is_digit c then
        let '(v, txt, r) := digits rest (10 * acc + Z.of_nat (ord c - 48)) in
        (v, String c txt, r)
      else (acc, EmptyString, cs)
  | EmptyString => (acc, EmptyString, EmptyString)
  end.

(** an optional minus sign, an integer part without leading zeros, an
    optional fraction and an optional exponent; with a fraction or an
    exponent the number is a [float] *)
Definition number (cs : string) : option (json * string) :=
  let '(neg, cs1) :=
    match cs with
    | String "-" r => (true, r)
    | _ => (false, cs)
    end in
  let sign := if neg then "-" else EmptyString in
  match cs1 with
  | String c _ =>
      if is_digit c then
        let '(v, txt, r) :=
          if Ascii.eqb c "0" then (0, "0", match cs1 with String _ r0 => r0 | _ => cs1 end)
          else digits cs1 0 in
        let int_part := sign +:+ txt in
        let '(frac, r1) :=
          match r with
          | String "." rf =>
              match digits rf 0 with
              | (_, EmptyString, _) => (None, r)
              | (_, ftxt, rr) => (Some ("." +:+ ftxt), rr)
              end
          | _ => (None, r)
          end in
        let '(expo, r2) :=
          match r1 with
          | String e re =>
              if Ascii.eqb e "e" || Ascii.eqb e "E" then
                let '(esign, rd) :=
                  match re with
                  | String "+" x => ("+", x)
                  | String "-" x => ("-", x)
                  | _ => (EmptyString, re)
                  end in
                match digits rd 0 with
                | (_, EmptyString, _) => (None, r1)
                | (_, etxt, rr) => (Some ("e" +:+ esign +:+ etxt), rr)
                end
              else (None, r1)
          | _ => (None, r1)
          end in
        match frac, expo with
        | None, None => Some (JInt (if neg then - v else v), r2)
        | _, _ => Some (JFloat (int_part +:+ default EmptyString frac
                                +:+ default EmptyString expo), r2)
        end
      else None
  | EmptyString => None
  end.

Definition literal (word : string) (v : json) (cs : string) : option (json * string) :=
  if startswith cs word then Some (v, PosixPath.drop (String.length word) cs) else None.

(** one value at the head of [cs] (no leading white space); [elements]
    and [members] read what follows the opening bracket or brace *)
Fixpoint value (fuel : nat) (cs : string) : option (json * string) :=
  match fuel with
  | O => None
  | S fuel' =>
      match cs with
      | EmptyString => None
      | String c rest =>
          if Nat.eqb (ord c) 34 then
            match string_body rest with
            | Some (s, r) => Some (JStr s, r)
            | None => None
            end
          else if Ascii.eqb c "[" then
            match skip_ws rest with
            | String "]" r => Some (JArr [], r)
            | body => match elements fuel' body with
                      | Some (items, r) => Some (JArr items, r)
                      | None => None
                      end
            end
          else if Ascii.eqb c "{" then
            match skip_ws rest with
            | String "}" r => Some (JObj [], r)
            | body => match members fuel' body [] with
                      | Some (m, r) => Some (JObj m, r)
                      | None => None
                      end
            end
          else if Ascii.eqb c "n" then literal "null" JNull cs
          else if Ascii.eqb c "t" then literal "true" (JBool true) cs
          else if Ascii.eqb c "f" then literal "false" (JBool false) cs
          else if Ascii.eqb c "N" then literal "NaN" (JFloat "nan") cs
          else if Ascii.eqb c "I" then literal "Infinity" (JFloat "inf") cs
          else if startswith cs "-I" then literal "-Infinity" (JFloat "-inf") cs
          else number cs
      end
  end
with elements (fuel : nat) (cs : string) : option (list json * string) :=
  match fuel with
  | O => None
  | S fuel' =>
      match value fuel' cs with
      | Some (v, r) =>
          match skip_ws r with
          | String "," r' =>
              match elements fuel' (skip_ws r') with
              | Some (vs, r'') => Some (v :: vs, r'')
              | None => None
              end
          | String "]" r' => Some ([v], r')
          | _ => None
          end
      | None => None
      end
  end
with members (fuel : nat) (cs : string) (acc : list (string * json))
  : option (list (string * json) * string) :=
  match fuel with
  | O => None
  | S fuel' =>
      match cs with
      | String c rest =>
          if Nat.eqb (ord c) 34 then
            match string_body rest with
            | Some (k, r) =>
                match skip_ws r with
                | String ":" r1 =>
                    match value fuel' (skip_ws r1) with
                    | Some (v, r2) =>
                        let acc' := dict_set k v acc in
                        match skip_ws r2 with
                        | String "," r3 => members fuel' (skip_ws r3) acc'
                        | String "}" r3 => Some (acc', r3)
                        | _ => None
                        end
                    | None => None
                    end
                | _ => None
                end
            | None => None
            end
          else None
      | EmptyString => None
      end
  end.

(** [json.loads(s)]: one value, white space around it, nothing else *)
Definition loads (s : string) : option json :=
  match value (2 * String.length s + 2) (skip_ws s) with
  | Some (v, r) =>
      match skip_ws r with
      | EmptyString => Some v
      | _ => None
      end
  | None => None
  end.

End JsonLoads.

(* ===================================================================== *)
(** * Dynamic operations on Python values *)
(* ===================================================================== *)

(** The texts of [TypeError], [KeyError] and [AttributeError] follow
    CPython 3.11. *)
Module PyVal.
Import PyStr Json.

Definition sq : ascii := chr 39.

Definition hex2 (n : nat) : string :=
  String (hex_digit (n / 16)) (String (hex_digit (n mod 16)) EmptyString).

Fixpoint has_char (c : ascii) (s : string) : bool :=
  match s with
  | EmptyString => false
  | String a s' => Ascii.eqb a c || has_char c s'
  end.

Fixpoint repr_body (quote : ascii) (s : string) : string :=
  match s with
  | EmptyString => EmptyString
  | String c s' =>
      let n := ord c in
      (if Ascii.eqb c quote || Nat.eqb n 92 then String bs (String c EmptyString)
       else if Nat.eqb n 9 then String bs "t"
       else if Nat.eqb n 10 then String bs "n"
       else if Nat.eqb n 13 then String bs "r"
       else if ((32 <=? n) && (n <=? 126))%nat then String c EmptyString
       else String bs ("x" +:+ hex2 n))
      +:+ repr_body quote s'
  end.

(** [repr(s)] of a string *)
Definition repr_str (s : string) : string :=
  let quote := if has_char sq s && negb (has_char dq s) then dq else sq in
  String quote (repr_body quote s +:+ String quote EmptyString).

(** [repr(v)] *)
Fixpoint repr (v : json) : string :=
  match v with
  | JNull => "None"
  | JBool true => "True"
  | JBool false => "False"
  | JInt z => str_Z z
  | JFloat r => r
  | JStr s => repr_str s
  | JArr items =>
      "[" +:+
      (fix go (l : list json) : string :=
         match l with
         | [] => EmptyString
         | x :: [] => repr x
         | x :: r => repr x +:+ ", " +:+ go r
         end) items +:+ "]"
  | JObj members =>
      "{" +:+
      (fix go (l : list (string * json)) : string :=
         match l with
         | [] => EmptyString
         | (k, x) :: [] => repr_str k +:+ ": " +:+ repr x
         | (k, x) :: r => repr_str k +:+ ": " +:+ repr x +:+ ", " +:+ go r
         end) members +:+ "}"
  end.

(** [str(v)], as an f-string prints it *)
Definition str (v : json) : string :=
  match v with
  | JStr s => s
  | _ => repr v
  end.

(** [bool(v)] *)
Definition truthy (v : json) : bool :=
  match v with
  | JNull => false
  | JBool b => b
  | JInt z => negb (z =? 0)
  | JFloat r => negb (String.eqb r "0.0" || String.eqb r "-0.0")
  | JStr s => negb (String.eqb s EmptyString)
  | JArr items => match items with [] => false | _ => true end
  | JObj members => match members with [] => false | _ => true end
  end.

Definition is_str (k : string) (v : json) : bool :=
  match v with JStr s => String.eqb s k | _ => false end.

(** [k in v] for a string [k] *)
Definition contains_key (k : string) (v : json) : bool + string :=
  match v with
  | JObj members => inl (match dict_lookup k members with Some _ => true | None => false end)
  | JArr items => inl (existsb (is_str k) items)
  | JStr s => inl (contains s k)
  | _ => inr ("argument of type '" +:+ type_name v +:+ "' is not iterable")
  end.

(** [v[k]] for a string [k] *)
Definition getitem (v : json) (k : string) : json + string :=
  match v with
  | JObj members =>
      match dict_lookup k members with
      | Some x => inl x
      | None => inr (repr_str k)
      end
  | JArr _ => inr "list indices must be integers or slices, not str"
  | JStr _ => inr "string indices must be integers, not 'str'"
  | _ => inr ("'" +:+ type_name v +:+ "' object is not subscriptable")
  end.

(** [v[k] = x] for a string [k] *)
Definition setitem (v : json) (k : string) (x : json) : json + string :=
  match v with
  | JObj members => inl (JObj (dict_set k x members))
  | JArr _ => inr "list indices must be integers or slices, not str"
  | _ => inr ("'" +:+ type_name v +:+ "' object does not support item assignment")
  end.

(** [v[0]] *)
Definition first (v : json) : json + string :=
  match v with
  | JArr (x :: _) => inl x
  | JArr [] => inr "list index out of range"
  | JStr (String c _) => inl (JStr (String c EmptyString))
  | JStr EmptyString => inr "string index out of range"
  | JObj _ => inr "0"
  | _ => inr ("'" +:+ type_name v +:+ "' object is not subscriptable")
  end.

(** [v.get(k, dflt)] *)
Definition get (v : json) (k : string) (dflt : json) : json + string :=
  match v with
  | JObj members => inl (default dflt (dict_lookup k members))
  | _ => inr ("'" +:+ type_name v +:+ "' object has no attribute 'get'")
  end.

(** [d.pop(k, None)] on the member list of a dict *)
Fixpoint dict_pop (k : string) (m : list (string * json)) : list (string * json) :=
  match m with
  | [] => []
  | (k', v) :: rest => if String.eqb k k' then rest else (k', v) :: dict_pop k rest
  end.

End PyVal.

(* ===================================================================== *)
(** * proxy_server.py *)
(* ===================================================================== *)

Module Proxy.
Import PyStr Json Host Py.
Local Open Scope py_scope.

Abbreviation H := (M World).

(** what [requests.post] ends in *)
Inductive Reply : Type :=
| Unreachable (e : string)                  (* the call raises *)
| Answer (status_code : Z) (content : string).

(** the body of the Flask response *)
Inductive Body : Type :=
| Raw (content : string)                    (* [Response(r.content, ...)] *)
| Jsonify (v : json).                       (* [jsonify(v)] *)

Record Response := { status : Z; body : Body }.

(** One request: the host the tools act on, and the bodies posted to the
    model so far. *)
Record Session := { host : World; posted : list json }.

Abbreviation O := (M Session).

Definition on_host {A} (h : H A) : O A :=
  fun s => let '(w, r) := h (host s) in ({| host := w; posted := posted s |}, r).

Definition tool_message (tool_call_id tool_name result : json) : json :=
  JObj [("tool_call_id", tool_call_id);
        ("role", JStr "tool");
        ("name", tool_name);
        ("content", JStr (dumps result))].

Definition proxy_error (e : string) : Response :=
  {| status := 500;
     body := Jsonify (JObj [("error", JObj [("message", JStr ("Proxy error: " +:+ e));
                                            ("type", JStr "proxy_error")])]) |}.

Section Server.
Variable sec : Security.
Variable guess_type : string -> option string.
Variable popen : string -> string -> World -> TerminalOperations.Process * World.
Variable grep_search : json -> json -> json -> World -> list SearchOperations.Match + string.
(** handlers that no property below looks into *)
Variable list_directory : json -> json -> H json.
Variable search_files : json -> json -> H json.
(** [json.loads]; [None] is [json.JSONDecodeError], whose text is [decode_error] *)
Variable json_loads : string -> option json.
Variable decode_error : string -> string.
(** [self.get_available_tools()] *)
Variable available_tools : json.
(** the model behind [requests.post(model_endpoint, json=body, ...)] *)
Variable backend : json -> Reply.

Definition arg (arguments : json) (k : string) (dflt : json) : H json :=
  lift (PyVal.get arguments k dflt).

Definition execute_tool_call (tool_name arguments : json) : H json :=
  let named name := PyVal.is_str name tool_name in
  try_except
    (if named "read_file" then
       a <- arg arguments "file_path" JNull ;;
       FileOperations.read_file sec guess_type a
     else if named "list_directory" then
       a <- arg arguments "directory_path" JNull ;;
       b <- arg arguments "recursive" (JBool false) ;;
       list_directory a b
     else if named "delete_file" then
       a <- arg arguments "file_path" JNull ;;
       FileOperations.delete_file sec a
     else if named "create_file" then
       a <- arg arguments "file_path" JNull ;;
       b <- arg arguments "content" JNull ;;
       FileOperations.create_file sec a b
     else if named "edit_file" then
       a <- arg arguments "file_path" JNull ;;
       b <- arg arguments "content" JNull ;;
       c <- arg arguments "start_line" JNull ;;
       d <- arg arguments "end_line" JNull ;;
       EditOperations.edit_file sec a b c d
     else if named "terminal_command" then
       a <- arg arguments "command" JNull ;;
       b <- arg arguments "working_directory" (JStr ".") ;;
       TerminalOperations.execute_command sec popen a b
     else if named "search_files" then
       a <- arg arguments "pattern" JNull ;;
       b <- arg arguments "directory" (JStr ".") ;;
       search_files a b
     else if named "grep_search" then
       a <- arg arguments "pattern" JNull ;;
       b <- arg arguments "directory" (JStr ".") ;;
       c <- arg arguments "file_pattern" (JStr "*") ;;
       SearchOperations.grep_search_result (max_output_lines sec) grep_search a b c
     else if named "codebase_search" then
       a <- arg arguments "query" JNull ;;
       b <- arg arguments "file_types" (JArr []) ;;
       SearchOperations.codebase_search (max_output_lines sec) grep_search a b
     else
       ret (failure ("Unknown tool: " +:+ PyVal.str tool_name)))
    (fun e => ret (failure ("Tool execution failed: " +:+ e))).

(** [json.loads(v)] *)
Definition loads (v : json) : O json :=
  match v with
  | JStr s =>
      match json_loads s with
      | Some x => ret x
      | None => raise (decode_error s)
      end
  | _ => raise ("the JSON object must be str, bytes or bytearray, not " +:+ type_name v)
  end.

(** the body of [for tool_call in message['tool_calls']] and the list
    [tool_results] it builds *)
Definition run_tool_call (tool_call : json) : O json :=
  function <- lift (PyVal.get tool_call "function" (JObj [])) ;;
  tool_name <- lift (PyVal.get function "name" JNull) ;;
  raw <- lift (PyVal.get function "arguments" (JStr "{}")) ;;
  arguments <- loads raw ;;
  result <- on_host (execute_tool_call tool_name arguments) ;;
  tool_call_id <- lift (PyVal.get tool_call "id" JNull) ;;
  ret (tool_message tool_call_id tool_name result).

Fixpoint run_tool_calls (tool_calls : list json) : O (list json) :=
  match tool_calls with
  | [] => ret []
  | tool_call :: rest =>
      m <- run_tool_call tool_call ;;
      ms <- run_tool_calls rest ;;
      ret (m :: ms)
  end.

(** [requests.post(model_endpoint, json=body, ...)] *)
Definition post (body : json) : O (Z * string) :=
  fun s =>
    let s' := {| host := host s; posted := posted s ++ [body] |} in
    match backend body with
    | Unreachable e => (s', inr e)
    | Answer code content => (s', inl (code, content))
    end.

(** [data['messages'].append(message); data['messages'].extend(tool_results)] *)
Definition append_messages (data message : json) (tool_results : list json) : json + string :=
  match PyVal.getitem data "messages" with
  | inl (JArr messages) =>
      PyVal.setitem data "messages" (JArr (messages ++ [message] ++ tool_results))
  | inl v => inr ("'" +:+ type_name v +:+ "' object has no attribute 'append'")
  | inr e => inr e
  end.

(** [follow_up_data = data.copy(); follow_up_data.pop('tools', None)] *)
Definition without_tools (data : json) : json :=
  match data with
  | JObj members => JObj (PyVal.dict_pop "tools" members)
  | _ => data
  end.

(** the "Add tools if not present" block *)
Definition with_tools (data : json) : json + string :=
  match PyVal.contains_key "tools" data with
  | inr e => inr e
  | inl false => PyVal.setitem data "tools" available_tools
  | inl true =>
      match PyVal.getitem data "tools" with
      | inr e => inr e
      | inl t => if PyVal.truthy t then inl data
                 else PyVal.setitem data "tools" available_tools
      end
  end.

(** [k in v and v[k]]: the value when it is there and true *)
Definition present (v : json) (k : string) : option json + string :=
  match PyVal.contains_key k v with
  | inr e => inr e
  | inl false => inl None
  | inl true =>
      match PyVal.getitem v k with
      | inr e => inr e
      | inl x => inl (if PyVal.truthy x then Some x else None)
      end
  end.

(** the tool round: run the calls, extend the conversation, ask again
    without the catalogue *)
Definition tool_round (data message tool_calls : json) : O Response :=
  calls <- lift (SearchOperations.py_iter tool_calls) ;;
  tool_results <- run_tool_calls calls ;;
  data' <- lift (append_messages data message tool_results) ;;
  final <- post (without_tools data') ;;
  ret {| status := fst final; body := Raw (snd final) |}.

Definition handle_chat_completion_body (data : json) : O Response :=
  data <- lift (with_tools data) ;;
  response <- post data ;;
  let passthrough := ret {| status := fst response; body := Raw (snd response) |} in
  if negb (fst response =? 200) then passthrough else
  response_data <- loads (JStr (snd response)) ;;
  choices <- lift (present response_data "choices") ;;
  match choices with
  | None => passthrough
  | Some choices =>
      choice <- lift (PyVal.first choices) ;;
      message <- lift (PyVal.get choice "message" (JObj [])) ;;
      tool_calls <- lift (present message "tool_calls") ;;
      match tool_calls with
      | None => passthrough
      | Some tool_calls => tool_round data message tool_calls
      end
  end.

(** [request.get_json()] has given [data] *)
Definition handle_chat_completion (data : json) : O Response :=
  try_except (handle_chat_completion_body data) (fun e => ret (proxy_error e)).

End Server.
End Proxy.

(* ===================================================================== *)
(** * utils/config_loader.py *)
(* ===================================================================== *)

(** The configuration is the value [yaml.safe_load] returned, kept in
    [self.config]. *)
Module ConfigLoader.
Import PyStr Json.

(** the loop [for k in keys: value = value[k]]; [None] when [value[k]]
    raises [KeyError] or [TypeError] *)
Fixpoint descend (keys : list string) (value : json) : option json :=
  match keys with
  | [] => Some value
  | k :: rest =>
      match value with
      | JObj members =>
          match dict_lookup k members with
          | Some v => descend rest v
          | None => None
          end
      | _ => None
      end
  end.

(** [config.get(key, default)] *)
Definition get (config : json) (key : string) (dflt : json) : json :=
  match descend (split "." key) config with
  | Some v => v
  | None => dflt
  end.

(** [config.set(key, value)] on the components of the key: the loop
    over [keys[:-1]] that creates missing dictionaries on the way down,
    then the assignment of [keys[-1]].  The nested dictionaries are
    updated in place; [inr] is the text of the exception. *)
Fixpoint assign (keys : list string) (value : json) (config : json) : json + string :=
  match keys with
  | [] => inl config
  | [k] => PyVal.setitem config k value
  | k :: rest =>
      match PyVal.contains_key k config with
      | inr e => inr e
      | inl present =>
          match (if present then inl config else PyVal.setitem config k (JObj [])) with
          | inr e => inr e
          | inl config1 =>
              match PyVal.getitem config1 k with
              | inr e => inr e
              | inl child =>
                  match assign rest value child with
                  | inr e => inr e
                  | inl child' => PyVal.setitem config1 k child'
                  end
              end
          end
      end
  end.

(** [config.set(key, value)] *)
Definition set (config : json) (key : string) (value : json) : json + string :=
  assign (split "." key) value config.

End ConfigLoader.

(* ===================================================================== *)
(** * proxy_server.py: the tool catalogue *)
(* ===================================================================== *)

Module Catalogue.
Import Json.

Definition read_file_tool : json :=
  JObj [("type", JStr "function");
        ("function", JObj [("name", JStr "read_file");
          ("description", JStr "Read the contents of a file within your codebase");
          ("parameters", JObj [("type", JStr "object");
            ("properties", JObj [("file_path", JObj [("type", JStr "string");
                ("description", JStr "Path to the file to read")])]);
            ("required", JArr [JStr "file_path"])])])].

Definition list_directory_tool : json :=
  JObj [("type", JStr "function");
        ("function", JObj [("name", JStr "list_directory");
          ("description", JStr "Read the structure of a directory without reading file contents");
          ("parameters", JObj [("type", JStr "object");
            ("properties", JObj [("directory_path", JObj [("type", JStr "string");
                ("description", JStr "Path to the directory to list")]);
              ("recursive", JObj [("type", JStr "boolean");
                ("description", JStr "Whether to list recursively");
                ("default", JBool false)])]);
            ("required", JArr [JStr "directory_path"])])])].

Definition delete_file_tool : json :=
  JObj [("type", JStr "function");
        ("function", JObj [("name", JStr "delete_file");
          ("description", JStr "Delete a file from the filesystem");
          ("parameters", JObj [("type", JStr "object");
            ("properties", JObj [("file_path", JObj [("type", JStr "string");
                ("description", JStr "Path to the file to delete")])]);
            ("required", JArr [JStr "file_path"])])])].

Definition terminal_command_tool : json :=
  JObj [("type", JStr "function");
        ("function", JObj [("name", JStr "terminal_command");
          ("description", JStr "Execute terminal commands and monitor output");
          ("parameters", JObj [("type", JStr "object");
            ("properties", JObj [("command", JObj [("type", JStr "string");
                ("description", JStr "Command to execute in terminal")]);
              ("working_directory", JObj [("type", JStr "string");
                ("description", JStr "Working directory for command execution");
                ("default", JStr ".")])]);
            ("required", JArr [JStr "command"])])])].

Definition edit_file_tool : json :=
  JObj [("type", JStr "function");
        ("function", JObj [("name", JStr "edit_file");
          ("description", JStr "Edit and apply changes to files");
          ("parameters", JObj [("type", JStr "object");
            ("properties", JObj [("file_path", JObj [("type", JStr "string");
                ("description", JStr "Path to the file to edit")]);
              ("content", JObj [("type", JStr "string");
                ("description", JStr "New content for the file")]);
              ("start_line", JObj [("type", JStr "integer");
                ("description", JStr "Starting line number for partial edit")]);
              ("end_line", JObj [("type", JStr "integer");
                ("description", JStr "Ending line number for partial edit")])]);
            ("required", JArr [JStr "file_path";
              JStr "content"])])])].

Definition create_file_tool : json :=
  JObj [("type", JStr "function");
        ("function", JObj [("name", JStr "create_file");
          ("description", JStr "Create a new file with specified content");
          ("parameters", JObj [("type", JStr "object");
            ("properties", JObj [("file_path", JObj [("type", JStr "string");
                ("description", JStr "Path where the new file should be created")]);
              ("content", JObj [("type", JStr "string");
                ("description", JStr "Content for the new file")])]);
            ("required", JArr [JStr "file_path";
              JStr "content"])])])].

Definition search_files_tool : json :=
  JObj [("type", JStr "function");
        ("function", JObj [("name", JStr "search_files");
          ("description", JStr "Find files by name using fuzzy matching");
          ("parameters", JObj [("type", JStr "object");
            ("properties", JObj [("pattern", JObj [("type", JStr "string");
                ("description", JStr "Search pattern for file names")]);
              ("directory", JObj [("type", JStr "string");
                ("description", JStr "Directory to search in");
                ("default", JStr ".")])]);
            ("required", JArr [JStr "pattern"])])])].

Definition grep_search_tool : json :=
  JObj [("type", JStr "function");
        ("function", JObj [("name", JStr "grep_search");
          ("description", JStr "Search for exact keywords or patterns within files");
          ("parameters", JObj [("type", JStr "object");
            ("properties", JObj [("pattern", JObj [("type", JStr "string");
                ("description", JStr "Pattern to search for")]);
              ("directory", JObj [("type", JStr "string");
                ("description", JStr "Directory to search in");
                ("default", JStr ".")]);
              ("file_pattern", JObj [("type", JStr "string");
                ("description", JStr "File pattern to limit search");
                ("default", JStr "*")])]);
            ("required", JArr [JStr "pattern"])])])].

Definition codebase_search_tool : json :=
  JObj [("type", JStr "function");
        ("function", JObj [("name", JStr "codebase_search");
          ("description", JStr "Perform semantic searches within indexed codebase");
          ("parameters", JObj [("type", JStr "object");
            ("properties", JObj [("query", JObj [("type", JStr "string");
                ("description", JStr "Semantic search query")]);
              ("file_types", JObj [("type", JStr "array");
                ("items", JObj [("type", JStr "string")]);
                ("description", JStr "File types to include in search")])]);
            ("required", JArr [JStr "query"])])])].

(** [self.get_available_tools()] *)
Definition get_available_tools (config : json) : json :=
  let enabled flag := PyVal.truthy (ConfigLoader.get config flag (JBool true)) in
  JArr ((if enabled "tools.enable_file_operations"
         then [read_file_tool; list_directory_tool; delete_file_tool] else [])
        ++ (if enabled "tools.enable_terminal" then [terminal_command_tool] else [])
        ++ (if enabled "tools.enable_edit_operations"
            then [edit_file_tool; create_file_tool] else [])
        ++ [search_files_tool; grep_search_tool; codebase_search_tool]).

(** the ["name"] of every descriptor of a catalogue *)
Definition names (catalogue : json) : list json :=
  match catalogue with
  | JArr tools =>
      omap (fun tool => match field "function" tool with
                        | Some f => field "name" f
                        | None => None
                        end) tools
  | _ => []
  end.

End Catalogue.

(* ===================================================================== *)
(** * tools/search_operations.py: find_definition *)
(* ===================================================================== *)

Module FindDefinition.
Import PyStr Json Host Py SearchOperations.
Local Open Scope py_scope.

(** the "Common definition patterns" of a symbol *)
Definition patterns (symbol : json) : list string :=
  let sym := PyVal.str symbol in
  ["def " +:+ sym;
   "class " +:+ sym;
   "function " +:+ sym;
   sym +:+ "\s*=";
   "const " +:+ sym;
   "let " +:+ sym;
   "var " +:+ sym].

Section Handler.
Variable grep_search : json -> json -> json -> World -> list Match + string.

(** the two nested loops; the inner [for] raises on a [file_types] that
    cannot be iterated *)
Definition collect (pats : list string) (globs : list json) (w : World) : list Match :=
  flat_map (fun pattern => gather grep_search (JStr pattern) globs w) pats.

Definition find_definition_body (symbol file_types : json) : H json :=
  let file_types :=
    match file_types with
    | JNull => JArr (map JStr default_file_types)
    | _ => file_types
    end in
  globs <- lift (py_iter file_types) ;;
  all_matches <- ask (collect (patterns symbol) globs) ;;
  let unique_matches := unique all_matches in
  ret (success [("symbol", symbol);
                ("matches", JArr (map match_json unique_matches));
                ("total_found", JInt (Z.of_nat (length unique_matches)))]).

Definition find_definition (symbol file_types : json) : H json :=
  try_except (find_definition_body symbol file_types) (fun e => ret (failure e)).

End Handler.
End FindDefinition.

(* ===================================================================== *)
(** * Scenarios used by the examples below *)
(* ===================================================================== *)

Module Scenario.
Import PyStr PosixPath Json Host.

Definition security (allowed blocked allowed_cmds blocked_cmds : list string)
           (cap : nat) : Security :=
  {| allowed_dirs := allowed; blocked_dirs := blocked;
     allowed_commands := allowed_cmds; blocked_commands := blocked_cmds;
     max_file_size := 10 * 1024 * 1024; max_output_lines := cap |}.

(** only [/tmp] is blocked; everything else is open *)
Definition tmp_blocked : Security := security [] ["/tmp"] [] [] 1000.

(** only [/srv/app] is allowed *)
Definition app_only : Security := security ["/srv/app"] [] [] [] 1000.

(** [/etc] is blocked although it is also allow-listed *)
Definition etc_blocked : Security := security ["/etc"; "/work"] ["/etc"] [] [] 1000.

(** [rm -rf] is blocked, [rm] and [ls] are the allowed first tokens *)
Definition rm_guarded : Security := security [] [] ["rm"; "ls"] ["rm -rf"] 1000.

(** a five-line file in [/work], next to [/etc/passwd] *)
Definition five_lines : string :=
  "l1" +:+ NL +:+ "l2" +:+ NL +:+ "l3" +:+ NL +:+ "l4" +:+ NL +:+ "l5" +:+ NL.

Definition work_tree : gmap string node :=
  <["/work/notes.txt" := File five_lines]>
    (<["/work" := Dir]> (<["/etc/passwd" := File "root:x:0:0"]>
       (<["/etc" := Dir]> (<["/" := Dir]> ∅)))).

Definition work : World :=
  {| fs := work_tree; cwd := "/work"; now := "20240101_120000" |}.

(** output capped at three lines *)
Definition cap3 : Security := security [] ["/etc"] [] [] 3.

Definition no_mime (path : string) : option string := None.

(** a child that needs a minute, whatever the command; killed at the
    timeout it has written nothing yet *)
Definition sleeper (command working_directory : string) (w : World)
  : TerminalOperations.Process * World :=
  ({| TerminalOperations.exit_after := Some 60%nat;
      TerminalOperations.out := "done" +:+ NL;
      TerminalOperations.err := EmptyString;
      TerminalOperations.returncode := 0;
      TerminalOperations.out_at_kill := EmptyString;
      TerminalOperations.err_at_kill := EmptyString;
      TerminalOperations.decodes := true |}, w).

(** a search that finds nothing, and directory tools that are switched off *)
Definition no_grep (pattern directory file_pattern : json) (w : World)
  : list SearchOperations.Match + string := inl [].

Definition no_tool (a b : json) : Py.M World json :=
  Py.ret (failure "not available").

(** a tool call as the model writes it *)
Definition call (id name raw_arguments : string) : json :=
  JObj [("id", JStr id);
        ("type", JStr "function");
        ("function", JObj [("name", JStr name); ("arguments", JStr raw_arguments)])].

(** a create_file call with well-formed arguments, and one whose
    argument text is cut off after the first brace *)
Definition create (id path text : string) : json :=
  call id "create_file" (dumps (JObj [("file_path", JStr path); ("content", JStr text)])).

Definition broken (id : string) : json := call id "create_file" "{not json".

(** the assistant message of a reply, and the reply itself *)
Definition assistant (tool_calls : list json) : json :=
  JObj [("role", JStr "assistant"); ("content", JNull); ("tool_calls", JArr tool_calls)].

Definition reply (tool_calls : list json) : string :=
  dumps (JObj [("id", JStr "chatcmpl-1");
               ("choices", JArr [JObj [("index", JInt 0);
                                       ("message", assistant tool_calls);
                                       ("finish_reason", JStr "tool_calls")]])]).

(** a model that asks for [tool_calls] while it is offered tools and
    answers in words once it is not *)
Definition model (tool_calls : list json) (body : json) : Proxy.Reply :=
  match field "tools" body with
  | Some _ => Proxy.Answer 200 (reply tool_calls)
  | None => Proxy.Answer 200 "final answer"
  end.

Definition catalogue : json :=
  JArr [JObj [("type", JStr "function");
              ("function", JObj [("name", JStr "create_file")])]].

Definition user_turn : json :=
  JObj [("role", JStr "user"); ("content", JStr "make two files")].

Definition request : json :=
  JObj [("model", JStr "qwen3"); ("messages", JArr [user_turn])].

(** the request as it is posted the first time, with the catalogue *)
Definition offered : json :=
  JObj [("model", JStr "qwen3"); ("messages", JArr [user_turn]); ("tools", catalogue)].

(** the text of the decoding error for the cut-off argument text *)
Definition decode_error (document : string) : string :=
  "Expecting property name enclosed in double quotes: line 1 column 2 (char 1)".

Definition fresh : Proxy.Session := {| Proxy.host := work; Proxy.posted := [] |}.

(** the proxy with the scenario's host oracles and a model asking for [tool_calls] *)
Definition serve (tool_calls : list json) (data : json)
  : Proxy.Session -> Proxy.Session * (Proxy.Response + string) :=
  Proxy.handle_chat_completion cap3 no_mime sleeper no_grep no_tool no_tool
    JsonLoads.loads decode_error catalogue (model tool_calls) data.

(** a block-list entry that ends in a blank *)
Definition reboot_blocked : Security := security [] [] [] ["reboot "] 1000.

End Scenario.

(* ===================================================================== *)
(** * Notions the properties are stated with *)
(* ===================================================================== *)

(** "the command contains the entry, case-insensitively" *)
Definition contains_nocase (command blocked : string) : bool :=
  PyStr.contains (PyStr.lower command) (PyStr.lower blocked).

(** the verdict of [_is_command_allowed], when it returns one *)
Definition denies (sec : Security) (command : string) : Prop :=
  exists reason, TerminalOperations._is_command_allowed sec command = inl (false, reason).

(** the names of the members of a handler result *)
Definition keys (r : Json.json) : list string :=
  match r with
  | Json.JObj members => map fst members
  | _ => []
  end.

(** a truncation flag: a Boolean member of the result besides ["success"] *)
Definition has_flag (r : Json.json) : Prop :=
  exists k b, k <> "success" /\ Json.field k r = Some (Json.JBool b).

(** the text [read_file] returns for a file cut at [cap] lines *)
Definition truncated_text (cap : nat) (text : string) : string :=
  PyStr.join PyStr.NL (firstn cap (PyStr.split PyStr.nl text))
  +:+ FileOperations.truncation_marker cap.

(** a text file [read_file] goes on to read: permitted, a regular file
    within the size limit, not sniffed as binary *)
Definition readable (sec : Security) (guess_type : string -> option string)
           (w : Host.World) (p raw : string) : Prop :=
  fst (PathPolicy._is_path_allowed (Host.cwd w) sec p) = true
  /\ Host.fs w !! Host.resolve w p = Some (Host.File raw)
  /\ Z.of_nat (String.length raw) <= max_file_size sec
  /\ FileOperations.is_binary (guess_type p) = false.

(** every entry of the first file system is in the second, unchanged *)
Definition preserved (m m' : gmap string Host.node) : Prop :=
  forall q n, m !! q = Some n -> m' !! q = Some n.

(** the value of a host read, when it does not raise *)
Definition sum_option {A : Type} (r : A + string) : option A :=
  match r with inl a => Some a | inr _ => None end.

(** the order of the sort of [codebase_search]: by file, then by line *)
Definition key_le (a b : SearchOperations.Match) : Prop :=
  SearchOperations.key_leb (SearchOperations.key a) (SearchOperations.key b) = true.

(* ===================================================================== *)
(** * Further scenarios *)
(* ===================================================================== *)

Module Cases.
Import PyStr PosixPath Json Host.

(** no list configured, files of at most ten characters *)
Definition tiny_files : Security :=
  {| allowed_dirs := []; blocked_dirs := [];
     allowed_commands := []; blocked_commands := [];
     max_file_size := 10; max_output_lines := 1000 |}.

(** only [ls] and [cat] may be run *)
Definition ls_only : Security :=
  {| allowed_dirs := []; blocked_dirs := [];
     allowed_commands := ["ls"; "cat"]; blocked_commands := ["sudo"];
     max_file_size := 10; max_output_lines := 1000 |}.

(** a child that fails at once with exit status 2 and a message *)
Definition failing (command working_directory : string) (w : World)
  : TerminalOperations.Process * World :=
  ({| TerminalOperations.exit_after := Some 0%nat;
      TerminalOperations.out := EmptyString;
      TerminalOperations.err := "ls: cannot access 'nowhere': No such file or directory" +:+ NL;
      TerminalOperations.returncode := 2;
      TerminalOperations.out_at_kill := EmptyString;
      TerminalOperations.err_at_kill := EmptyString;
      TerminalOperations.decodes := true |}, w).

(** two hits in [b.py] and one in [a.py]; every glob finds the same *)
Definition hit (name : string) (line : Z) : SearchOperations.Match :=
  {| SearchOperations.file := name; SearchOperations.line_number := line;
     SearchOperations.line_content := "def run():";
     SearchOperations.match_positions := [(0, 3)] |}.

Definition same_hits (pattern directory file_pattern : json) (w : World)
  : list SearchOperations.Match + string :=
  inl [hit "b.py" 7; hit "a.py" 3; hit "b.py" 2].

(** models that are loading, that answer in plain words, that are down *)
Definition overloaded (body : json) : Proxy.Reply := Proxy.Answer 503 "model is loading".

Definition chatty (body : json) : Proxy.Reply := Proxy.Answer 200 "Hello there".

Definition offline (body : json) : Proxy.Reply := Proxy.Unreachable "Connection refused".

(** the work tree with the backup directory in place *)
Definition desk : World :=
  {| fs := <["/work/backups" := Dir]> Scenario.work_tree;
     cwd := "/work"; now := "20240101_120000" |}.

End Cases.

(** the text has no newline *)
Definition one_line (s : string) : Prop := PyVal.has_char PyStr.nl s = false.

(** the line the truncation marker adds *)
Definition marker_line (cap : nat) : string :=
  "... (truncated, showing first " +:+ PyStr.str_nat cap +:+ " lines)".


(** where [_create_backup] copies the file to *)
Definition backup_path (w : Host.World) (p : string) : string :=
  PosixPath.join EditOperations.backup_dir
    (PosixPath.basename p +:+ "." +:+ Host.now w +:+ ".backup").

(** the backup directory is there and the backup path is free *)
Definition backup_ready (w : Host.World) (p : string) : Prop :=
  Host.fs w !! Host.resolve w EditOperations.backup_dir = Some Host.Dir
  /\ Host.fs w !! Host.resolve w (backup_path w p) = None
  /\ Host.fs w !! PosixPath.dirname (Host.resolve w (backup_path w p)) = Some Host.Dir.


(** [edit_file] from the test of the line range on, with the backup taken *)
Definition edit_after_backup (p : string) (content start_line end_line : Json.json)
           (backup : option string) : Py.M Host.World Json.json :=
  if negb (EditOperations.is_none start_line) && negb (EditOperations.is_none end_line) then
    Py.bind (Py.ask (fun w => Host.exists_ w p)) (fun ex =>
    if negb ex then Py.ret (Json.failure ("File not found: " +:+ p)) else
    Py.bind (Py.sys_read (fun w => Host.read_text w p)) (fun text =>
    let lines := PyStr.readlines text in
    Py.bind (EditOperations.as_line start_line) (fun s =>
    Py.bind (EditOperations.as_line end_line) (fun e =>
    if (s <? 1) || (e <? s) || (Z.of_nat (length lines) <? s) then
      Py.ret (Json.failure ("Invalid line range: " +:+ PyStr.str_Z s +:+ "-" +:+ PyStr.str_Z e
                            +:+ " (file has " +:+ PyStr.str_nat (length lines) +:+ " lines)"))
    else
    Py.bind (EditOperations.as_str_for "split" content) (fun c =>
    let block := EditOperations.new_content_lines c in
    let lines' := EditOperations.splice lines s e block in
    Py.bind (Py.sys (fun w => Host.write_text w p (PyStr.concat lines'))) (fun _ =>
    Py.ret (Json.success
              [("message", Json.JStr ("File edited successfully (lines " +:+ PyStr.str_Z s
                                      +:+ "-" +:+ PyStr.str_Z e +:+ "): " +:+ p));
               ("backup_path", EditOperations.opt_str backup);
               ("lines_modified", Json.JInt (e - s + 1));
               ("new_lines", FileOperations.JNat (length block))])))))))
  else
    Py.bind (FileOperations.ensure_parent p) (fun _ =>
    Py.bind (Py.sys (fun w => Host.open_w w p)) (fun _ =>
    Py.bind (FileOperations.as_text content) (fun c =>
    Py.bind (Py.sys (fun w => inl (Host.put w p c))) (fun _ =>
    Py.ret (Json.success
              [("message", Json.JStr ("File edited successfully: " +:+ p));
               ("backup_path", EditOperations.opt_str backup);
               ("size", FileOperations.JNat (String.length c));
               ("lines", FileOperations.JNat (length (PyStr.split PyStr.nl c)))]))))).

(** a character that [shlex] treats as part of a word *)
Definition plain (c : ascii) : bool :=
  negb (Shlex.is_white c || Shlex.is_quote c || Shlex.is_escape c).

Fixpoint plain_word (s : string) : bool :=
  match s with
  | EmptyString => true
  | String c s' => plain c && plain_word s'
  end.

(** no entry of the block-list occurs in the normalised command *)
Definition unblocked (sec : Security) (command : string) : Prop :=
  find (fun blocked => PyStr.contains (PyStr.strip (PyStr.lower command)) (PyStr.lower blocked))
       (blocked_commands sec) = None.

(** the file types a search runs over: the default list for [None] *)
Definition effective_file_types (file_types : Json.json) : Json.json :=
  match file_types with
  | Json.JNull => Json.JArr (map Json.JStr SearchOperations.default_file_types)
  | _ => file_types
  end.

(** the match comes from the grep of one of the globs *)
Definition grepped (grep : Json.json -> Json.json -> Json.json -> Host.World
                           -> list SearchOperations.Match + string)
           (query : Json.json) (globs : list Json.json) (w : Host.World)
           (m : SearchOperations.Match) : Prop :=
  exists glob ms, In glob globs /\ grep query (Json.JStr ".") glob w = inl ms /\ In m ms.

(** the names the dispatcher has a branch for *)
Definition known_tools : list string :=
  ["read_file"; "list_directory"; "delete_file"; "create_file"; "edit_file";
   "terminal_command"; "search_files"; "grep_search"; "codebase_search"].

Definition is_dict (v : Json.json) : bool :=
  match v with Json.JObj _ => true | _ => false end.

(** the tool message answers the call: it echoes the call's id and the
    name of its function *)
Definition answers (tool_call message : Json.json) : Prop :=
  exists function id name result,
    PyVal.get tool_call "function" (Json.JObj []) = inl function
    /\ PyVal.get function "name" Json.JNull = inl name
    /\ PyVal.get tool_call "id" Json.JNull = inl id
    /\ message = Proxy.tool_message id name result.

(** the request as it is first posted: the client's tools when it sent
    some, the catalogue otherwise *)
Definition first_body (catalogue : Json.json) (members : list (string * Json.json)) : Json.json :=
  match Json.dict_lookup "tools" members with
  | Some tools => if PyVal.truthy tools then Json.JObj members
                  else Json.JObj (Json.dict_set "tools" catalogue members)
  | None => Json.JObj (Json.dict_set "tools" catalogue members)
  end.

(** a feature flag of the configuration; a missing flag counts as set *)
Definition enabled (config : Json.json) (flag : string) : bool :=
  PyVal.truthy (ConfigLoader.get config flag (Json.JBool true)).

(** the first component of a dotted key *)
Definition section_of (key : string) : string :=
  hd EmptyString (PyStr.split "." key).

(* ===================================================================== *)
(** * Facts about the string primitives *)
(* ===================================================================== *)

Section StringFacts.
Import PyStr PosixPath.

Lemma startswith_refl (s : string) : startswith s s = true.
Proof.
  induction s as [|c s IH]; simpl; [reflexivity|].
  rewrite Ascii.eqb_refl. exact IH.
Qed.

Lemma startswith_app_l (s a b : string) :
  startswith s (a +:+ b) = true -> startswith s a = true.
Proof.
  revert s. induction a as [|c a IH]; intros s H; [now destruct s|].
  destruct s as [|d s]; simpl in *; [discriminate|].
  apply andb_true_iff in H as [Hc Hs].
  rewrite Hc. simpl. now apply IH.
Qed.

(** containment by components is a special case of the string test *)
Lemma inside_dir_startswith (d p : string) :
  inside_dir d p = true -> startswith p d = true.
Proof.
  unfold inside_dir. intros H.
  apply orb_true_iff in H as [H|H].
  - apply String.eqb_eq in H. subst. apply startswith_refl.
  - destruct (endswith_char d sep); [exact H|].
    now apply startswith_app_l in H.
Qed.
End StringFacts.

(* ===================================================================== *)
(** * The path permit check *)
(* ===================================================================== *)

Section PathPolicyFacts.
Import PyStr PosixPath PathPolicy.

Lemma find_first_match {A} (f : A -> bool) (l : list A) (x : A) :
  In x l -> f x = true -> exists y, find f l = Some y /\ In y l /\ f y = true.
Proof.
  intros Hin Hf. destruct (find f l) as [y|] eqn:E.
  - exists y. split; [reflexivity|]. now apply find_some in E.
  - eapply find_none in E; [|exact Hin]. congruence.
Qed.

Lemma find_existsb {A} (f : A -> bool) (l : list A) :
  existsb f l = match find f l with Some _ => true | None => false end.
Proof.
  induction l as [|a l IH]; simpl; [reflexivity|].
  destruct (f a); simpl; [reflexivity|exact IH].
Qed.

(** C5.  A path whose absolute form starts with the absolute form of a
    configured blocked directory is denied, and the reason names a
    blocked directory that matches it (the first one in configuration
    order); the verdict is the same for every allow-list, since any two
    settings with the same block-list answer alike. *)
Theorem blocked_prefix_denies (cwd : string) (sec : Security) (p b : string) :
  In b (blocked_dirs sec) ->
  startswith (abspath cwd p) (abspath cwd b) = true ->
  exists b',
    In b' (blocked_dirs sec)
    /\ startswith (abspath cwd p) (abspath cwd b') = true
    /\ _is_path_allowed cwd sec p = (false, "Access denied: " +:+ b' +:+ " is blocked")
    /\ forall sec', blocked_dirs sec' = blocked_dirs sec ->
                    _is_path_allowed cwd sec' p = _is_path_allowed cwd sec p.
Proof.
  intros Hin Hpre.
  destruct (find_first_match (under cwd (abspath cwd p)) _ b Hin Hpre)
    as (b' & Hfind & Hin' & Hb').
  exists b'. repeat split; try assumption.
  - unfold _is_path_allowed. now rewrite Hfind.
  - intros sec' Hsame. unfold _is_path_allowed. rewrite Hsame, Hfind. reflexivity.
Qed.

Lemma blocked_prefix_denies_witness :
  exists b',
    In b' (blocked_dirs Scenario.etc_blocked)
    /\ startswith (abspath "/work" "/etc/passwd") (abspath "/work" b') = true
    /\ _is_path_allowed "/work" Scenario.etc_blocked "/etc/passwd"
       = (false, "Access denied: " +:+ b' +:+ " is blocked")
    /\ forall sec', blocked_dirs sec' = blocked_dirs Scenario.etc_blocked ->
                    _is_path_allowed "/work" sec' "/etc/passwd"
                    = _is_path_allowed "/work" Scenario.etc_blocked "/etc/passwd".
Proof.
  apply (blocked_prefix_denies "/work" Scenario.etc_blocked "/etc/passwd" "/etc").
  - simpl. left. reflexivity.
  - vm_compute. reflexivity.
Defined.

(** C10.  The verdict of the path check is a function of string-prefix
    tests on absolute paths only: a path is permitted exactly when no
    blocked directory's absolute form is a string prefix of it and the
    allow-list is empty or has an entry whose absolute form is a string
    prefix of it.  Hence with [/tmp] blocked the sibling [/tmp_other/x],
    which is not inside [/tmp], is denied, and with only [/srv/app]
    allowed the sibling [/srv/app_secrets/key] is permitted. *)
Theorem path_check_is_string_prefix :
  (forall (cwd : string) (sec : Security) (p : string),
      fst (_is_path_allowed cwd sec p)
      = negb (existsb (fun b => startswith (abspath cwd p) (abspath cwd b)) (blocked_dirs sec))
        && match allowed_dirs sec with
           | [] => true
           | _ => existsb (fun a => startswith (abspath cwd p) (abspath cwd a)) (allowed_dirs sec)
           end)
  /\ (inside_dir (abspath "/work" "/tmp") (abspath "/work" "/tmp_other/x") = false
      /\ _is_path_allowed "/work" Scenario.tmp_blocked "/tmp_other/x"
         = (false, "Access denied: /tmp is blocked"))
  /\ (inside_dir (abspath "/work" "/srv/app") (abspath "/work" "/srv/app_secrets/key") = false
      /\ _is_path_allowed "/work" Scenario.app_only "/srv/app_secrets/key" = (true, "OK")).
Proof.
  split; [|split; split; vm_compute; reflexivity].
  intros cwd sec p. unfold _is_path_allowed.
  change (fun b => startswith (abspath cwd p) (abspath cwd b)) with (under cwd (abspath cwd p)).
  rewrite (find_existsb (under cwd (abspath cwd p)) (blocked_dirs sec)).
  destruct (find (under cwd (abspath cwd p)) (blocked_dirs sec)); simpl; [reflexivity|].
  destruct (allowed_dirs sec) as [|a l]; [reflexivity|].
  destruct (existsb (under cwd (abspath cwd p)) (a :: l)); reflexivity.
Qed.

End PathPolicyFacts.

(* ===================================================================== *)
(** * The command permit check *)
(* ===================================================================== *)

Section CommandPolicyFacts.
Import PyStr TerminalOperations.

(** C6, as stated, fails: the check looks for the entry in the command
    after [strip()], so an entry that matches only with the help of the
    command's trailing blank is missed.  With ["reboot "] blocked, the
    command ["reboot "] contains the entry and is permitted. *)
Lemma blocked_substring_not_always_denied :
  ~ (forall (sec : Security) (command blocked : string),
        In blocked (blocked_commands sec) ->
        contains_nocase command blocked = true ->
        denies sec command).
Proof.
  intros H.
  destruct (H Scenario.reboot_blocked "reboot " "reboot ") as [reason Hr].
  - simpl. left. reflexivity.
  - vm_compute. reflexivity.
  - vm_compute in Hr. discriminate Hr.
Qed.

(** C6, amended.  When the lower-cased command with its leading and
    trailing white space removed contains the lower-cased form of a
    configured blocked substring, the check denies and names a blocked
    entry that occurs in it, whatever the allow-list holds -- also when
    the first shell token is allow-listed. *)
Theorem blocked_substring_denies (sec : Security) (command blocked : string) :
  In blocked (blocked_commands sec) ->
  contains (strip (lower command)) (lower blocked) = true ->
  exists b',
    In b' (blocked_commands sec)
    /\ contains (strip (lower command)) (lower b') = true
    /\ _is_command_allowed sec command
       = inl (false, "Command blocked: contains '" +:+ b' +:+ "'")
    /\ forall sec', blocked_commands sec' = blocked_commands sec ->
                    _is_command_allowed sec' command = _is_command_allowed sec command.
Proof.
  intros Hin Hsub.
  destruct (find_first_match
              (fun b => contains (strip (lower command)) (lower b)) _ blocked Hin Hsub)
    as (b' & Hfind & Hin' & Hb').
  exists b'. repeat split; try assumption.
  - unfold _is_command_allowed. now rewrite Hfind.
  - intros sec' Hsame. unfold _is_command_allowed. rewrite Hsame, Hfind. reflexivity.
Qed.

(** the first shell token of [RM -rf /tmp/x], lower-cased, is the
    allow-listed [rm]; the command is denied all the same *)
Lemma blocked_substring_denies_witness :
  (exists rest, Shlex.split (strip (lower "RM -rf /tmp/x")) = inl ("rm" :: rest)
                /\ In "rm" (allowed_commands Scenario.rm_guarded))
  /\ exists b',
    In b' (blocked_commands Scenario.rm_guarded)
    /\ contains (strip (lower "RM -rf /tmp/x")) (lower b') = true
    /\ _is_command_allowed Scenario.rm_guarded "RM -rf /tmp/x"
       = inl (false, "Command blocked: contains '" +:+ b' +:+ "'")
    /\ forall sec', blocked_commands sec' = blocked_commands Scenario.rm_guarded ->
                    _is_command_allowed sec' "RM -rf /tmp/x"
                    = _is_command_allowed Scenario.rm_guarded "RM -rf /tmp/x".
Proof.
  split.
  - exists ["-rf"; "/tmp/x"]. split; [vm_compute; reflexivity | simpl; left; reflexivity].
  - apply (blocked_substring_denies Scenario.rm_guarded "RM -rf /tmp/x" "rm -rf").
    + simpl. left. reflexivity.
    + vm_compute. reflexivity.
Defined.

End CommandPolicyFacts.

(* ===================================================================== *)
(** * FileOperations: reading and creating *)
(* ===================================================================== *)

Section FileOperationsFacts.
Import PyStr PosixPath Json Host Py PathPolicy FileOperations.

(** unfold one handler down to the host calls *)
Ltac py_unfold :=
  unfold try_except, bind, ret, raise, ask, sys, sys_read, lift in *.

Lemma read_file_readable (sec : Security) (guess_type : string -> option string)
      (w : World) (p raw : string) :
  readable sec guess_type w p raw ->
  read_file sec guess_type (JStr p) w
  = (w, inl (let '(shown, n) := limit_lines (max_output_lines sec) (universal_newlines raw) in
             success [("content", JStr shown); ("file_path", JStr p);
                      ("size", JInt (Z.of_nat (String.length raw))); ("lines", JNat n)])).
Proof.
  intros (Hok & Hfile & Hsize & Hbin).
  unfold read_file, read_file_body, is_path_allowed, as_path. py_unfold.
  destruct (_is_path_allowed (cwd w) sec p) as [ok msg]; simpl in Hok; subst ok; simpl.
  assert (Hlt : (max_file_size sec <? Z.of_nat (String.length raw)) = false)
    by (apply Z.ltb_ge; exact Hsize).
  unfold exists_, isfile, getsize, read_text, read_raw.
  repeat (rewrite ?Hfile, ?Hlt, ?Hbin; cbn beta iota delta [negb]).
  destruct (limit_lines (max_output_lines sec) (universal_newlines raw)); reflexivity.
Qed.

(** C9, as stated, fails: the result of [read_file] has no truncation flag.
    The five-line file read under a cap of three lines comes back cut,
    with the marker, and without any Boolean member besides ["success"]. *)
Lemma read_file_has_no_truncation_flag :
  ~ (forall (sec : Security) (guess_type : string -> option string)
            (w : World) (p raw : string),
        readable sec guess_type w p raw ->
        (max_output_lines sec < length (split nl (universal_newlines raw)))%nat ->
        exists r, read_file sec guess_type (JStr p) w = (w, inl r)
                  /\ field "content" r
                     = Some (JStr (truncated_text (max_output_lines sec) (universal_newlines raw)))
                  /\ has_flag r).
Proof.
  intros H.
  destruct (H Scenario.cap3 Scenario.no_mime Scenario.work "notes.txt" Scenario.five_lines)
    as (r & Hr & _ & (k & b & Hk & Hflag)).
  - repeat split; vm_compute; congruence.
  - vm_compute. lia.
  - vm_compute in Hr. injection Hr as <-.
    unfold field in Hflag. simpl in Hflag.
    repeat match type of Hflag with
           | context [String.eqb k ?s] =>
               destruct (String.eqb_spec k s); [subst; try discriminate; try congruence|]
           end.
    discriminate.
Qed.

(** C9, amended.  For a readable text file whose number of lines (the
    pieces of the text between newlines) exceeds the configured cap,
    [read_file] succeeds and returns the first cap-many lines followed by
    the truncation marker; the result has the members success, content,
    file_path, size and lines, where lines is the line count before the
    cut, and no truncation flag. *)
Theorem read_file_truncates (sec : Security) (guess_type : string -> option string)
        (w : World) (p raw : string) :
  readable sec guess_type w p raw ->
  (max_output_lines sec < length (split nl (universal_newlines raw)))%nat ->
  exists r,
    read_file sec guess_type (JStr p) w = (w, inl r)
    /\ succeeded r = true
    /\ field "content" r
       = Some (JStr (truncated_text (max_output_lines sec) (universal_newlines raw)))
    /\ field "lines" r = Some (JNat (length (split nl (universal_newlines raw))))
    /\ keys r = ["success"; "content"; "file_path"; "size"; "lines"]
    /\ ~ has_flag r.
Proof.
  intros Hread Hlong.
  rewrite (read_file_readable _ _ _ _ _ Hread).
  unfold limit_lines.
  apply Nat.ltb_lt in Hlong. rewrite Hlong.
  eexists. split; [reflexivity|].
  repeat split.
  intros (k & b & Hk & Hflag).
  unfold field, success in Hflag. simpl in Hflag.
  repeat match type of Hflag with
         | context [String.eqb k ?s] =>
             destruct (String.eqb_spec k s); [subst; try discriminate; try congruence|]
         end.
  discriminate.
Qed.

Lemma read_file_truncates_witness :
  exists r,
    read_file Scenario.cap3 Scenario.no_mime (JStr "notes.txt") Scenario.work
    = (Scenario.work, inl r)
    /\ succeeded r = true
    /\ field "content" r
       = Some (JStr (truncated_text 3 (universal_newlines Scenario.five_lines)))
    /\ field "lines" r = Some (JNat 6)
    /\ keys r = ["success"; "content"; "file_path"; "size"; "lines"]
    /\ ~ has_flag r.
Proof.
  apply (read_file_truncates Scenario.cap3 Scenario.no_mime Scenario.work
                             "notes.txt" Scenario.five_lines).
  - repeat split; vm_compute; congruence.
  - vm_compute. lia.
Defined.

Lemma mkdirs_preserves (fuel : nat) (m m' : gmap string node) (a : string) :
  mkdirs fuel m a = inl m' -> preserved m m'.
Proof.
  revert m' a. induction fuel as [|fuel IH]; intros m' a; simpl;
    destruct (m !! a) as [[c|]|] eqn:Ea; try discriminate;
    try (intros [= <-]; intros q n Hq; exact Hq);
    destruct (m !! dirname a) as [[c|]|] eqn:Ep; try discriminate.
  - intros [= <-] q n Hq. rewrite lookup_insert_ne; [exact Hq | congruence].
  - intros [= <-] q n Hq. rewrite lookup_insert_ne; [exact Hq | congruence].
  - destruct (mkdirs fuel m (dirname a)) as [m1|e] eqn:Erec; [|discriminate].
    intros [= <-] q n Hq.
    rewrite lookup_insert_ne; [|congruence].
    exact (IH _ _ Erec q n Hq).
Qed.

(** C8, as stated, fails: the path permit check comes first.  [/etc] is
    blocked and [/etc/passwd] exists; [create_file] fails, but the failure
    is the denial, not "File already exists". *)
Lemma create_file_existing_not_always_reported :
  ~ (forall (sec : Security) (w : World) (p : string) (content : json),
        exists_ w p = true ->
        exists w', create_file sec (JStr p) content w
                   = (w', inl (failure ("File already exists: " +:+ p)))
                   /\ fs w' !! resolve w p = fs w !! resolve w p).
Proof.
  intros H.
  destruct (H Scenario.cap3 Scenario.work "/etc/passwd" (JStr "x")) as (w' & Hr & _).
  - vm_compute. reflexivity.
  - vm_compute in Hr. discriminate Hr.
Qed.

(** C8, amended.  For every path at which a file (or directory) already
    exists, [create_file] returns a failure result and every existing
    entry of the file system keeps its content.  When the path permit
    check denies the path, the failure is that denial and the host is
    untouched.  When it permits the path and the directory part of the
    path exists (as it does on a real host for an existing file), the
    failure reports that the file already exists and the host is
    untouched. *)
Theorem create_file_existing (sec : Security) (w : World) (p : string) (content : json) :
  exists_ w p = true ->
  exists w' msg,
    create_file sec (JStr p) content w = (w', inl (failure msg))
    /\ preserved (fs w) (fs w')
    /\ (fst (_is_path_allowed (cwd w) sec p) = false ->
        w' = w /\ msg = snd (_is_path_allowed (cwd w) sec p))
    /\ (fst (_is_path_allowed (cwd w) sec p) = true ->
        dirname p = EmptyString \/ exists_ w (dirname p) = true ->
        w' = w /\ msg = "File already exists: " +:+ p).
Proof.
  intros Hex.
  unfold create_file, create_file_body, is_path_allowed, as_path, ensure_parent. py_unfold.
  destruct (_is_path_allowed (cwd w) sec p) as [ok reason]; cbn [fst snd].
  assert (Hid : preserved (fs w) (fs w)) by (intros q n Hq; exact Hq).
  destruct ok; cbn beta iota delta [negb].
  - (* permitted *)
    destruct (String.eqb_spec (dirname p) EmptyString) as [Hd|Hd].
    + cbn beta iota. rewrite Hex.
      exists w, ("File already exists: " +:+ p).
      split; [reflexivity|]. split; [exact Hid|].
      split; [discriminate|]. intros _ _. split; reflexivity.
    + destruct (exists_ w (dirname p)) eqn:Hdir; cbn beta iota.
      * rewrite Hex.
        exists w, ("File already exists: " +:+ p).
        split; [reflexivity|]. split; [exact Hid|].
        split; [discriminate|]. intros _ _. split; reflexivity.
      * unfold makedirs.
        destruct (mkdirs _ (fs w) (resolve w (dirname p))) as [m1|e] eqn:Emk; cbn beta iota.
        -- pose proof (mkdirs_preserves _ _ _ _ Emk) as Hpres.
           assert (Hex1 : exists_ (with_fs w m1) p = true).
           { unfold exists_, resolve in *. cbn [fs cwd with_fs].
             destruct (fs w !! abspath (cwd w) p) as [n|] eqn:E; [|discriminate].
             now rewrite (Hpres _ _ E). }
           rewrite Hex1.
           exists (with_fs w m1), ("File already exists: " +:+ p).
           split; [reflexivity|]. split; [exact Hpres|].
           split; [discriminate|]. intros _ [Hd'|Hd']; congruence.
        -- exists w, e.
           split; [reflexivity|]. split; [exact Hid|].
           split; [discriminate|]. intros _ [Hd'|Hd']; congruence.
  - (* denied *)
    exists w, reason.
    split; [reflexivity|]. split; [exact Hid|].
    split; [intros _; split; reflexivity | discriminate].
Qed.

Lemma create_file_existing_witness :
  exists w' msg,
    create_file Scenario.cap3 (JStr "notes.txt") (JStr "new text") Scenario.work
    = (w', inl (failure msg))
    /\ preserved (fs Scenario.work) (fs w')
    /\ (fst (_is_path_allowed (cwd Scenario.work) Scenario.cap3 "notes.txt") = false ->
        w' = Scenario.work
        /\ msg = snd (_is_path_allowed (cwd Scenario.work) Scenario.cap3 "notes.txt"))
    /\ (fst (_is_path_allowed (cwd Scenario.work) Scenario.cap3 "notes.txt") = true ->
        dirname "notes.txt" = EmptyString \/ exists_ Scenario.work (dirname "notes.txt") = true ->
        w' = Scenario.work /\ msg = "File already exists: " +:+ "notes.txt").
Proof.
  apply (create_file_existing Scenario.cap3 Scenario.work "notes.txt" (JStr "new text")).
  vm_compute. reflexivity.
Defined.

End FileOperationsFacts.

(* ===================================================================== *)
(** * EditOperations: the line-range edit *)
(* ===================================================================== *)

Section EditOperationsFacts.
Import PyStr PosixPath Json Host Py PathPolicy FileOperations EditOperations.

Lemma app_cons (x : ascii) (a b : string) : String x a +:+ b = String x (a +:+ b).
Proof. reflexivity. Qed.

Lemma app_nil_l (b : string) : EmptyString +:+ b = b.
Proof. reflexivity. Qed.

Lemma append_assoc (a b c : string) : (a +:+ b) +:+ c = a +:+ (b +:+ c).
Proof.
  induction a as [|x a IH]; [reflexivity|].
  rewrite !app_cons. f_equal. exact IH.
Qed.

Lemma split_nonempty (c : string) : split nl c <> [].
Proof.
  destruct c as [|a c]; simpl; [discriminate|].
  destruct (Ascii.eqb a nl); [discriminate|].
  destruct (split nl c); discriminate.
Qed.

Lemma concat_cons (x : string) (l : list string) :
  PyStr.concat (x :: l) = x +:+ PyStr.concat l.
Proof. reflexivity. Qed.

(** every piece with its newline back: the content and one more newline *)
Lemma concat_terminated (c : string) :
  PyStr.concat (map (fun line => line +:+ NL) (split nl c)) = c +:+ NL.
Proof.
  induction c as [|a c IH]; [reflexivity|].
  cbn [split].
  destruct (Ascii.eqb_spec a nl) as [->|Hne].
  - cbn [map]. rewrite concat_cons, IH. reflexivity.
  - destruct (split nl c) as [|w ws] eqn:E; [now apply split_nonempty in E|].
    cbn [map] in *. rewrite concat_cons in *.
    rewrite !app_cons. f_equal. exact IH.
Qed.

(** the last piece left bare: the content itself *)
Lemma concat_open_ended (c : string) :
  PyStr.concat (map (fun line => line +:+ NL) (removelast (split nl c))
                ++ [List.last (split nl c) EmptyString]) = c.
Proof.
  induction c as [|a c IH]; [reflexivity|].
  cbn [split].
  destruct (split nl c) as [|w ws] eqn:E; [now apply split_nonempty in E|].
  destruct (Ascii.eqb_spec a nl) as [->|Hne].
  - change (removelast (EmptyString :: w :: ws)) with (EmptyString :: removelast (w :: ws)).
    change (List.last (EmptyString :: w :: ws) EmptyString) with (List.last (w :: ws) EmptyString).
    cbn [map app]. rewrite concat_cons, IH. reflexivity.
  - destruct ws as [|w2 ws].
    + cbn in IH. cbn. unfold PyStr.concat in *. cbn [fold_right] in *.
      rewrite app_cons. f_equal. exact IH.
    + change (removelast (String a w :: w2 :: ws)) with (String a w :: removelast (w2 :: ws)).
      change (List.last (String a w :: w2 :: ws) EmptyString) with (List.last (w2 :: ws) EmptyString).
      change (removelast (w :: w2 :: ws)) with (w :: removelast (w2 :: ws)) in IH.
      change (List.last (w :: w2 :: ws) EmptyString) with (List.last (w2 :: ws) EmptyString) in IH.
      cbn [map app] in *. rewrite concat_cons in *.
      rewrite !app_cons. f_equal. exact IH.
Qed.

(** What the replacement block amounts to when it is written out: the
    content as it is, or the content and one more newline. *)
Lemma block_text (c : string) :
  PyStr.concat (new_content_lines c) = if endswith_char c nl then c +:+ NL else c.
Proof.
  unfold new_content_lines.
  destruct (endswith_char c nl).
  - apply concat_terminated.
  - apply concat_open_ended.
Qed.

Lemma concat_app (l1 l2 : list string) :
  PyStr.concat (l1 ++ l2) = PyStr.concat l1 +:+ PyStr.concat l2.
Proof.
  induction l1 as [|x l1 IH]; [reflexivity|].
  cbn [app]. rewrite !concat_cons, IH, append_assoc. reflexivity.
Qed.

(** The list handed to [writelines]: the lines before the window, the
    block, the lines after it. *)
Lemma splice_parts (lines block : list string) (s e : Z) :
  1 <= s -> s <= e -> s <= Z.of_nat (length lines) ->
  firstn (Z.to_nat (s - 1)) (splice lines s e block) = firstn (Z.to_nat (s - 1)) lines
  /\ skipn (Z.to_nat (s - 1) + length block) (splice lines s e block)
     = skipn (Z.to_nat e) lines
  /\ length (splice lines s e block)
     = (length lines - (Nat.min (Z.to_nat e) (length lines) - Z.to_nat (s - 1))
        + length block)%nat.
Proof.
  intros Hs He Hlen. unfold splice.
  assert (Hk : (Z.to_nat (s - 1) <= length lines)%nat) by lia.
  assert (Hf : length (firstn (Z.to_nat (s - 1)) lines) = Z.to_nat (s - 1))
    by (rewrite List.length_firstn; lia).
  repeat split.
  - rewrite List.firstn_app, Hf, Nat.sub_diag, List.firstn_firstn, Nat.min_id.
    cbn [firstn]. now rewrite List.app_nil_r.
  - rewrite List.app_assoc.
    rewrite List.skipn_app, List.length_app, Hf, Nat.sub_diag.
    rewrite List.skipn_all2; [reflexivity|].
    rewrite List.length_app, Hf. lia.
  - rewrite !List.length_app, Hf, List.length_skipn. lia.
Qed.

(** The text [writelines] leaves in the file: the lines before the
    window, the content (and one more newline when it ends in one), the
    lines after the window -- with nothing between the content and the
    first line after the window. *)
Lemma written_text (lines : list string) (s e : Z) (c : string) :
  PyStr.concat (splice lines s e (new_content_lines c))
  = PyStr.concat (firstn (Z.to_nat (s - 1)) lines)
    +:+ (if endswith_char c nl then c +:+ NL else c)
    +:+ PyStr.concat (skipn (Z.to_nat e) lines).
Proof.
  unfold splice. now rewrite !concat_app, block_text.
Qed.

(** C7 at its own example.  Lines 2-3 of the five-line file are replaced
    by the two lines [X], [Y].  The edit reports success, two lines
    modified and two new lines, yet the file it leaves has four lines:
    the block's last line has no newline of its own and is written
    straight in front of the old line 4, which is no longer a line of the
    file.  With the content ending in a newline instead, the block gets a
    third, empty line and the file has six lines. *)
Theorem edit_lines_2_3_of_5 :
  let X_Y := "X" +:+ NL +:+ "Y" in
  (exists w',
      edit_file Scenario.cap3 (JStr "notes.txt") (JStr X_Y) (JInt 2) (JInt 3) Scenario.work
      = (w', inl (success
                    [("message", JStr "File edited successfully (lines 2-3): notes.txt");
                     ("backup_path", JStr "backups/notes.txt.20240101_120000.backup");
                     ("lines_modified", JInt 2);
                     ("new_lines", JInt 2)]))
      /\ fmap readlines (sum_option (read_text w' "notes.txt"))
         = Some ["l1" +:+ NL; "X" +:+ NL; "Yl4" +:+ NL; "l5" +:+ NL])
  /\ (exists w' r,
      edit_file Scenario.cap3 (JStr "notes.txt") (JStr (X_Y +:+ NL)) (JInt 2) (JInt 3)
                Scenario.work = (w', inl r)
      /\ field "new_lines" r = Some (JInt 3)
      /\ fmap readlines (sum_option (read_text w' "notes.txt"))
         = Some ["l1" +:+ NL; "X" +:+ NL; "Y" +:+ NL; NL; "l4" +:+ NL; "l5" +:+ NL]).
Proof.
  split.
  - eexists. split; vm_compute; reflexivity.
  - eexists. eexists. split; [vm_compute; reflexivity|]. split; vm_compute; reflexivity.
Qed.

End EditOperationsFacts.

(* ===================================================================== *)
(** * TerminalOperations: the watchdog *)
(* ===================================================================== *)

Section TerminalOperationsFacts.
Import PyStr PosixPath Json Host Py FileOperations EditOperations TerminalOperations.

(** a decodable child that is still running when the timer fires is
    killed, and [communicate] returns what it had written, with the
    return code of a killed process *)
Lemma communicate_after_kill (p : Process) :
  decodes p = true -> outlives timeout p ->
  communicate timeout p = Some (out_at_kill p, err_at_kill p, - SIGKILL).
Proof.
  unfold communicate, outlives. intros -> Hlong. cbn [negb].
  destruct (exit_after p) as [t|]; [|reflexivity].
  apply Nat.leb_gt in Hlong. now rewrite Hlong.
Qed.

(** The timed-out child in general: a permitted command in an existing
    directory whose child outlives the timeout ends in a success result
    that carries return code -9 and no error. *)
Lemma execute_command_after_kill (sec : Security)
      (popen : string -> string -> World -> Process * World)
      (command wd : string) (w w' : World) (p : Process) (ok : string) :
  _is_command_allowed sec command = inl (true, ok) ->
  isdir w wd = true ->
  popen command wd w = (p, w') ->
  decodes p = true -> outlives timeout p ->
  exists r,
    execute_command sec popen (JStr command) (JStr wd) w = (w', inl r)
    /\ succeeded r = true
    /\ field "return_code" r = Some (JInt (- SIGKILL))
    /\ field "error" r = None.
Proof.
  intros Hok Hdir Hp Hdec Hlong.
  assert (Hex : exists_ w wd = true).
  { unfold exists_, isdir in *. destruct (fs w !! resolve w wd) as [[c|]|]; congruence. }
  unfold execute_command, execute_command_body, as_str_for, as_stat_path.
  unfold try_except, bind, ret, raise, ask, sys, sys_read, lift.
  rewrite Hok. cbn beta iota delta [fst snd negb default]. rewrite Hex.
  cbn beta iota delta [negb]. rewrite Hdir. cbn beta iota delta [negb].
  unfold id. rewrite Hp. cbn beta iota.
  rewrite (communicate_after_kill p Hdec Hlong).
  destruct (limit_lines (max_output_lines sec) (out_at_kill p)) as [o no].
  destruct (limit_lines (max_output_lines sec) (err_at_kill p)) as [e ne].
  eexists. split; [reflexivity|]. repeat split.
Qed.

(** C1 at a failing input.  [sleep 60] needs a minute; the timer kills it
    after 30 seconds.  [execute_command] returns a success result with
    return code -9 and empty output; the result has no error member, and
    the "timed out" failure of the handler is not what it returns. *)
Theorem timeout_is_reported_as_success :
  outlives timeout (fst (Scenario.sleeper "sleep 60" "." Scenario.work))
  /\ execute_command Scenario.cap3 Scenario.sleeper (JStr "sleep 60") (JStr ".") Scenario.work
     = (Scenario.work,
        inl (success [("command", JStr "sleep 60");
                      ("working_directory", JStr ".");
                      ("stdout", JStr EmptyString);
                      ("stderr", JStr EmptyString);
                      ("return_code", JInt (-9));
                      ("stdout_lines", JInt 1);
                      ("stderr_lines", JInt 1)]))
  /\ execute_command Scenario.cap3 Scenario.sleeper (JStr "sleep 60") (JStr ".") Scenario.work
     <> (Scenario.work, inl (failure "Command timed out after 30 seconds")).
Proof.
  split; [vm_compute; lia|].
  split; [vm_compute; reflexivity|].
  vm_compute. discriminate.
Qed.

End TerminalOperationsFacts.

(* ===================================================================== *)
(** * SearchOperations: codebase_search *)
(* ===================================================================== *)

Section SearchOperationsFacts.
Import PyStr Json Host Py SearchOperations.

Lemma key_leb_total (a b : string * Z) : key_leb a b = false -> key_leb b a = true.
Proof.
  unfold key_leb. rewrite (String.compare_antisym (fst b) (fst a)).
  destruct (String.compare (fst a) (fst b)); cbn [CompOpp]; intros H;
    [apply Z.leb_gt in H; apply Z.leb_le; lia | discriminate | reflexivity].
Qed.

Lemma insert_by_key_perm (m : Match) (l : list Match) :
  Permutation (insert_by_key m l) (m :: l).
Proof.
  induction l as [|x l IH]; cbn [insert_by_key]; [reflexivity|].
  destruct (key_leb (key x) (key m)); [|reflexivity].
  rewrite IH. apply perm_swap.
Qed.

Lemma insert_by_key_hd (m x : Match) (l : list Match) :
  key_le x m -> HdRel key_le x l -> HdRel key_le x (insert_by_key m l).
Proof.
  intros Hxm Hhd. destruct l as [|y l]; cbn [insert_by_key].
  - now constructor.
  - destruct (key_leb (key y) (key m)); constructor;
      [now inversion Hhd | exact Hxm].
Qed.

Lemma insert_by_key_sorted (m : Match) (l : list Match) :
  Sorted key_le l -> Sorted key_le (insert_by_key m l).
Proof.
  induction 1 as [|x l Hs IH Hhd]; cbn [insert_by_key].
  - repeat constructor.
  - destruct (key_leb (key x) (key m)) eqn:E.
    + constructor; [exact IH|]. now apply insert_by_key_hd.
    + constructor; [now constructor|]. constructor. now apply key_leb_total.
Qed.

Lemma fold_insert_sorted (l acc : list Match) :
  Sorted key_le acc -> Sorted key_le (fold_left (fun a m => insert_by_key m a) l acc).
Proof.
  revert acc. induction l as [|m l IH]; intros acc Hacc; cbn [fold_left];
    [exact Hacc | apply IH, insert_by_key_sorted, Hacc].
Qed.

Lemma fold_insert_perm (l acc : list Match) :
  Permutation (fold_left (fun a m => insert_by_key m a) l acc) (l ++ acc).
Proof.
  revert acc. induction l as [|m l IH]; intros acc; cbn [fold_left app]; [reflexivity|].
  rewrite IH, insert_by_key_perm. symmetry. apply Permutation_middle.
Qed.

(** the sort puts the matches in ascending (file, line) order and neither
    drops nor adds one *)
Lemma sort_by_key_sorted (l : list Match) :
  Sorted key_le (sort_by_key l) /\ Permutation (sort_by_key l) l.
Proof.
  unfold sort_by_key. split.
  - apply fold_insert_sorted. constructor.
  - rewrite fold_insert_perm. now rewrite List.app_nil_r.
Qed.

(** the duplicate filter keeps a match exactly when its key is new: the
    keys of the result are pairwise different, none was seen before, and
    no key of the input is lost *)
Lemma unique_from_spec (l : list Match) (seen : gset (string * Z)) :
  List.NoDup (map key (unique_from seen l))
  /\ (forall m, In m (unique_from seen l) -> In m l /\ key m ∉ seen)
  /\ (forall m, In m l -> key m ∉ seen -> In (key m) (map key (unique_from seen l))).
Proof.
  revert seen. induction l as [|x l IH]; intros seen; cbn [unique_from].
  - split; [apply List.NoDup_nil|]. split; intros m H; destruct H.
  - destruct (decide (key x ∈ seen)) as [Hin|Hnin].
    + destruct (IH seen) as (Hnd & Hsub & Hcov).
      split; [exact Hnd|]. split.
      * intros m Hm. apply Hsub in Hm as [Hm Hk]. split; [now right | exact Hk].
      * intros m [<-|Hm] Hk; [contradiction | now apply Hcov].
    + destruct (IH ({[key x]} ∪ seen)) as (Hnd & Hsub & Hcov).
      split; [|split].
      * cbn [map]. apply List.NoDup_cons; [|exact Hnd].
        intros Hx. apply List.in_map_iff in Hx as (m & Hkm & Hm).
        apply Hsub in Hm as [_ Hm]. apply Hm. rewrite Hkm. set_solver.
      * intros m [<-|Hm]; [split; [now left | exact Hnin]|].
        apply Hsub in Hm as [Hm Hk]. split; [now right | set_solver].
      * intros m [<-|Hm] Hk; cbn [map]; [now left|].
        destruct (decide (key m = key x)) as [->|Hne]; [now left|].
        right. apply Hcov; [exact Hm | set_solver].
Qed.

(** [codebase_search] called with [file_types=None]: one grep per
    default glob, duplicates by (file, line) dropped, sorted by
    (file, line), cut at the cap, flagged when the cap is reached. *)
Lemma codebase_search_default (cap : nat)
      (grep : json -> json -> json -> World -> list Match + string)
      (query : json) (w : World) :
  let found := sort_by_key (unique (gather grep query (map JStr default_file_types) w)) in
  codebase_search cap grep query JNull w
  = (w, inl (success [("query", query);
                      ("file_types", JArr (map JStr default_file_types));
                      ("matches", JArr (map match_json (firstn cap found)));
                      ("total_found", JInt (Z.of_nat (length found)));
                      ("truncated", JBool (cap <=? length found)%nat)])).
Proof. reflexivity. Qed.

End SearchOperationsFacts.

(* ===================================================================== *)
(** * The dispatcher and the tool round *)
(* ===================================================================== *)

Section ProxyFacts.
Import PyStr Json Host Py Proxy.

Context (sec : Security) (guess_type : string -> option string)
        (popen : string -> string -> World -> TerminalOperations.Process * World)
        (grep_search : json -> json -> json -> World -> list SearchOperations.Match + string)
        (list_directory search_files : json -> json -> M World json)
        (json_loads : string -> option json) (decode_error : string -> string)
        (available_tools : json) (backend : json -> Reply).

Local Abbreviation dispatch :=
  (execute_tool_call sec guess_type popen grep_search list_directory search_files).
Local Abbreviation run_call :=
  (run_tool_call sec guess_type popen grep_search list_directory search_files
                 json_loads decode_error).
Local Abbreviation run_calls :=
  (run_tool_calls sec guess_type popen grep_search list_directory search_files
                  json_loads decode_error).
Local Abbreviation round :=
  (tool_round sec guess_type popen grep_search list_directory search_files
              json_loads decode_error backend).

(** the dispatcher never raises: whatever a handler does ends in a result *)
Lemma execute_tool_call_returns (tool_name arguments : json) (w : World) :
  exists w' r, dispatch tool_name arguments w = (w', inl r).
Proof.
  unfold execute_tool_call, try_except.
  match goal with |- context [match ?b w with _ => _ end] => destruct (b w) as [w' [r|e]] end;
    eauto.
Qed.

(** an unknown tool name is a failure result of the dispatcher *)
Lemma unknown_tool_is_a_result (arguments : json) (w : World) :
  dispatch (JStr "no_such_tool") arguments w
  = (w, inl (failure "Unknown tool: no_such_tool")).
Proof. reflexivity. Qed.

(** a well-formed call whose argument text does not decode: the loop
    body raises before the dispatcher is reached *)
Lemma run_tool_call_undecodable (id name : json) (raw : string) (s : Session) :
  json_loads raw = None ->
  run_call (JObj [("id", id); ("type", JStr "function");
                  ("function", JObj [("name", name); ("arguments", JStr raw)])]) s
  = (s, inr (decode_error raw)).
Proof.
  intros Hbad. unfold run_tool_call, loads, bind, lift. cbn. now rewrite Hbad.
Qed.

(** a well-formed call whose argument text decodes: one tool message,
    echoing the call's id and name, with the serialised result *)
Lemma run_tool_call_decoded (id name : json) (raw : string) (arguments r : json)
      (s : Session) (w' : World) :
  json_loads raw = Some arguments ->
  dispatch name arguments (host s) = (w', inl r) ->
  run_call (JObj [("id", id); ("type", JStr "function");
                  ("function", JObj [("name", name); ("arguments", JStr raw)])]) s
  = ({| host := w'; posted := posted s |}, inl (tool_message id name r)).
Proof.
  intros Hok Hrun. unfold run_tool_call, loads, bind, lift, on_host, ret. cbn.
  rewrite Hok. cbn. rewrite Hrun. reflexivity.
Qed.

(** the loop stops at the first call that raises: the calls before it
    have run, the calls after it never do, and no list of tool messages
    comes out *)
Lemma run_tool_calls_stop (before after : list json) (bad : json) (e : string)
      (s s1 : Session) (ms : list json) :
  run_calls before s = (s1, inl ms) ->
  run_call bad s1 = (s1, inr e) ->
  run_calls (before ++ bad :: after) s = (s1, inr e).
Proof.
  revert s ms. induction before as [|c before IH]; intros s ms Hrun Hbad.
  - cbn in Hrun. injection Hrun as -> _.
    cbn [app run_tool_calls]. unfold bind at 1. now rewrite Hbad.
  - cbn [app run_tool_calls] in *. unfold bind at 1 in Hrun. unfold bind at 1.
    destruct (run_call c s) as [s' [m|e']]; [|discriminate].
    unfold bind at 1 in Hrun. unfold bind at 1.
    destruct (run_calls before s') as [s'' [ms'|e']] eqn:Hrest; [|discriminate].
    cbn in Hrun. injection Hrun as -> _.
    now rewrite (IH s' ms' Hrest Hbad).
Qed.

(** The tool round for two well-formed calls whose argument texts
    decode: both run in order on the host, and the follow-up request
    carries the old messages, the assistant message and the two tool
    messages, A's before B's, without the catalogue. *)
Lemma tool_round_two_calls (members : list (string * json)) (messages : list json)
      (message idA nameA idB nameB argsA argsB rA rB : json) (rawA rawB : string)
      (s : Session) (w1 w2 : World) (code : Z) (content : string) :
  let callA := JObj [("id", idA); ("type", JStr "function");
                     ("function", JObj [("name", nameA); ("arguments", JStr rawA)])] in
  let callB := JObj [("id", idB); ("type", JStr "function");
                     ("function", JObj [("name", nameB); ("arguments", JStr rawB)])] in
  let conversation :=
    messages ++ [message; tool_message idA nameA rA; tool_message idB nameB rB] in
  let follow_up :=
    JObj (PyVal.dict_pop "tools" (dict_set "messages" (JArr conversation) members)) in
  dict_lookup "messages" members = Some (JArr messages) ->
  json_loads rawA = Some argsA ->
  json_loads rawB = Some argsB ->
  dispatch nameA argsA (host s) = (w1, inl rA) ->
  dispatch nameB argsB w1 = (w2, inl rB) ->
  backend follow_up = Answer code content ->
  round (JObj members) message (JArr [callA; callB]) s
  = ({| host := w2; posted := posted s ++ [follow_up] |},
     inl {| status := code; body := Raw content |}).
Proof.
  intros callA callB conversation follow_up Hmsgs HA HB HrunA HrunB Hback.
  unfold tool_round. unfold bind at 1. unfold lift at 1. cbn [SearchOperations.py_iter].
  unfold bind at 1. cbn [run_tool_calls]. unfold bind at 1.
  unfold callA at 1.
  rewrite (run_tool_call_decoded idA nameA rawA argsA rA s w1 HA HrunA).
  unfold bind at 1. unfold bind at 1. unfold callB at 1.
  rewrite (run_tool_call_decoded idB nameB rawB argsB rB
             {| host := w1; posted := posted s |} w2 HB HrunB).
  unfold bind at 1. unfold ret at 1. unfold ret at 1. unfold ret at 1.
  unfold bind at 1. unfold lift at 1.
  unfold append_messages, PyVal.getitem. rewrite Hmsgs.
  cbn [PyVal.setitem without_tools app].
  unfold bind at 1. unfold post.
  fold conversation. fold follow_up. rewrite Hback. reflexivity.
Qed.

(** C4 at a failing input.  A [codebase_search] tool call that supplies
    no [file_types] reaches the handler with the empty list the
    dispatcher puts in its place: no grep runs and the result is empty,
    whatever a search of the default globs would find.  The default list
    of the handler is used only when [file_types] is sent as null. *)
Theorem codebase_search_without_file_types (query : json) (w : World) :
  dispatch (JStr "codebase_search") (JObj [("query", query)]) w
  = (w, inl (success [("query", query);
                      ("file_types", JArr []);
                      ("matches", JArr []);
                      ("total_found", JInt 0);
                      ("truncated", JBool (max_output_lines sec <=? 0)%nat)]))
  /\ dispatch (JStr "codebase_search") (JObj [("query", query); ("file_types", JNull)]) w
     = SearchOperations.codebase_search (max_output_lines sec) grep_search query JNull w
  /\ exists r,
       SearchOperations.codebase_search (max_output_lines sec) grep_search query JNull w
       = (w, inl r)
       /\ field "file_types" r
          = Some (JArr (map JStr ["*.py"; "*.js"; "*.ts"; "*.java"; "*.cpp"; "*.c"; "*.h"])).
Proof.
  split.
  { unfold execute_tool_call, try_except, arg, bind, lift. cbn.
    now rewrite List.firstn_nil. }
  split.
  - rewrite codebase_search_default.
    unfold execute_tool_call, try_except, arg, bind, lift. cbn. reflexivity.
  - eexists. split; [apply codebase_search_default | reflexivity].
Qed.

End ProxyFacts.

Section RequestFacts.
Import PyStr Json Host Py Proxy Scenario.

(** C2 at a failing input.  The model asks for two calls; the argument
    text of the first does not decode.  The request ends in the 500
    envelope: the second call never runs (its file is not created), no
    tool message is produced, and nothing is posted after the first
    request.  For comparison, an argument text that decodes to a list
    instead of an object is a failure result of that call alone, and the
    second call runs. *)
Theorem undecodable_arguments_end_the_request :
  serve [broken "call_A"; create "call_B" "b.txt" "beta"] request fresh
  = ({| host := work; posted := [offered] |},
     inl (proxy_error (decode_error "{not json")))
  /\ fs work !! "/work/b.txt" = None
  /\ exists s',
       serve [call "call_A" "create_file" "[1]"; create "call_B" "b.txt" "beta"] request fresh
       = (s', inl {| status := 200; body := Raw "final answer" |})
       /\ fs (host s') !! "/work/b.txt" = Some (File "beta")
       /\ (last (posted s') ≫= field "messages")
          = Some (JArr [user_turn;
                        assistant [call "call_A" "create_file" "[1]";
                                   create "call_B" "b.txt" "beta"];
                        tool_message (JStr "call_A") (JStr "create_file")
                          (failure "Tool execution failed: 'list' object has no attribute 'get'");
                        tool_message (JStr "call_B") (JStr "create_file")
                          (success [("message", JStr "File created successfully: b.txt");
                                    ("size", JInt 4)])]).
Proof.
  split; [vm_compute; reflexivity|].
  split; [vm_compute; reflexivity|].
  eexists. split; [vm_compute; reflexivity|].
  split; vm_compute; reflexivity.
Qed.

(** C3 at a failing input.  The model asks for the calls [A, B]; the
    argument text of B does not decode.  A has run (its file exists), yet
    no tool message is appended for either call: the only request posted
    is the first one, and the answer is the 500 envelope. *)
Theorem second_call_undecodable_drops_both_results :
  exists s',
    serve [create "call_A" "a.txt" "alpha"; broken "call_B"] request fresh
    = (s', inl (proxy_error (decode_error "{not json")))
    /\ fs (host s') !! "/work/a.txt" = Some (File "alpha")
    /\ posted s' = [offered]
    /\ field "messages" offered = Some (JArr [user_turn]).
Proof.
  eexists. split; [vm_compute; reflexivity|].
  repeat split; vm_compute; reflexivity.
Qed.

(** With both argument texts well formed the same request is answered
    from the follow-up, whose conversation ends with the assistant
    message and the two tool messages in the order of the calls. *)
Lemma two_calls_in_order :
  exists s',
    serve [create "call_A" "a.txt" "alpha"; create "call_B" "b.txt" "beta"] request fresh
    = (s', inl {| status := 200; body := Raw "final answer" |})
    /\ (last (posted s') ≫= field "messages")
       = Some (JArr [user_turn;
                     assistant [create "call_A" "a.txt" "alpha"; create "call_B" "b.txt" "beta"];
                     tool_message (JStr "call_A") (JStr "create_file")
                       (success [("message", JStr "File created successfully: a.txt");
                                 ("size", JInt 5)]);
                     tool_message (JStr "call_B") (JStr "create_file")
                       (success [("message", JStr "File created successfully: b.txt");
                                 ("size", JInt 4)])])
    /\ (last (posted s') ≫= field "tools") = None.
Proof.
  eexists. split; [vm_compute; reflexivity|].
  split; vm_compute; reflexivity.
Qed.

End RequestFacts.

(* ===================================================================== *)
(** * Further properties of the handlers *)
(* ===================================================================== *)

(** run a handler body down to its host calls *)
Ltac py_run :=
  unfold Py.try_except, Py.bind, Py.ret, Py.raise, Py.ask, Py.sys, Py.sys_read, Py.lift in *.

Section ReadFacts.
Import PyStr PosixPath Json Host Py PathPolicy FileOperations.

(** X1.  [read_file] never changes the host and never raises: for every
    argument, of whatever type, and every host it returns a result and
    leaves the host as it was. *)
Theorem read_file_reads_only (sec : Security) (guess_type : string -> option string)
        (file_path : json) (w : World) :
  exists r, read_file sec guess_type file_path w = (w, inl r).
Proof.
  unfold read_file, read_file_body, is_path_allowed, as_path. py_run.
  destruct file_path; cbn beta iota; try (eexists; reflexivity).
  destruct (_is_path_allowed (cwd w) sec s) as [ok msg]; cbn [fst snd].
  destruct ok; cbn beta iota delta [negb]; [|eexists; reflexivity].
  destruct (exists_ w s); cbn beta iota delta [negb]; [|eexists; reflexivity].
  destruct (isfile w s); cbn beta iota delta [negb]; [|eexists; reflexivity].
  destruct (max_file_size sec <? getsize w s); cbn beta iota; [eexists; reflexivity|].
  destruct (is_binary (guess_type s)); cbn beta iota; [eexists; reflexivity|].
  destruct (read_text w s) as [c|e]; cbn beta iota; [|eexists; reflexivity].
  destruct (limit_lines (max_output_lines sec) c). eexists; reflexivity.
Qed.

(** X2.  A file larger than the configured maximum is refused before it is
    opened: the result is the "File too large" failure, which names both
    sizes, and no content is returned. *)
Theorem read_file_too_large (sec : Security) (guess_type : string -> option string)
        (w : World) (p raw : string) :
  fst (_is_path_allowed (cwd w) sec p) = true ->
  fs w !! resolve w p = Some (File raw) ->
  max_file_size sec < Z.of_nat (String.length raw) ->
  read_file sec guess_type (JStr p) w
  = (w, inl (failure ("File too large: " +:+ str_Z (Z.of_nat (String.length raw))
                      +:+ " bytes (max: " +:+ str_Z (max_file_size sec) +:+ ")"))).
Proof.
  intros Hok Hfile Hbig.
  unfold read_file, read_file_body, is_path_allowed, as_path. py_run.
  destruct (_is_path_allowed (cwd w) sec p) as [ok msg]; simpl in Hok; subst ok.
  apply Z.ltb_lt in Hbig.
  unfold exists_, isfile, getsize.
  repeat (rewrite ?Hfile, ?Hbig; cbn beta iota delta [negb fst snd]).
  reflexivity.
Qed.

Lemma read_file_too_large_witness :
  read_file Cases.tiny_files Scenario.no_mime (JStr "notes.txt") Scenario.work
  = (Scenario.work,
     inl (failure ("File too large: " +:+ str_Z (Z.of_nat (String.length Scenario.five_lines))
                   +:+ " bytes (max: " +:+ str_Z 10 +:+ ")"))).
Proof.
  apply (read_file_too_large Cases.tiny_files Scenario.no_mime Scenario.work "notes.txt" Scenario.five_lines).
  - vm_compute. reflexivity.
  - vm_compute. reflexivity.
  - vm_compute. reflexivity.
Defined.

End ReadFacts.

Section LineFacts.
Import PyStr PosixPath Json Host Py FileOperations.

Lemma str_cons (x : ascii) (a b : string) : String x a +:+ b = String x (a +:+ b).
Proof. reflexivity. Qed.

Lemma split_one_line (s : string) : one_line s -> split nl s = [s].
Proof.
  unfold one_line. induction s as [|c s IH]; cbn [PyVal.has_char split]; [reflexivity|].
  intros H. apply orb_false_iff in H as [Hc Hs].
  rewrite Hc, (IH Hs). reflexivity.
Qed.

Lemma split_line_then (x rest : string) :
  one_line x -> split nl (x +:+ String nl rest) = x :: split nl rest.
Proof.
  unfold one_line. induction x as [|c x IH]; cbn [PyVal.has_char]; intros H.
  - change (EmptyString +:+ String nl rest) with (String nl rest).
    cbn [split]. now rewrite Ascii.eqb_refl.
  - apply orb_false_iff in H as [Hc Hx].
    rewrite str_cons. cbn [split]. rewrite Hc, (IH Hx). reflexivity.
Qed.

Lemma split_pieces_one_line (s : string) : Forall one_line (split nl s).
Proof.
  induction s as [|c s IH]; cbn [split]; [repeat constructor|].
  destruct (Ascii.eqb c nl) eqn:Hc.
  - constructor; [reflexivity | exact IH].
  - destruct (split nl s) as [|p ps]; [repeat constructor; unfold one_line; cbn; now rewrite Hc|].
    inversion IH as [|? ? Hp Hps]; subst.
    constructor; [|exact Hps].
    unfold one_line in *. cbn [PyVal.has_char]. now rewrite Hc, Hp.
Qed.

Lemma split_join (l : list string) :
  l <> [] -> Forall one_line l -> split nl (PyStr.join NL l) = l.
Proof.
  induction l as [|x l IH]; [congruence|]. intros _ Hall.
  inversion Hall as [|? ? Hx Hl]; subst.
  destruct l as [|y l].
  - now apply split_one_line.
  - change (PyStr.join NL (x :: y :: l)) with (x +:+ String nl (PyStr.join NL (y :: l))).
    rewrite (split_line_then x _ Hx), IH; [reflexivity | discriminate | exact Hl].
Qed.

Lemma join_snoc (l : list string) (x : string) :
  l <> [] -> PyStr.join NL (l ++ [x]) = PyStr.join NL l +:+ NL +:+ x.
Proof.
  induction l as [|a l IH]; [congruence|]. intros _.
  destruct l as [|b l].
  - reflexivity.
  - change (PyStr.join NL ((a :: b :: l) ++ [x]))
      with (a +:+ NL +:+ PyStr.join NL ((b :: l) ++ [x])).
    change (PyStr.join NL (a :: b :: l)) with (a +:+ NL +:+ PyStr.join NL (b :: l)).
    rewrite IH by discriminate.
    rewrite !append_assoc. reflexivity.
Qed.

Lemma digit_one_line (k : nat) : Ascii.eqb (chr (48 + k mod 10)) nl = false.
Proof.
  assert (H : (k mod 10 < 10)%nat) by (apply Nat.mod_upper_bound; lia).
  destruct (k mod 10)%nat as [|[|[|[|[|[|[|[|[|[|n]]]]]]]]]]; try reflexivity; lia.
Qed.

Lemma digits_one_line (fuel n : nat) (acc : string) :
  one_line acc -> one_line (digits_fuel fuel n acc).
Proof.
  revert n acc. induction fuel as [|fuel IH]; intros n acc Hacc; cbn [digits_fuel]; [exact Hacc|].
  assert (Hnext : one_line (String (chr (48 + n mod 10)) acc)).
  { unfold one_line in *. cbn [PyVal.has_char]. now rewrite digit_one_line, Hacc. }
  destruct (n / 10)%nat; [exact Hnext | now apply IH].
Qed.

Lemma one_line_app (a b : string) : one_line a -> one_line b -> one_line (a +:+ b).
Proof.
  unfold one_line. induction a as [|c a IH]; intros Ha Hb; [exact Hb|].
  rewrite str_cons. cbn [PyVal.has_char] in *.
  apply orb_false_iff in Ha as [Hc Ha]. now rewrite Hc, IH.
Qed.

Lemma marker_is_one_line (cap : nat) : one_line (marker_line cap).
Proof.
  unfold marker_line.
  apply one_line_app; [reflexivity|].
  apply one_line_app; [|reflexivity].
  apply digits_one_line. reflexivity.
Qed.

(** X3.  The output limit of [read_file] and [execute_command]: a text of
    at most cap lines is returned as it is; a longer one comes back as
    its first cap lines, unchanged and in order, followed by exactly one
    marker line.  Either way the count reported is that of the whole
    text. *)
Theorem limit_lines_keeps_first_lines (cap : nat) (text : string) :
  (0 < cap)%nat ->
  snd (limit_lines cap text) = length (split nl text)
  /\ ((length (split nl text) <= cap)%nat -> fst (limit_lines cap text) = text)
  /\ ((cap < length (split nl text))%nat ->
      split nl (fst (limit_lines cap text))
      = firstn cap (split nl text) ++ [marker_line cap]).
Proof.
  intros Hcap. unfold limit_lines.
  destruct (cap <? length (split nl text))%nat eqn:E; cbn [fst snd].
  - apply Nat.ltb_lt in E. split; [reflexivity|]. split; [lia|]. intros _.
    assert (Hne : firstn cap (split nl text) <> []).
    { destruct cap; [lia|]. destruct (split nl text); [cbn in E; lia | discriminate]. }
    unfold truncation_marker. fold (marker_line cap).
    rewrite <- join_snoc by exact Hne.
    apply split_join.
    + destruct (firstn cap (split nl text)); [congruence | discriminate].
    + apply Forall_app. split.
      * apply Forall_take, split_pieces_one_line.
      * repeat constructor. apply marker_is_one_line.
  - apply Nat.ltb_ge in E. split; [reflexivity|]. split; [reflexivity | lia].
Qed.

Lemma limit_lines_keeps_first_lines_witness :
  snd (limit_lines 3 Scenario.five_lines) = length (split nl Scenario.five_lines)
  /\ ((length (split nl Scenario.five_lines) <= 3)%nat ->
      fst (limit_lines 3 Scenario.five_lines) = Scenario.five_lines)
  /\ ((3 < length (split nl Scenario.five_lines))%nat ->
      split nl (fst (limit_lines 3 Scenario.five_lines))
      = firstn 3 (split nl Scenario.five_lines) ++ [marker_line 3]).
Proof.
  apply (limit_lines_keeps_first_lines 3 Scenario.five_lines). lia.
Defined.

End LineFacts.

Section MutationFacts.
Import PyStr PosixPath Json Host Py PathPolicy FileOperations EditOperations.

(** X4.  The path permit check comes before everything else in all four
    file handlers: on a path it denies, [read_file], [delete_file],
    [create_file] and [edit_file] return the denial and leave the host
    as it was -- no directory is made, no backup is taken. *)
Theorem denied_path_is_untouched (sec : Security) (guess_type : string -> option string)
        (p : string) (content start_line end_line : json) (w : World) :
  fst (_is_path_allowed (cwd w) sec p) = false ->
  let denial := (w, inl (failure (snd (_is_path_allowed (cwd w) sec p)))) in
  read_file sec guess_type (JStr p) w = denial
  /\ delete_file sec (JStr p) w = denial
  /\ create_file sec (JStr p) content w = denial
  /\ edit_file sec (JStr p) content start_line end_line w = denial.
Proof.
  intros Hno denial. subst denial.
  unfold read_file, read_file_body, delete_file, delete_file_body,
    create_file, create_file_body, edit_file, edit_file_body, is_path_allowed, as_path.
  py_run.
  destruct (_is_path_allowed (cwd w) sec p) as [ok msg]; simpl in Hno; subst ok.
  cbn beta iota delta [negb fst snd]. repeat split.
Qed.

Lemma denied_path_is_untouched_witness :
  let w := Scenario.work in
  let denial := (w, inl (failure (snd (_is_path_allowed (cwd w) Scenario.cap3 "/etc/passwd")))) in
  read_file Scenario.cap3 Scenario.no_mime (JStr "/etc/passwd") w = denial
  /\ delete_file Scenario.cap3 (JStr "/etc/passwd") w = denial
  /\ create_file Scenario.cap3 (JStr "/etc/passwd") (JStr "x") w = denial
  /\ edit_file Scenario.cap3 (JStr "/etc/passwd") (JStr "x") JNull JNull w = denial.
Proof.
  apply (denied_path_is_untouched Scenario.cap3 Scenario.no_mime "/etc/passwd"
           (JStr "x") JNull JNull Scenario.work).
  vm_compute. reflexivity.
Defined.



(** X6.  [delete_file] removes regular files only: when the path names a
    directory or nothing at all, the result is a failure and the host is
    as it was. *)
Theorem delete_file_refuses_non_files (sec : Security) (w : World) (p : string) :
  isfile w p = false ->
  exists msg, delete_file sec (JStr p) w = (w, inl (failure msg)).
Proof.
  intros Hno.
  unfold delete_file, delete_file_body, is_path_allowed, as_path. py_run.
  destruct (_is_path_allowed (cwd w) sec p) as [ok msg]; cbn [fst snd].
  destruct ok; cbn beta iota delta [negb]; [|eexists; reflexivity].
  destruct (exists_ w p); cbn beta iota delta [negb]; [|eexists; reflexivity].
  rewrite Hno. cbn beta iota delta [negb]. eexists; reflexivity.
Qed.

Lemma delete_file_refuses_non_files_witness :
  exists msg, delete_file Scenario.cap3 (JStr "/work") Scenario.work
              = (Scenario.work, inl (failure msg)).
Proof.
  apply (delete_file_refuses_non_files Scenario.cap3 Scenario.work "/work").
  vm_compute. reflexivity.
Defined.






End MutationFacts.

Section EditFacts.
Import PyStr PosixPath Json Host Py PathPolicy FileOperations EditOperations.



Lemma with_fs_same (w : World) : with_fs w (fs w) = w.
Proof. destruct w; reflexivity. Qed.

(** the backup of an existing file, with the backup directory in place *)
Lemma create_backup_ready (w : World) (p old : string) :
  fs w !! resolve w p = Some (File old) ->
  backup_ready w p ->
  _create_backup p w
  = (with_fs w (<[resolve w (backup_path w p) := File old]> (fs w)),
     inl (true, Some (backup_path w p))).
Proof.
  intros Hfile (Hdir & Hfree & Hparent).
  unfold _create_backup. py_run.
  unfold exists_. rewrite Hfile. cbn beta iota delta [negb].
  unfold makedirs.
  assert (Hmk : forall fuel, mkdirs fuel (fs w) (resolve w backup_dir) = inl (fs w)).
  { intros [|fuel]; cbn [mkdirs]; now rewrite Hdir. }
  rewrite Hmk, with_fs_same. cbn beta iota.
  fold (backup_path w p).
  unfold copy2, read_raw. rewrite Hfile.
  unfold isdir. rewrite Hfree.
  unfold write_text, open_w. rewrite Hfree, Hparent.
  unfold put, resolve. cbn [fs cwd with_fs].
  rewrite insert_insert_eq. reflexivity.
Qed.

(** [edit_file] on a permitted path is the backup followed by the rest *)
Lemma edit_file_shape (sec : Security) (w : World) (p : string)
      (content start_line end_line : json) :
  fst (_is_path_allowed (cwd w) sec p) = true ->
  edit_file sec (JStr p) content start_line end_line w
  = try_except
      (bind (_create_backup p) (fun bk =>
         if negb (fst bk)
         then ret (failure ("Failed to create backup: " +:+ default "None" (snd bk)))
         else edit_after_backup p content start_line end_line (snd bk)))
      (fun e => ret (failure e)) w.
Proof.
  intros Hok.
  unfold edit_file, edit_file_body, is_path_allowed, as_path, edit_after_backup. py_run.
  destruct (_is_path_allowed (cwd w) sec p) as [ok msg]; simpl in Hok; subst ok.
  cbn beta iota delta [negb fst snd].
  destruct (_create_backup p w) as [w1 [[ok bp]|e]]; reflexivity.
Qed.

Lemma backup_elsewhere (w : World) (p old : string) :
  fs w !! resolve w p = Some (File old) -> backup_ready w p ->
  resolve w (backup_path w p) <> resolve w p.
Proof. intros Hfile (_ & Hfree & _) Heq. congruence. Qed.



(** X10.  A line range that does not fit the file is refused with the
    "Invalid line range" failure and the file keeps its content; the
    backup has been taken all the same.  The range is refused when
    [start_line < 1], when [end_line < start_line], or when [start_line]
    exceeds the number of lines. *)
Theorem edit_invalid_range (sec : Security) (w : World) (p old : string)
        (content : json) (s e : Z) :
  fst (_is_path_allowed (cwd w) sec p) = true ->
  fs w !! resolve w p = Some (File old) ->
  backup_ready w p ->
  s < 1 \/ e < s \/ Z.of_nat (length (readlines (universal_newlines old))) < s ->
  exists w',
    edit_file sec (JStr p) content (JInt s) (JInt e) w
    = (w', inl (failure ("Invalid line range: " +:+ str_Z s +:+ "-" +:+ str_Z e
                         +:+ " (file has "
                         +:+ str_nat (length (readlines (universal_newlines old)))
                         +:+ " lines)")))
    /\ fs w' !! resolve w p = Some (File old)
    /\ fs w' !! resolve w (backup_path w p) = Some (File old).
Proof.
  intros Hok Hfile Hready Hbad.
  pose proof (backup_elsewhere w p old Hfile Hready) as Hne.
  rewrite (edit_file_shape sec w p _ _ _ Hok).
  unfold try_except, bind.
  rewrite (create_backup_ready w p old Hfile Hready).
  cbn beta iota delta [negb fst snd].
  unfold edit_after_backup. cbn [is_none negb andb].
  set (B := resolve w (backup_path w p)) in *.
  set (w1 := with_fs w (<[B := File old]> (fs w))).
  assert (Hfile1 : fs w1 !! resolve w p = Some (File old)).
  { unfold w1. cbn [fs with_fs]. rewrite lookup_insert_ne; [exact Hfile | congruence]. }
  assert (Htest : (s <? 1) || (e <? s)
                  || (Z.of_nat (length (readlines (universal_newlines old))) <? s) = true).
  { destruct Hbad as [H|[H|H]]; apply Z.ltb_lt in H; rewrite H;
      rewrite ?orb_true_r; reflexivity. }
  unfold as_line. py_run. unfold exists_, read_text, read_raw.
  repeat (change (resolve w1 p) with (resolve w p);
          rewrite ?Hfile1, ?Htest; cbn beta iota delta [negb]).
  eexists. split; [reflexivity|]. split; [exact Hfile1|].
  unfold w1. cbn [fs with_fs]. apply lookup_insert_eq.
Qed.

Lemma edit_invalid_range_witness :
  exists w',
    edit_file Scenario.cap3 (JStr "notes.txt") (JStr "X") (JInt 6) (JInt 7) Cases.desk
    = (w', inl (failure ("Invalid line range: " +:+ str_Z 6 +:+ "-" +:+ str_Z 7
                         +:+ " (file has "
                         +:+ str_nat (length (readlines (universal_newlines Scenario.five_lines)))
                         +:+ " lines)")))
    /\ fs w' !! resolve Cases.desk "notes.txt" = Some (File Scenario.five_lines)
    /\ fs w' !! resolve Cases.desk (backup_path Cases.desk "notes.txt")
       = Some (File Scenario.five_lines).
Proof.
  apply (edit_invalid_range Scenario.cap3 Cases.desk "notes.txt" Scenario.five_lines
           (JStr "X") 6 7).
  - vm_compute. reflexivity.
  - vm_compute. reflexivity.
  - repeat split; vm_compute; reflexivity.
  - right. right. vm_compute. reflexivity.
Defined.

(** X11.  A line-range edit with a fitting range writes the lines before
    [start_line], then the content as it is -- with one more newline when
    it already ends in one -- then the lines after [end_line], with
    nothing in between; the lines are those of the text read with CR LF
    and CR turned into LF.  The result reports [end_line - start_line + 1]
    lines modified, whether or not the file has that many, and the
    number of pieces of the content as new lines; the old text is kept
    under the backup path. *)
Theorem edit_line_range (sec : Security) (w : World) (p old c : string) (s e : Z) :
  fst (_is_path_allowed (cwd w) sec p) = true ->
  fs w !! resolve w p = Some (File old) ->
  backup_ready w p ->
  fs w !! dirname (resolve w p) = Some Dir ->
  1 <= s -> s <= e -> s <= Z.of_nat (length (readlines (universal_newlines old))) ->
  let lines := readlines (universal_newlines old) in
  exists w',
    edit_file sec (JStr p) (JStr c) (JInt s) (JInt e) w
    = (w', inl (success [("message", JStr ("File edited successfully (lines " +:+ str_Z s
                                           +:+ "-" +:+ str_Z e +:+ "): " +:+ p));
                         ("backup_path", JStr (backup_path w p));
                         ("lines_modified", JInt (e - s + 1));
                         ("new_lines", JInt (Z.of_nat (length (split nl c))))]))
    /\ fs w' !! resolve w p
       = Some (File (PyStr.concat (firstn (Z.to_nat (s - 1)) lines)
                     +:+ (if endswith_char c nl then c +:+ NL else c)
                     +:+ PyStr.concat (skipn (Z.to_nat e) lines)))
    /\ fs w' !! resolve w (backup_path w p) = Some (File old).
Proof.
  intros Hok Hfile Hready Hparent Hs He Hlen lines.
  pose proof (backup_elsewhere w p old Hfile Hready) as Hne.
  rewrite (edit_file_shape sec w p _ _ _ Hok).
  unfold try_except, bind.
  rewrite (create_backup_ready w p old Hfile Hready).
  cbn beta iota delta [negb fst snd].
  unfold edit_after_backup. cbn [is_none negb andb].
  set (B := resolve w (backup_path w p)) in *.
  set (w1 := with_fs w (<[B := File old]> (fs w))).
  assert (Hkeep : forall q n, fs w !! q = Some n -> fs w1 !! q = Some n).
  { intros q n Hq. unfold w1. cbn [fs with_fs].
    rewrite lookup_insert_ne; [exact Hq|].
    intros Heq. destruct Hready as (_ & Hfree & _).
    rewrite <- Heq in Hq. unfold B in Hq. congruence. }
  assert (Htest : (s <? 1) || (e <? s) || (Z.of_nat (length lines) <? s) = false).
  { unfold lines. apply orb_false_iff.
    split; [apply orb_false_iff; split|]; apply Z.ltb_ge; lia. }
  pose proof (Hkeep _ _ Hfile) as Hfile1. pose proof (Hkeep _ _ Hparent) as Hparent1.
  unfold as_line, as_str_for. py_run.
  unfold exists_, read_text, read_raw, write_text, open_w.
  repeat (change (resolve w1 p) with (resolve w p); fold lines;
          rewrite ?Hfile1, ?Hparent1, ?Htest; cbn beta iota delta [negb]).
  unfold put. subst w1 B. unfold resolve in *. cbn [fs cwd with_fs] in *.
  assert (Hn : length (new_content_lines c) = length (split nl c)).
  { unfold new_content_lines. destruct (endswith_char c nl).
    - apply List.length_map.
    - rewrite List.length_app, List.length_map. cbn [length].
      destruct (split nl c) as [|x l] eqn:E; [now apply split_nonempty in E|].
      rewrite List.removelast_firstn_len, List.length_firstn. cbn [length]. lia. }
  eexists. split; [unfold JNat; rewrite Hn; reflexivity|]. cbn [fs with_fs].
  split.
  - rewrite lookup_insert_eq, written_text. reflexivity.
  - rewrite !lookup_insert_ne by (intros Heq; apply Hne; congruence).
    apply lookup_insert_eq.
Qed.

Lemma edit_line_range_witness :
  let lines := readlines (universal_newlines Scenario.five_lines) in
  exists w',
    edit_file Scenario.cap3 (JStr "notes.txt") (JStr "X") (JInt 5) (JInt 9) Cases.desk
    = (w', inl (success [("message", JStr ("File edited successfully (lines " +:+ str_Z 5
                                           +:+ "-" +:+ str_Z 9 +:+ "): " +:+ "notes.txt"));
                         ("backup_path", JStr (backup_path Cases.desk "notes.txt"));
                         ("lines_modified", JInt (9 - 5 + 1));
                         ("new_lines", JInt (Z.of_nat (length (split nl "X"))))]))
    /\ fs w' !! resolve Cases.desk "notes.txt"
       = Some (File (PyStr.concat (firstn (Z.to_nat (5 - 1)) lines)
                     +:+ (if endswith_char "X" nl then "X" +:+ NL else "X")
                     +:+ PyStr.concat (skipn (Z.to_nat 9) lines)))
    /\ fs w' !! resolve Cases.desk (backup_path Cases.desk "notes.txt")
       = Some (File Scenario.five_lines).
Proof.
  apply (edit_line_range Scenario.cap3 Cases.desk "notes.txt" Scenario.five_lines "X" 5 9).
  - vm_compute. reflexivity.
  - vm_compute. reflexivity.
  - repeat split; vm_compute; reflexivity.
  - vm_compute. reflexivity.
  - lia.
  - lia.
  - vm_compute. discriminate.
Defined.

End EditFacts.

Section CommandFacts.
Import PyStr PosixPath Json Host Py FileOperations EditOperations TerminalOperations.

(** X12.  A child that ends within the timeout is reported as a success
    whatever its exit status: the result carries that status as
    [return_code], both streams cut by the output limit, and the line
    counts of the streams before the cut. *)
Theorem execute_command_completed (sec : Security)
        (popen : string -> string -> World -> Process * World)
        (command wd ok : string) (w w' : World) (p : Process) (t : nat) :
  _is_command_allowed sec command = inl (true, ok) ->
  isdir w wd = true ->
  popen command wd w = (p, w') ->
  decodes p = true ->
  exit_after p = Some t -> (t <= timeout)%nat ->
  execute_command sec popen (JStr command) (JStr wd) w
  = (w', inl (success [("command", JStr command);
                       ("working_directory", JStr wd);
                       ("stdout", JStr (fst (limit_lines (max_output_lines sec) (out p))));
                       ("stderr", JStr (fst (limit_lines (max_output_lines sec) (err p))));
                       ("return_code", JInt (returncode p));
                       ("stdout_lines", JInt (Z.of_nat (length (split nl (out p)))));
                       ("stderr_lines", JInt (Z.of_nat (length (split nl (err p)))))])).
Proof.
  intros Hok Hdir Hp Hdec Hexit Ht.
  assert (Hex : exists_ w wd = true).
  { unfold exists_, isdir in *. destruct (fs w !! resolve w wd) as [[c|]|]; congruence. }
  assert (Hcomm : communicate timeout p = Some (out p, err p, returncode p)).
  { unfold communicate. rewrite Hdec, Hexit. cbn [negb].
    apply Nat.leb_le in Ht. now rewrite Ht. }
  unfold execute_command, execute_command_body, as_str_for, as_stat_path. py_run.
  rewrite Hok. cbn beta iota delta [fst snd negb default]. rewrite Hex.
  cbn beta iota delta [negb]. rewrite Hdir. cbn beta iota delta [negb].
  unfold id. rewrite Hp. cbn beta iota. rewrite Hcomm.
  unfold limit_lines.
  destruct (max_output_lines sec <? length (split nl (out p)))%nat;
    destruct (max_output_lines sec <? length (split nl (err p)))%nat; reflexivity.
Qed.

Lemma execute_command_completed_witness :
  execute_command Cases.ls_only Cases.failing (JStr "ls nowhere") (JStr ".") Scenario.work
  = (Scenario.work,
     inl (success
            [("command", JStr "ls nowhere");
             ("working_directory", JStr ".");
             ("stdout", JStr (fst (limit_lines (max_output_lines Cases.ls_only)
                                     (out (fst (Cases.failing "ls nowhere" "." Scenario.work))))));
             ("stderr", JStr (fst (limit_lines (max_output_lines Cases.ls_only)
                                     (err (fst (Cases.failing "ls nowhere" "." Scenario.work))))));
             ("return_code", JInt (returncode (fst (Cases.failing "ls nowhere" "." Scenario.work))));
             ("stdout_lines",
              JInt (Z.of_nat (length (split nl (out (fst (Cases.failing "ls nowhere" "."
                                                           Scenario.work)))))));
             ("stderr_lines",
              JInt (Z.of_nat (length (split nl (err (fst (Cases.failing "ls nowhere" "."
                                                           Scenario.work)))))))])).
Proof.
  apply (execute_command_completed Cases.ls_only Cases.failing "ls nowhere" "." "OK"
           Scenario.work Scenario.work _ 0%nat).
  - vm_compute. reflexivity.
  - vm_compute. reflexivity.
  - reflexivity.
  - reflexivity.
  - reflexivity.
  - vm_compute. lia.
Defined.

(** X13.  No child is spawned for a command the permit check does not
    pass, nor in a working directory that is missing or not a directory:
    the result is a failure and the host is as it was, whatever the
    command would have done. *)
Theorem refused_command_is_not_run (sec : Security)
        (popen : string -> string -> World -> Process * World)
        (command wd : string) (w : World) :
  (forall ok, _is_command_allowed sec command <> inl (true, ok)) \/ isdir w wd = false ->
  exists msg,
    execute_command sec popen (JStr command) (JStr wd) w = (w, inl (failure msg)).
Proof.
  intros Hrefused.
  unfold execute_command, execute_command_body, as_str_for, as_stat_path. py_run.
  destruct (_is_command_allowed sec command) as [[ok msg]|e] eqn:Hchk;
    [|eexists; reflexivity].
  cbn beta iota delta [fst snd negb default].
  destruct ok; cbn beta iota delta [negb]; [|eexists; reflexivity].
  destruct Hrefused as [Hno|Hdir]; [exfalso; now apply (Hno msg)|].
  destruct (exists_ w wd); cbn beta iota delta [negb]; [|eexists; reflexivity].
  rewrite Hdir. cbn beta iota delta [negb]. eexists; reflexivity.
Qed.

Lemma refused_command_is_not_run_witness :
  exists msg,
    execute_command Cases.ls_only Cases.failing (JStr "sudo ls") (JStr ".") Scenario.work
    = (Scenario.work, inl (failure msg)).
Proof.
  apply (refused_command_is_not_run Cases.ls_only Cases.failing "sudo ls" "." Scenario.work).
  left. intros ok. vm_compute. discriminate.
Defined.

Lemma snoc_app (t : string) (c : ascii) (s : string) :
  Shlex.snoc t c +:+ s = t +:+ String c s.
Proof. unfold Shlex.snoc. now rewrite append_assoc. Qed.

(** inside a word, plain characters are taken one by one *)
Lemma lex_plain_word (tok rest t : string) (q : bool) (done : list string) :
  plain_word tok = true ->
  Shlex.lex (tok +:+ rest) Shlex.Word t q done = Shlex.lex rest Shlex.Word (t +:+ tok) q done.
Proof.
  revert t. induction tok as [|c tok IH]; intros t Hp.
  - change (EmptyString +:+ rest) with rest.
    replace (t +:+ EmptyString) with t; [reflexivity|].
    clear. induction t as [|x t IHt]; [reflexivity|]. rewrite str_cons. now f_equal.
  - cbn [plain_word] in Hp. apply andb_true_iff in Hp as [Hc Hp].
    unfold plain in Hc. apply negb_true_iff, orb_false_iff in Hc as [Hc He].
    apply orb_false_iff in Hc as [Hw Hq].
    rewrite str_cons. cbn [Shlex.lex]. rewrite Hw, Hq, He.
    rewrite (IH _ Hp), snoc_app. reflexivity.
Qed.

(** tokens already returned stay at the front of the result *)
Lemma lex_keeps_done (cs : string) (st : Shlex.state) (t : string) (q : bool)
      (done l : list string) :
  Shlex.lex cs st t q done = inl l -> exists more, l = done ++ more.
Proof.
  revert st t q done. induction cs as [|c cs IH]; intros st t q done; cbn [Shlex.lex].
  - destruct st; try discriminate.
    + intros [= <-]. exists []. now rewrite List.app_nil_r.
    + destruct (negb (String.eqb t EmptyString) || q); intros [= <-];
        [exists [t]; reflexivity | exists []; now rewrite List.app_nil_r].
  - destruct st as [| |qc|back].
    + destruct (Shlex.is_white c); [apply IH|].
      destruct (Shlex.is_escape c); [apply IH|].
      destruct (Shlex.is_quote c); apply IH.
    + destruct (Shlex.is_white c).
      * destruct (negb (String.eqb t EmptyString) || q); [|apply IH].
        intros H. apply IH in H as [more ->]. exists (t :: more).
        now rewrite <- List.app_assoc.
      * destruct (Shlex.is_quote c); [apply IH|].
        destruct (Shlex.is_escape c); apply IH.
    + destruct (Ascii.eqb c qc); [apply IH|].
      destruct (Shlex.is_escape c && Nat.eqb (ord qc) 34); apply IH.
    + destruct back; apply IH.
Qed.

(** X14.  With an allow-list, only the first shell token of the
    normalised command is compared with it: a command that starts with
    an allow-listed word followed by a blank is permitted whatever
    follows the blank, as long as it tokenises and contains no blocked
    substring. *)
Theorem allow_list_checks_first_token_only (sec : Security) (command tok rest : string)
        (tokens : list string) :
  unblocked sec command ->
  allowed_commands sec <> [] ->
  strip (lower command) = tok +:+ String " " rest ->
  tok <> EmptyString -> plain_word tok = true ->
  In tok (map lower (allowed_commands sec)) ->
  Shlex.split (strip (lower command)) = inl tokens ->
  _is_command_allowed sec command = inl (true, "OK").
Proof.
  intros Hfree Hlist Hshape Hne Hplain Hin Hsplit.
  assert (Hfirst : exists more, tokens = tok :: more).
  { rewrite Hshape in Hsplit. unfold Shlex.split in Hsplit.
    destruct tok as [|c tok]; [congruence|].
    cbn [plain_word] in Hplain. apply andb_true_iff in Hplain as [Hc Hp].
    unfold plain in Hc. apply negb_true_iff, orb_false_iff in Hc as [Hc He].
    apply orb_false_iff in Hc as [Hw Hq].
    rewrite str_cons in Hsplit. cbn [Shlex.lex] in Hsplit.
    rewrite Hw, Hq, He in Hsplit.
    rewrite (lex_plain_word tok _ _ _ _ Hp) in Hsplit.
    cbn [Shlex.lex] in Hsplit.
    change (Shlex.is_white " ") with true in Hsplit. cbn beta iota in Hsplit.
    change (String c EmptyString +:+ tok) with (String c tok) in Hsplit.
    cbn [String.eqb negb orb] in Hsplit.
    destruct (String.eqb (String c tok) EmptyString) eqn:Heq;
      [apply String.eqb_eq in Heq; discriminate|].
    cbn [negb orb] in Hsplit.
    apply lex_keeps_done in Hsplit as [more ->]. exists more. reflexivity. }
  destruct Hfirst as [more ->].
  unfold _is_command_allowed. unfold unblocked in Hfree. rewrite Hfree.
  destruct (allowed_commands sec) as [|a l] eqn:Hal; [congruence|].
  rewrite Hsplit.
  assert (Hex : existsb (String.eqb tok) (map lower (a :: l)) = true).
  { apply existsb_exists. exists tok. split; [exact Hin | apply String.eqb_refl]. }
  now rewrite Hex.
Qed.

Lemma allow_list_checks_first_token_only_witness :
  _is_command_allowed Cases.ls_only "ls && rm -rf /work" = inl (true, "OK").
Proof.
  apply (allow_list_checks_first_token_only Cases.ls_only "ls && rm -rf /work"
           "ls" "&& rm -rf /work" ["ls"; "&&"; "rm"; "-rf"; "/work"]).
  - vm_compute. reflexivity.
  - vm_compute. discriminate.
  - vm_compute. reflexivity.
  - discriminate.
  - reflexivity.
  - vm_compute. left. reflexivity.
  - vm_compute. reflexivity.
Defined.

(** X15.  A command that is empty or all white space has no first token
    and passes the allow-list: unless the block-list holds an empty
    entry, it is permitted. *)
Theorem blank_command_is_permitted (sec : Security) (command : string) :
  strip (lower command) = EmptyString ->
  (forall b, In b (blocked_commands sec) -> lower b <> EmptyString) ->
  _is_command_allowed sec command = inl (true, "OK").
Proof.
  intros Hblank Hentries. unfold _is_command_allowed. rewrite Hblank.
  assert (Hfind : find (fun blocked => contains EmptyString (lower blocked))
                       (blocked_commands sec) = None).
  { destruct (find _ (blocked_commands sec)) as [b|] eqn:E; [|reflexivity].
    apply find_some in E as [Hb Hc]. specialize (Hentries b Hb).
    destruct (lower b); [congruence | discriminate]. }
  rewrite Hfind. destruct (allowed_commands sec); reflexivity.
Qed.

Lemma blank_command_is_permitted_witness :
  _is_command_allowed Cases.ls_only "   " = inl (true, "OK").
Proof.
  apply (blank_command_is_permitted Cases.ls_only "   ").
  - vm_compute. reflexivity.
  - intros b [<-|[]]. vm_compute. discriminate.
Defined.

End CommandFacts.

Section SearchFacts.
Import PyStr Json Host Py SearchOperations FindDefinition.

Lemma in_gather (grep : json -> json -> json -> World -> list Match + string)
      (query : json) (globs : list json) (w : World) (m : Match) :
  In m (gather grep query globs w) <-> grepped grep query globs w m.
Proof.
  unfold gather, grepped. rewrite in_flat_map. split.
  - intros (g & Hg & Hm).
    destruct (grep query (JStr ".") g w) as [ms|e] eqn:E; [|destruct Hm].
    exists g, ms. repeat split; assumption.
  - intros (g & ms & Hg & E & Hm). exists g. split; [exact Hg|]. now rewrite E.
Qed.

(** X16.  [codebase_search] over the file types it is given (the default
    list for [None]): it only reads the host; the matches it found are
    those of the greps, one per (file, line), in ascending (file, line)
    order; [total_found] counts them all, [matches] holds the first
    cap-many, and [truncated] is set as soon as their number reaches the
    cap -- also when it equals the cap and nothing was cut. *)
Theorem codebase_search_result (cap : nat)
        (grep : json -> json -> json -> World -> list Match + string)
        (query file_types : json) (globs : list json) (w : World) :
  py_iter (effective_file_types file_types) = inl globs ->
  exists found,
    codebase_search cap grep query file_types w
    = (w, inl (success [("query", query);
                        ("file_types", effective_file_types file_types);
                        ("matches", JArr (map match_json (firstn cap found)));
                        ("total_found", JInt (Z.of_nat (length found)));
                        ("truncated", JBool (cap <=? length found)%nat)]))
    /\ Sorted key_le found
    /\ List.NoDup (map key found)
    /\ (forall m, In m found -> grepped grep query globs w m)
    /\ (forall m, grepped grep query globs w m -> In (key m) (map key found)).
Proof.
  intros Hiter.
  exists (sort_by_key (unique (gather grep query globs w))).
  destruct (sort_by_key_sorted (unique (gather grep query globs w))) as [Hsorted Hperm].
  destruct (unique_from_spec (gather grep query globs w) ∅) as (Hnd & Hsub & Hcov).
  fold (unique (gather grep query globs w)) in Hnd, Hsub, Hcov.
  split.
  - unfold codebase_search, codebase_search_body. py_run.
    fold (effective_file_types file_types). rewrite Hiter. reflexivity.
  - split; [exact Hsorted|]. split; [|split].
    + eapply Permutation_NoDup; [|exact Hnd].
      apply Permutation_map. now symmetry.
    + intros m Hm. apply in_gather, Hsub.
      eapply Permutation_in; [exact Hperm | exact Hm].
    + intros m Hm. apply in_gather in Hm.
      eapply Permutation_in; [apply Permutation_map; symmetry; exact Hperm|].
      apply Hcov; [exact Hm | set_solver].
Qed.

Lemma codebase_search_result_witness :
  exists found,
    codebase_search 2 Cases.same_hits (JStr "run") (JArr [JStr "*.py"; JStr "*.pyi"]) Scenario.work
    = (Scenario.work,
       inl (success [("query", JStr "run");
                     ("file_types", effective_file_types (JArr [JStr "*.py"; JStr "*.pyi"]));
                     ("matches", JArr (map match_json (firstn 2 found)));
                     ("total_found", JInt (Z.of_nat (length found)));
                     ("truncated", JBool (2 <=? length found)%nat)]))
    /\ Sorted key_le found
    /\ List.NoDup (map key found)
    /\ (forall m, In m found ->
                  grepped Cases.same_hits (JStr "run") [JStr "*.py"; JStr "*.pyi"] Scenario.work m)
    /\ (forall m, grepped Cases.same_hits (JStr "run") [JStr "*.py"; JStr "*.pyi"] Scenario.work m ->
                  In (key m) (map key found)).
Proof.
  apply (codebase_search_result 2 Cases.same_hits (JStr "run")
           (JArr [JStr "*.py"; JStr "*.pyi"]) [JStr "*.py"; JStr "*.pyi"] Scenario.work).
  reflexivity.
Defined.

Lemma in_collect (grep : json -> json -> json -> World -> list Match + string)
      (pats : list string) (globs : list json) (w : World) (m : Match) :
  In m (collect grep pats globs w)
  <-> exists pattern, In pattern pats /\ grepped grep (JStr pattern) globs w m.
Proof.
  unfold collect. rewrite in_flat_map. split.
  - intros (pat & Hp & Hm). exists pat. split; [exact Hp | now apply in_gather].
  - intros (pat & Hp & Hm). exists pat. split; [exact Hp | now apply in_gather].
Qed.

(** X17.  [find_definition] greps each of its seven definition patterns
    of the symbol over each file type and returns every match found,
    once per (file, line), without a cap: [total_found] is the number of
    matches returned, each returned match comes from one of those greps,
    and no (file, line) they found is missing.  The host is only read. *)
Theorem find_definition_result
        (grep : json -> json -> json -> World -> list Match + string)
        (symbol file_types : json) (globs : list json) (w : World) :
  py_iter (effective_file_types file_types) = inl globs ->
  exists found,
    find_definition grep symbol file_types w
    = (w, inl (success [("symbol", symbol);
                        ("matches", JArr (map match_json found));
                        ("total_found", JInt (Z.of_nat (length found)))]))
    /\ length (patterns symbol) = 7%nat
    /\ List.NoDup (map key found)
    /\ (forall m, In m found ->
          exists pattern, In pattern (patterns symbol)
                          /\ grepped grep (JStr pattern) globs w m)
    /\ (forall m pattern, In pattern (patterns symbol) ->
          grepped grep (JStr pattern) globs w m -> In (key m) (map key found)).
Proof.
  intros Hiter.
  exists (unique (collect grep (patterns symbol) globs w)).
  destruct (unique_from_spec (collect grep (patterns symbol) globs w) ∅) as (Hnd & Hsub & Hcov).
  fold (unique (collect grep (patterns symbol) globs w)) in Hnd, Hsub, Hcov.
  split.
  - unfold find_definition, find_definition_body. py_run.
    fold (effective_file_types file_types). rewrite Hiter. reflexivity.
  - split; [reflexivity|]. split; [exact Hnd|]. split.
    + intros m Hm. apply in_collect, Hsub, Hm.
    + intros m pattern Hp Hm. apply Hcov; [|set_solver].
      apply in_collect. exists pattern. split; assumption.
Qed.

Lemma find_definition_result_witness :
  exists found,
    find_definition Cases.same_hits (JStr "run") JNull Scenario.work
    = (Scenario.work,
       inl (success [("symbol", JStr "run");
                     ("matches", JArr (map match_json found));
                     ("total_found", JInt (Z.of_nat (length found)))]))
    /\ length (patterns (JStr "run")) = 7%nat
    /\ List.NoDup (map key found)
    /\ (forall m, In m found ->
          exists pattern, In pattern (patterns (JStr "run"))
                          /\ grepped Cases.same_hits (JStr pattern)
                               (map JStr default_file_types) Scenario.work m)
    /\ (forall m pattern, In pattern (patterns (JStr "run")) ->
          grepped Cases.same_hits (JStr pattern) (map JStr default_file_types) Scenario.work m ->
          In (key m) (map key found)).
Proof.
  apply (find_definition_result Cases.same_hits (JStr "run") JNull
           (map JStr default_file_types) Scenario.work).
  reflexivity.
Defined.

(** X18.  File types that cannot be iterated (a number, a Boolean) end
    both searches in a failure that carries the text of the [TypeError];
    no grep runs and the host is as it was. *)
Theorem search_needs_iterable_file_types (cap : nat)
        (grep : json -> json -> json -> World -> list Match + string)
        (query file_types : json) (e : string) (w : World) :
  py_iter (effective_file_types file_types) = inr e ->
  codebase_search cap grep query file_types w = (w, inl (failure e))
  /\ find_definition grep query file_types w = (w, inl (failure e))
  /\ e = "'" +:+ type_name file_types +:+ "' object is not iterable".
Proof.
  intros Hiter.
  unfold codebase_search, codebase_search_body, find_definition, find_definition_body. py_run.
  fold (effective_file_types file_types). rewrite Hiter.
  split; [reflexivity|]. split; [reflexivity|].
  destruct file_types; unfold effective_file_types, py_iter in Hiter;
    first [discriminate Hiter | injection Hiter as <-; reflexivity].
Qed.

Lemma search_needs_iterable_file_types_witness :
  codebase_search 10 Cases.same_hits (JStr "run") (JInt 3) Scenario.work
  = (Scenario.work, inl (failure "'int' object is not iterable"))
  /\ find_definition Cases.same_hits (JStr "run") (JInt 3) Scenario.work
     = (Scenario.work, inl (failure "'int' object is not iterable"))
  /\ "'int' object is not iterable" = "'" +:+ type_name (JInt 3) +:+ "' object is not iterable".
Proof.
  apply (search_needs_iterable_file_types 10 Cases.same_hits (JStr "run") (JInt 3)
           "'int' object is not iterable" Scenario.work).
  reflexivity.
Defined.

End SearchFacts.

Section DispatchFacts.
Import PyStr Json Host Py Proxy.

Context (sec : Security) (guess_type : string -> option string)
        (popen : string -> string -> World -> TerminalOperations.Process * World)
        (grep_search : json -> json -> json -> World -> list SearchOperations.Match + string)
        (list_directory search_files : json -> json -> M World json)
        (json_loads : string -> option json) (decode_error : string -> string)
        (available_tools : json) (backend : json -> Reply).

Local Abbreviation dispatch :=
  (execute_tool_call sec guess_type popen grep_search list_directory search_files).
Local Abbreviation run_call :=
  (run_tool_call sec guess_type popen grep_search list_directory search_files
                 json_loads decode_error).
Local Abbreviation run_calls :=
  (run_tool_calls sec guess_type popen grep_search list_directory search_files
                  json_loads decode_error).
Local Abbreviation round :=
  (tool_round sec guess_type popen grep_search list_directory search_files
              json_loads decode_error backend).
Local Abbreviation handle :=
  (handle_chat_completion sec guess_type popen grep_search list_directory search_files
                          json_loads decode_error available_tools backend).

(** X19.  A tool name the dispatcher has no branch for -- any string
    outside its nine names, or a name that is not a string, such as a
    missing one -- is answered with the "Unknown tool" failure, which
    spells the name; nothing is raised and the host is as it was. *)
Theorem unknown_tool_is_answered (tool_name arguments : json) (w : World) :
  Forall (fun n => PyVal.is_str n tool_name = false) known_tools ->
  dispatch tool_name arguments w
  = (w, inl (failure ("Unknown tool: " +:+ PyVal.str tool_name))).
Proof.
  intros Hnone. unfold known_tools in Hnone.
  repeat match goal with
         | H : Forall _ (_ :: _) |- _ => inversion H; subst; clear H
         end.
  unfold execute_tool_call, try_except.
  repeat match goal with
         | H : PyVal.is_str _ tool_name = false |- _ => rewrite H; clear H
         end.
  reflexivity.
Qed.

(** X20.  Arguments that are not a JSON object (a list, a string, a
    number, null) never reach a handler: for each of the nine tools the
    dispatcher answers with the "Tool execution failed" failure that
    names the type, and the host is as it was. *)
Theorem non_object_arguments_are_answered (name : string) (arguments : json) (w : World) :
  In name known_tools ->
  is_dict arguments = false ->
  dispatch (JStr name) arguments w
  = (w, inl (failure ("Tool execution failed: '" +:+ type_name arguments
                      +:+ "' object has no attribute 'get'"))).
Proof.
  intros Hin Hargs. unfold known_tools in Hin.
  repeat (destruct Hin as [<-|Hin]; [destruct arguments; try discriminate; reflexivity|]).
  destruct Hin.
Qed.

(** one pass of the loop body: the message answers the call, and nothing
    is posted to the model *)
Lemma run_tool_call_answers (tool_call m : json) (s s1 : Session) :
  run_call tool_call s = (s1, inl m) -> answers tool_call m /\ posted s1 = posted s.
Proof.
  unfold run_tool_call, loads, bind, lift, on_host, ret, raise.
  destruct (PyVal.get tool_call "function" (JObj [])) as [f|e] eqn:Hf; [|discriminate].
  destruct (PyVal.get f "name" JNull) as [name|e] eqn:Hn; [|discriminate].
  destruct (PyVal.get f "arguments" (JStr "{}")) as [raw|e] eqn:Hr; [|discriminate].
  destruct raw; try discriminate.
  destruct (json_loads s0) as [args|]; [|discriminate].
  destruct (dispatch name args (host s)) as [w' [r|e]]; [|discriminate].
  destruct (PyVal.get tool_call "id" JNull) as [id|e] eqn:Hid; [|discriminate].
  intros [= <- <-]. split; [|reflexivity].
  exists f, id, name, r. repeat split; assumption.
Qed.

(** one tool message per call, in order; the loop posts nothing *)
Lemma run_tool_calls_answers (tool_calls ms : list json) (s s1 : Session) :
  run_calls tool_calls s = (s1, inl ms) ->
  Forall2 answers tool_calls ms /\ posted s1 = posted s.
Proof.
  revert ms s. induction tool_calls as [|c calls IH]; intros ms s; cbn [run_tool_calls].
  - unfold ret. intros [= <- <-]. split; [constructor | reflexivity].
  - unfold bind at 1.
    destruct (run_call c s) as [s' [m|e]] eqn:Hc; [|discriminate].
    unfold bind at 1.
    destruct (run_calls calls s') as [s'' [ms'|e]] eqn:Hrest; [|discriminate].
    unfold ret. intros [= <- <-].
    destruct (run_tool_call_answers c m s s' Hc) as [Hans Hp].
    destruct (IH ms' s' Hrest) as [Hall Hp'].
    split; [constructor; assumption | congruence].
Qed.

(** X21.  When the loop over the tool calls runs to its end, it has
    produced exactly one tool message per call, in the order of the
    calls, each echoing the id of its call and the name of its function;
    the loop itself posts nothing to the model. *)
Theorem tool_messages_follow_calls (tool_calls ms : list json) (s s1 : Session) :
  run_calls tool_calls s = (s1, inl ms) ->
  Forall2 answers tool_calls ms /\ posted s1 = posted s.
Proof.
  exact (run_tool_calls_answers tool_calls ms s s1).
Qed.

Lemma dict_lookup_set_eq (k : string) (v : json) (m : list (string * json)) :
  dict_lookup k (dict_set k v m) = Some v.
Proof.
  induction m as [|[k' v'] m IH]; cbn [dict_set dict_lookup].
  - now rewrite String.eqb_refl.
  - destruct (String.eqb k k') eqn:E; cbn [dict_lookup]; rewrite ?String.eqb_refl, ?E; auto.
Qed.

Lemma dict_lookup_set_ne (k k' : string) (v : json) (m : list (string * json)) :
  k <> k' -> dict_lookup k' (dict_set k v m) = dict_lookup k' m.
Proof.
  intros Hne. induction m as [|[k0 v0] m IH]; cbn [dict_set dict_lookup].
  - destruct (String.eqb_spec k' k); [congruence | reflexivity].
  - destruct (String.eqb_spec k k0) as [->|Hk]; cbn [dict_lookup].
    + destruct (String.eqb_spec k' k0); [congruence | reflexivity].
    + destruct (String.eqb k' k0); [reflexivity | exact IH].
Qed.

Lemma dict_lookup_pop_ne (k k' : string) (m : list (string * json)) :
  k <> k' -> dict_lookup k' (PyVal.dict_pop k m) = dict_lookup k' m.
Proof.
  intros Hne. induction m as [|[k0 v0] m IH]; cbn [PyVal.dict_pop dict_lookup]; [reflexivity|].
  destruct (String.eqb_spec k k0) as [->|Hk]; cbn [dict_lookup].
  - destruct (String.eqb_spec k' k0); [congruence | reflexivity].
  - destruct (String.eqb k' k0); [reflexivity | exact IH].
Qed.

Lemma dict_lookup_absent (k : string) (m : list (string * json)) :
  ~ In k (map fst m) -> dict_lookup k m = None.
Proof.
  induction m as [|[k0 v0] m IH]; cbn [map fst dict_lookup In]; [reflexivity|].
  intros Hno. destruct (String.eqb_spec k k0) as [->|Hk]; [tauto|]. apply IH. tauto.
Qed.

Lemma dict_lookup_pop_eq (k : string) (m : list (string * json)) :
  List.NoDup (map fst m) -> dict_lookup k (PyVal.dict_pop k m) = None.
Proof.
  induction m as [|[k0 v0] m IH]; cbn [PyVal.dict_pop map fst]; [reflexivity|].
  intros Hnd. apply List.NoDup_cons_iff in Hnd as [Hk0 Hnd].
  destruct (String.eqb_spec k k0) as [->|Hk].
  - now apply dict_lookup_absent.
  - cbn [dict_lookup]. destruct (String.eqb_spec k k0); [congruence | now apply IH].
Qed.

Lemma dict_set_keys (k : string) (v : json) (m : list (string * json)) :
  map fst (dict_set k v m) = map fst m \/ (~ In k (map fst m) /\ map fst (dict_set k v m) = map fst m ++ [k]).
Proof.
  induction m as [|[k0 v0] m IH]; cbn [dict_set map fst].
  - right. split; [tauto | reflexivity].
  - destruct (String.eqb_spec k k0) as [->|Hk]; cbn [map fst]; [now left|].
    destruct IH as [IH|[Hno IH]]; rewrite IH; [now left|].
    right. split; [cbn [In]; intros [?|?]; [congruence|tauto] | reflexivity].
Qed.

Lemma dict_set_nodup (k : string) (v : json) (m : list (string * json)) :
  List.NoDup (map fst m) -> List.NoDup (map fst (dict_set k v m)).
Proof.
  intros Hnd. destruct (dict_set_keys k v m) as [->|[Hno ->]]; [exact Hnd|].
  apply List.NoDup_app; [exact Hnd | repeat constructor; intros [] |].
  intros x Hx [<-|[]]. contradiction.
Qed.

Lemma session_same (s : Session) : {| host := host s; posted := posted s |} = s.
Proof. destruct s; reflexivity. Qed.

Lemma handle_first_body (members : list (string * json)) :
  with_tools available_tools (JObj members) = inl (first_body available_tools members).
Proof.
  unfold with_tools, first_body, PyVal.contains_key, PyVal.getitem, PyVal.setitem.
  destruct (dict_lookup "tools" members) as [t|]; [|reflexivity].
  destruct (PyVal.truthy t); reflexivity.
Qed.

(** X22.  An answer of the model with a status other than 200 is handed
    to the client as it is, status and body, without being decoded: one
    request has been posted -- the client's own when it carried tools,
    otherwise with the catalogue added -- and the host is untouched. *)
Theorem error_reply_is_passed_through (members : list (string * json)) (s : Session)
        (code : Z) (content : string) :
  backend (first_body available_tools members) = Answer code content ->
  code <> 200 ->
  handle (JObj members) s
  = ({| host := host s; posted := posted s ++ [first_body available_tools members] |},
     inl {| status := code; body := Raw content |}).
Proof.
  intros Hback Hcode.
  unfold handle_chat_completion, handle_chat_completion_body, try_except.
  unfold bind at 1. unfold lift at 1. rewrite handle_first_body.
  unfold bind at 1. unfold post at 1. rewrite Hback. cbn [fst snd].
  apply Z.eqb_neq in Hcode. rewrite Hcode. reflexivity.
Qed.

(** X23.  A 200 answer whose body does not decode as JSON is not handed
    on: the client gets the 500 "Proxy error" envelope with the text of
    the decoding error. *)
Theorem undecodable_reply_is_an_error (members : list (string * json)) (s : Session)
        (content : string) :
  backend (first_body available_tools members) = Answer 200 content ->
  json_loads content = None ->
  handle (JObj members) s
  = ({| host := host s; posted := posted s ++ [first_body available_tools members] |},
     inl (proxy_error (decode_error content))).
Proof.
  intros Hback Hbad.
  unfold handle_chat_completion, handle_chat_completion_body, try_except.
  unfold bind at 1. unfold lift at 1. rewrite handle_first_body.
  unfold bind at 1. unfold post at 1. rewrite Hback. cbn [fst snd negb Z.eqb Pos.eqb].
  unfold bind at 1. unfold loads. rewrite Hbad. reflexivity.
Qed.

(** X24.  When the model cannot be reached the client gets the 500
    "Proxy error" envelope with the text of the transport error; the
    request was attempted once and the host is untouched. *)
Theorem unreachable_model_is_an_error (members : list (string * json)) (s : Session)
        (e : string) :
  backend (first_body available_tools members) = Unreachable e ->
  handle (JObj members) s
  = ({| host := host s; posted := posted s ++ [first_body available_tools members] |},
     inl (proxy_error e)).
Proof.
  intros Hback.
  unfold handle_chat_completion, handle_chat_completion_body, try_except.
  unfold bind at 1. unfold lift at 1. rewrite handle_first_body.
  unfold bind at 1. unfold post at 1. rewrite Hback. reflexivity.
Qed.

(** X25.  A request body that is not a JSON object is answered with the
    500 "Proxy error" envelope before anything is posted to the model. *)
Theorem request_must_be_an_object (data : json) (s : Session) :
  is_dict data = false ->
  exists e, handle data s = (s, inl (proxy_error e)).
Proof.
  intros Hdata.
  unfold handle_chat_completion, handle_chat_completion_body, try_except.
  unfold bind at 1. unfold lift at 1.
  unfold with_tools, PyVal.contains_key, PyVal.getitem, PyVal.setitem.
  destruct data; try discriminate; try (eexists; reflexivity).
  - destruct (contains s0 "tools"); eexists; reflexivity.
  - destruct (existsb (PyVal.is_str "tools") items); eexists; reflexivity.
Qed.

(** X26.  The tool round, when the loop over the calls has run to its
    end: the conversation of the follow-up request is the old messages,
    the assistant message and the tool messages of the loop, in that
    order; the follow-up carries no tool catalogue; it is posted exactly
    once, and its answer is what the client gets (a transport error is
    raised to the caller, with the effects of the tools already on the
    host). *)
Theorem tool_round_completes (members : list (string * json)) (messages : list json)
        (message tool_calls : json) (calls ms : list json) (s s1 : Session) :
  SearchOperations.py_iter tool_calls = inl calls ->
  run_calls calls s = (s1, inl ms) ->
  dict_lookup "messages" members = Some (JArr messages) ->
  List.NoDup (map fst members) ->
  let follow_up :=
    JObj (PyVal.dict_pop "tools"
            (dict_set "messages" (JArr (messages ++ message :: ms)) members)) in
  round (JObj members) message tool_calls s
  = ({| host := host s1; posted := posted s ++ [follow_up] |},
     match backend follow_up with
     | Answer code content => inl {| status := code; body := Raw content |}
     | Unreachable e => inr e
     end)
  /\ field "messages" follow_up = Some (JArr (messages ++ message :: ms))
  /\ field "tools" follow_up = None.
Proof.
  intros Hiter Hrun Hmsgs Hnd follow_up.
  destruct (run_tool_calls_answers calls ms s s1 Hrun) as [_ Hposted].
  split; [|split].
  - unfold tool_round. unfold bind at 1. unfold lift at 1. rewrite Hiter.
    unfold bind at 1. rewrite Hrun.
    unfold bind at 1. unfold lift at 1.
    unfold append_messages, PyVal.getitem. rewrite Hmsgs.
    cbn [PyVal.setitem without_tools app].
    unfold bind at 1. unfold post. cbn [host posted]. fold follow_up. rewrite Hposted.
    destruct (backend follow_up); reflexivity.
  - unfold follow_up, field.
    rewrite dict_lookup_pop_ne by discriminate. apply dict_lookup_set_eq.
  - unfold follow_up, field. apply dict_lookup_pop_eq, dict_set_nodup, Hnd.
Qed.

End DispatchFacts.

Section DispatchWitnesses.
Import PyStr Json Host Py Proxy.

Lemma unknown_tool_is_answered_witness :
  execute_tool_call Scenario.cap3 Scenario.no_mime Scenario.sleeper Scenario.no_grep
    Scenario.no_tool Scenario.no_tool JNull (JObj []) Scenario.work
  = (Scenario.work, inl (failure ("Unknown tool: " +:+ PyVal.str JNull))).
Proof.
  apply unknown_tool_is_answered. repeat constructor.
Defined.

Lemma non_object_arguments_are_answered_witness :
  execute_tool_call Scenario.cap3 Scenario.no_mime Scenario.sleeper Scenario.no_grep
    Scenario.no_tool Scenario.no_tool (JStr "delete_file") (JArr [JStr "notes.txt"])
    Scenario.work
  = (Scenario.work,
     inl (failure ("Tool execution failed: '" +:+ type_name (JArr [JStr "notes.txt"])
                   +:+ "' object has no attribute 'get'"))).
Proof.
  apply non_object_arguments_are_answered.
  - unfold known_tools. simpl. tauto.
  - reflexivity.
Defined.

Lemma tool_messages_follow_calls_witness :
  Forall2 answers
    [Scenario.create "call_A" "a.txt" "alpha"; Scenario.create "call_B" "b.txt" "beta"]
    [tool_message (JStr "call_A") (JStr "create_file")
       (success [("message", JStr "File created successfully: a.txt"); ("size", JInt 5)]);
     tool_message (JStr "call_B") (JStr "create_file")
       (success [("message", JStr "File created successfully: b.txt"); ("size", JInt 4)])]
  /\ posted (fst (run_tool_calls Scenario.cap3 Scenario.no_mime Scenario.sleeper
                    Scenario.no_grep Scenario.no_tool Scenario.no_tool JsonLoads.loads
                    Scenario.decode_error
                    [Scenario.create "call_A" "a.txt" "alpha";
                     Scenario.create "call_B" "b.txt" "beta"] Scenario.fresh))
     = posted Scenario.fresh.
Proof.
  apply (tool_messages_follow_calls Scenario.cap3 Scenario.no_mime Scenario.sleeper
           Scenario.no_grep Scenario.no_tool Scenario.no_tool JsonLoads.loads
           Scenario.decode_error).
  vm_compute. reflexivity.
Defined.

Lemma error_reply_is_passed_through_witness :
  handle_chat_completion Scenario.cap3 Scenario.no_mime Scenario.sleeper Scenario.no_grep
    Scenario.no_tool Scenario.no_tool JsonLoads.loads Scenario.decode_error
    Scenario.catalogue Cases.overloaded Scenario.request Scenario.fresh
  = ({| host := host Scenario.fresh;
        posted := posted Scenario.fresh
                  ++ [first_body Scenario.catalogue
                        [("model", JStr "qwen3"); ("messages", JArr [Scenario.user_turn])]] |},
     inl {| status := 503; body := Raw "model is loading" |}).
Proof.
  apply (error_reply_is_passed_through Scenario.cap3 Scenario.no_mime Scenario.sleeper
           Scenario.no_grep Scenario.no_tool Scenario.no_tool JsonLoads.loads
           Scenario.decode_error Scenario.catalogue Cases.overloaded).
  - reflexivity.
  - discriminate.
Defined.

Lemma undecodable_reply_is_an_error_witness :
  handle_chat_completion Scenario.cap3 Scenario.no_mime Scenario.sleeper Scenario.no_grep
    Scenario.no_tool Scenario.no_tool JsonLoads.loads Scenario.decode_error
    Scenario.catalogue Cases.chatty Scenario.request Scenario.fresh
  = ({| host := host Scenario.fresh;
        posted := posted Scenario.fresh
                  ++ [first_body Scenario.catalogue
                        [("model", JStr "qwen3"); ("messages", JArr [Scenario.user_turn])]] |},
     inl (proxy_error (Scenario.decode_error "Hello there")))
.
Proof.
  apply (undecodable_reply_is_an_error Scenario.cap3 Scenario.no_mime Scenario.sleeper
           Scenario.no_grep Scenario.no_tool Scenario.no_tool JsonLoads.loads
           Scenario.decode_error Scenario.catalogue Cases.chatty).
  - reflexivity.
  - vm_compute. reflexivity.
Defined.

Lemma unreachable_model_is_an_error_witness :
  handle_chat_completion Scenario.cap3 Scenario.no_mime Scenario.sleeper Scenario.no_grep
    Scenario.no_tool Scenario.no_tool JsonLoads.loads Scenario.decode_error
    Scenario.catalogue Cases.offline Scenario.request Scenario.fresh
  = ({| host := host Scenario.fresh;
        posted := posted Scenario.fresh
                  ++ [first_body Scenario.catalogue
                        [("model", JStr "qwen3"); ("messages", JArr [Scenario.user_turn])]] |},
     inl (proxy_error "Connection refused")).
Proof.
  apply (unreachable_model_is_an_error Scenario.cap3 Scenario.no_mime Scenario.sleeper
           Scenario.no_grep Scenario.no_tool Scenario.no_tool JsonLoads.loads
           Scenario.decode_error Scenario.catalogue Cases.offline).
  reflexivity.
Defined.

Lemma request_must_be_an_object_witness :
  exists e,
    handle_chat_completion Scenario.cap3 Scenario.no_mime Scenario.sleeper Scenario.no_grep
      Scenario.no_tool Scenario.no_tool JsonLoads.loads Scenario.decode_error
      Scenario.catalogue Cases.offline (JArr [Scenario.user_turn]) Scenario.fresh
    = (Scenario.fresh, inl (proxy_error e)).
Proof.
  apply (request_must_be_an_object Scenario.cap3 Scenario.no_mime Scenario.sleeper
           Scenario.no_grep Scenario.no_tool Scenario.no_tool JsonLoads.loads
           Scenario.decode_error Scenario.catalogue Cases.offline).
  reflexivity.
Defined.

Lemma tool_round_completes_witness :
  let members := [("model", JStr "qwen3"); ("messages", JArr [Scenario.user_turn]);
                  ("tools", Scenario.catalogue)] in
  let calls := [Scenario.create "call_A" "a.txt" "alpha";
                Scenario.create "call_B" "b.txt" "beta"] in
  let ms := [tool_message (JStr "call_A") (JStr "create_file")
               (success [("message", JStr "File created successfully: a.txt");
                         ("size", JInt 5)]);
             tool_message (JStr "call_B") (JStr "create_file")
               (success [("message", JStr "File created successfully: b.txt");
                         ("size", JInt 4)])] in
  let s1 := fst (run_tool_calls Scenario.cap3 Scenario.no_mime Scenario.sleeper
                   Scenario.no_grep Scenario.no_tool Scenario.no_tool JsonLoads.loads
                   Scenario.decode_error calls Scenario.fresh) in
  let follow_up :=
    JObj (PyVal.dict_pop "tools"
            (dict_set "messages"
               (JArr ([Scenario.user_turn] ++ Scenario.assistant calls :: ms)) members)) in
  tool_round Scenario.cap3 Scenario.no_mime Scenario.sleeper Scenario.no_grep
    Scenario.no_tool Scenario.no_tool JsonLoads.loads Scenario.decode_error
    (Scenario.model calls) (JObj members) (Scenario.assistant calls) (JArr calls) Scenario.fresh
  = ({| host := host s1; posted := posted Scenario.fresh ++ [follow_up] |},
     match Scenario.model calls follow_up with
     | Answer code content => inl {| status := code; body := Raw content |}
     | Unreachable e => inr e
     end)
  /\ field "messages" follow_up
     = Some (JArr ([Scenario.user_turn] ++ Scenario.assistant calls :: ms))
  /\ field "tools" follow_up = None.
Proof.
  intros members calls ms s1 follow_up.
  apply (tool_round_completes Scenario.cap3 Scenario.no_mime Scenario.sleeper
           Scenario.no_grep Scenario.no_tool Scenario.no_tool JsonLoads.loads
           Scenario.decode_error Scenario.catalogue (Scenario.model calls) members
           [Scenario.user_turn]
           (Scenario.assistant calls) (JArr calls) calls ms Scenario.fresh s1).
  - reflexivity.
  - vm_compute. reflexivity.
  - reflexivity.
  - repeat (apply List.NoDup_cons; [simpl; intuition discriminate|]). apply List.NoDup_nil.
Defined.

End DispatchWitnesses.

Section ConfigFacts.
Import PyStr Json ConfigLoader Catalogue.

Lemma split_never_empty (sep : ascii) (s : string) : split sep s <> [].
Proof.
  destruct s as [|a s]; cbn [split]; [discriminate|].
  destruct (Ascii.eqb a sep); [discriminate|].
  destruct (split sep s); discriminate.
Qed.

Lemma assign_then_descend (keys : list string) (value config config' : json) :
  keys <> [] ->
  assign keys value config = inl config' ->
  descend keys config' = Some value.
Proof.
  revert config config'. induction keys as [|k rest IH]; [congruence|]. intros config config' _.
  destruct rest as [|k2 rest].
  - cbn [assign descend]. destruct config; cbn [PyVal.setitem]; try discriminate.
    intros [= <-]. now rewrite dict_lookup_set_eq.
  - change (assign (k :: k2 :: rest) value config)
      with (match PyVal.contains_key k config with
            | inr e => inr e
            | inl present =>
                match (if present then inl config else PyVal.setitem config k (JObj [])) with
                | inr e => inr e
                | inl config1 =>
                    match PyVal.getitem config1 k with
                    | inr e => inr e
                    | inl child =>
                        match assign (k2 :: rest) value child with
                        | inr e => inr e
                        | inl child' => PyVal.setitem config1 k child'
                        end
                    end
                end
            end).
    destruct (PyVal.contains_key k config) as [present|e]; [|discriminate].
    destruct (if present then inl config else PyVal.setitem config k (JObj []))
      as [config1|e]; [|discriminate].
    destruct (PyVal.getitem config1 k) as [child|e]; [|discriminate].
    destruct (assign (k2 :: rest) value child) as [child'|e] eqn:Hrec; [|discriminate].
    destruct config1; cbn [PyVal.setitem]; try discriminate.
    intros [= <-]. cbn [descend]. rewrite dict_lookup_set_eq.
    apply (IH child child'); [discriminate | exact Hrec].
Qed.

(** X27.  Configuration round trip: after a [set] that went through, a
    [get] of the same dotted key returns the value that was set,
    whatever default is passed. *)
Theorem set_then_get (config config' : json) (key : string) (value dflt : json) :
  set config key value = inl config' ->
  get config' key dflt = value.
Proof.
  unfold set, get. intros Hset.
  now rewrite (assign_then_descend _ _ _ _ (split_never_empty "." key) Hset).
Qed.

Lemma set_then_get_witness :
  get (JObj [("security", JObj [("max_output_lines", JInt 50)])])
      "security.max_output_lines" (JInt 1000)
  = JInt 50.
Proof.
  apply (set_then_get (JObj []) _ "security.max_output_lines" (JInt 50) (JInt 1000)).
  vm_compute. reflexivity.
Defined.

(** X28.  A [set] that went through leaves the other sections of the
    configuration alone: a [get] of any key whose first component
    differs from that of the key that was set returns what it returned
    before. *)
Theorem set_keeps_other_sections (config config' : json) (key other : string)
        (value dflt : json) :
  set config key value = inl config' ->
  section_of key <> section_of other ->
  get config' other dflt = get config other dflt.
Proof.
  unfold set, get, section_of. intros Hset Hsec.
  destruct (split "." key) as [|a rest] eqn:Hk; [now apply split_never_empty in Hk|].
  destruct (split "." other) as [|b rest'] eqn:Ho; [now apply split_never_empty in Ho|].
  cbn [hd] in Hsec.
  assert (Hlook : exists m m', config = JObj m /\ config' = JObj m'
                               /\ dict_lookup b m' = dict_lookup b m).
  { destruct rest as [|k2 rest].
    - cbn [assign] in Hset. destruct config; cbn [PyVal.setitem] in Hset; try discriminate.
      injection Hset as <-. eexists _, _. repeat split. now apply dict_lookup_set_ne.
    - change (assign (a :: k2 :: rest) value config)
        with (match PyVal.contains_key a config with
              | inr e => inr e
              | inl present =>
                  match (if present then inl config else PyVal.setitem config a (JObj [])) with
                  | inr e => inr e
                  | inl config1 =>
                      match PyVal.getitem config1 a with
                      | inr e => inr e
                      | inl child =>
                          match assign (k2 :: rest) value child with
                          | inr e => inr e
                          | inl child' => PyVal.setitem config1 a child'
                          end
                      end
                  end
              end) in Hset.
      destruct config; cbn [PyVal.contains_key] in Hset; try discriminate;
        try (destruct (contains _ _); cbn [PyVal.setitem PyVal.getitem] in Hset; discriminate);
        try (destruct (existsb _ _); cbn [PyVal.setitem PyVal.getitem] in Hset; discriminate).
      destruct (dict_lookup a members) as [x|] eqn:Ha.
      + destruct (PyVal.getitem (JObj members) a) as [child|e]; [|discriminate].
        destruct (assign (k2 :: rest) value child) as [child'|e]; [|discriminate].
        cbn [PyVal.setitem] in Hset. injection Hset as <-.
        eexists _, _. repeat split. now apply dict_lookup_set_ne.
      + cbn [PyVal.setitem] in Hset.
        destruct (PyVal.getitem (JObj (dict_set a (JObj []) members)) a) as [child|e];
          [|discriminate].
        destruct (assign (k2 :: rest) value child) as [child'|e]; [|discriminate].
        cbn [PyVal.setitem] in Hset. injection Hset as <-.
        eexists _, _. repeat split. now rewrite !dict_lookup_set_ne. }
  destruct Hlook as (m & m' & -> & -> & Hb).
  cbn [descend]. now rewrite Hb.
Qed.

Lemma set_keeps_other_sections_witness :
  get (JObj [("tools", JObj [("enable_terminal", JBool false)]);
             ("security", JObj [("max_output_lines", JInt 50)])])
      "tools.enable_terminal" (JBool true)
  = get (JObj [("tools", JObj [("enable_terminal", JBool false)])])
        "tools.enable_terminal" (JBool true).
Proof.
  apply (set_keeps_other_sections _ _ "security.max_output_lines" "tools.enable_terminal"
           (JInt 50) (JBool true)).
  - vm_compute. reflexivity.
  - vm_compute. discriminate.
Defined.

Lemma names_by_flags (files terminal edits : bool) :
  names (JArr ((if files then [read_file_tool; list_directory_tool; delete_file_tool] else [])
               ++ (if terminal then [terminal_command_tool] else [])
               ++ (if edits then [edit_file_tool; create_file_tool] else [])
               ++ [search_files_tool; grep_search_tool; codebase_search_tool]))
  = map JStr
      ((if files then ["read_file"; "list_directory"; "delete_file"] else [])
       ++ (if terminal then ["terminal_command"] else [])
       ++ (if edits then ["edit_file"; "create_file"] else [])
       ++ ["search_files"; "grep_search"; "codebase_search"]).
Proof.
  destruct files, terminal, edits; vm_compute; reflexivity.
Qed.

Lemma get_available_tools_eq (config : json) :
  get_available_tools config
  = JArr ((if enabled config "tools.enable_file_operations"
           then [read_file_tool; list_directory_tool; delete_file_tool] else [])
          ++ (if enabled config "tools.enable_terminal" then [terminal_command_tool] else [])
          ++ (if enabled config "tools.enable_edit_operations"
              then [edit_file_tool; create_file_tool] else [])
          ++ [search_files_tool; grep_search_tool; codebase_search_tool]).
Proof.
  unfold get_available_tools, enabled. cbv beta zeta. exact eq_refl.
Qed.

(** X29.  The catalogue offered to the model: the file tools, the
    terminal tool and the two edit tools ([edit_file] and [create_file])
    are there exactly when their flag is set, a missing flag counting as
    set; the three search tools are always there.  Every name offered
    is one the dispatcher has a branch for, and no name is offered
    twice. *)
Theorem catalogue_follows_flags (config : json) :
  names (get_available_tools config)
  = map JStr
      ((if enabled config "tools.enable_file_operations"
        then ["read_file"; "list_directory"; "delete_file"] else [])
       ++ (if enabled config "tools.enable_terminal" then ["terminal_command"] else [])
       ++ (if enabled config "tools.enable_edit_operations"
           then ["edit_file"; "create_file"] else [])
       ++ ["search_files"; "grep_search"; "codebase_search"])
  /\ Forall (fun n => exists k, n = JStr k /\ In k known_tools)
            (names (get_available_tools config))
  /\ List.NoDup (names (get_available_tools config))
  /\ names (get_available_tools (JObj [])) = map JStr
        ["read_file"; "list_directory"; "delete_file"; "terminal_command";
         "edit_file"; "create_file"; "search_files"; "grep_search"; "codebase_search"].
Proof.
  rewrite (get_available_tools_eq config), names_by_flags.
  split; [reflexivity|].
  split; [|split; [|vm_compute; reflexivity]].
  - destruct (enabled config "tools.enable_file_operations"),
      (enabled config "tools.enable_terminal"),
      (enabled config "tools.enable_edit_operations");
      cbn [map app];
      repeat (constructor; [eexists; split; [reflexivity | unfold known_tools; simpl; tauto]|]);
      constructor.
  - destruct (enabled config "tools.enable_file_operations"),
      (enabled config "tools.enable_terminal"),
      (enabled config "tools.enable_edit_operations");
      cbn [map app];
      repeat (apply List.NoDup_cons; [simpl; intuition discriminate|]); apply List.NoDup_nil.
Qed.

End ConfigFacts.
